(** * cloudhand: scan -> graph -> spec -> codegen -> apply/deploy

    A shallow embedding of the core pipeline of [src/cloudhand]:
    - [models.py]             the resource graph and the desired-state records,
    - [core/spec.py]          the graph-to-spec compiler [graph_to_spec],
    - [terraform_gen.py]      the Hetzner generator,
    - [adapters/deployer.py]  the SSH deployer,
    - [core/apply.py]         the apply orchestrator,
    followed by the properties stated about them.

    Strings are [string]s whose characters stand for code points below 256.
    Python dictionaries whose order is observable are insertion-ordered
    association lists; a dictionary only ever read by key is a [gmap]. *)

From stdpp Require Import base option list strings gmap.
From Stdlib Require Import ZArith Ascii DecimalString.

Open Scope string_scope.
Open Scope list_scope.
Open Scope nat_scope.

(** ** Python string primitives *)

Module PyStr.

(** The double quote and the line feed, spelled by their codes. *)
Definition dq : string := String (Ascii.ascii_of_nat 34) EmptyString.
Definition nl : string := String (Ascii.ascii_of_nat 10) EmptyString.

(** [s.startswith(p)] *)
Definition startswith (s p : string) : bool := String.prefix p s.

(** [sub in s] *)
Fixpoint contains (sub s : string) : bool :=
  String.prefix sub s ||
  match s with
  | EmptyString => false
  | String _ s' => contains sub s'
  end.

Definition rev_string (s : string) : string :=
  String.string_of_list_ascii (rev (String.list_ascii_of_string s)).

(** [s.endswith(p)] *)
Definition endswith (s p : string) : bool :=
  String.prefix (rev_string p) (rev_string s).

(** [s.replace(old, new)] for a non-empty [old]: occurrences are found
    left to right and do not overlap. [skip] counts the characters of an
    occurrence that are still to be consumed. *)
Fixpoint replace_from (old new s : string) (skip : nat) : string :=
  match s with
  | EmptyString => EmptyString
  | String c s' =>
      match skip with
      | S k => replace_from old new s' k
      | O =>
          if String.prefix old s
          then new +:+ replace_from old new s' (String.length old - 1)
          else String c (replace_from old new s' 0)
      end
  end.

(** With an empty [old], Python puts [new] before every character and at
    the end. *)
Fixpoint interleave (new s : string) : string :=
  match s with
  | EmptyString => new
  | String c s' => new +:+ String c (interleave new s')
  end.

Definition replace (s old new : string) : string :=
  match old with
  | EmptyString => interleave new s
  | _ => replace_from old new s 0
  end.

(** [str.isspace] on one code point below 256. *)
Definition isspace (c : Ascii.ascii) : bool :=
  let n := Ascii.nat_of_ascii c in
  (((9 <=? n) && (n <=? 13)) || ((28 <=? n) && (n <=? 32))
   || (n =? 133) || (n =? 160))%nat.

Fixpoint lstrip (s : string) : string :=
  match s with
  | EmptyString => EmptyString
  | String c s' => if isspace c then lstrip s' else s
  end.

Fixpoint rstrip (s : string) : string :=
  match s with
  | EmptyString => EmptyString
  | String c s' =>
      match rstrip s' with
      | EmptyString => if isspace c then EmptyString else String c EmptyString
      | r => String c r
      end
  end.

(** [s.strip()] *)
Definition strip (s : string) : string := rstrip (lstrip s).

Definition lower_char (c : Ascii.ascii) : Ascii.ascii :=
  let n := Ascii.nat_of_ascii c in
  if (((65 <=? n) && (n <=? 90))
      || ((192 <=? n) && (n <=? 214)) || ((216 <=? n) && (n <=? 222)))%nat
  then Ascii.ascii_of_nat (n + 32) else c.

(** [s.lower()] *)
Fixpoint lower (s : string) : string :=
  match s with
  | EmptyString => EmptyString
  | String c s' => String (lower_char c) (lower s')
  end.

(** [sep.join(parts)] *)
Fixpoint join (sep : string) (parts : list string) : string :=
  match parts with
  | [] => EmptyString
  | [p] => p
  | p :: rest => p +:+ sep +:+ join sep rest
  end.

(** ["".join(parts)] *)
Definition concat (parts : list string) : string :=
  fold_right String.append EmptyString parts.

(** A text given by its lines, each ended by a line feed. *)
Definition text (lines : list string) : string :=
  concat (map (λ l, l +:+ nl) lines).

(** [str(n)] for an [int]. *)
Definition str_of_int (n : Z) : string := NilZero.string_of_int (Z.to_int n).

(** Truthiness of a [str] and of an [Optional[str]]. *)
Definition truthy (s : string) : bool :=
  match s with EmptyString => false | _ => true end.

Definition truthy_opt (o : option string) : bool :=
  match o with Some s => truthy s | None => false end.

(** [o or d] for an [Optional[str]] [o] and a [str] [d]. *)
Definition or_else (o : option string) (d : string) : string :=
  match o with
  | Some s => if truthy s then s else d
  | None => d
  end.

(** [os.path.basename] and [os.path.dirname] (posixpath). *)
Fixpoint after_last_slash (s : string) : string :=
  match s with
  | EmptyString => EmptyString
  | String c s' =>
      if contains "/" s' then after_last_slash s'
      else if Ascii.eqb c "/"%char then s' else s
  end.

Definition basename (p : string) : string := after_last_slash p.

Fixpoint upto_last_slash (s : string) : string :=
  match s with
  | EmptyString => EmptyString
  | String c s' =>
      if contains "/" s' then String c (upto_last_slash s')
      else if Ascii.eqb c "/"%char then String c EmptyString else EmptyString
  end.

Fixpoint rstrip_slash (s : string) : string :=
  match s with
  | EmptyString => EmptyString
  | String c s' =>
      match rstrip_slash s' with
      | EmptyString => if Ascii.eqb c "/"%char then EmptyString else String c EmptyString
      | r => String c r
      end
  end.

Definition dirname (p : string) : string :=
  let head := upto_last_slash p in
  match rstrip_slash head with
  | EmptyString => head
  | stripped => stripped
  end.

End PyStr.

(** ** Insertion-ordered dictionaries ([dict] whose order is observable) *)

Module PyDict.

Definition t (V : Type) : Type := list (string * V).

(** [d.get(k)] *)
Fixpoint get {V} (k : string) (d : t V) : option V :=
  match d with
  | [] => None
  | (k', v) :: rest => if decide (k = k') then Some v else get k rest
  end.

(** [k in d] *)
Definition contains {V} (k : string) (d : t V) : bool :=
  match get k d with Some _ => true | None => false end.

(** [d[k] = v]: an existing key keeps its place, a new key goes last. *)
Fixpoint set {V} (k : string) (v : V) (d : t V) : t V :=
  match d with
  | [] => [(k, v)]
  | (k', v') :: rest =>
      if decide (k = k') then (k, v) :: rest else (k', v') :: set k v rest
  end.

(** [d.setdefault(k, v)] (the dictionary afterwards). *)
Definition setdefault {V} (k : string) (v : V) (d : t V) : t V :=
  if contains k d then d else d ++ [(k, v)].

Definition keys {V} (d : t V) : list string := map fst d.
Definition values {V} (d : t V) : list V := map snd d.
Definition items {V} (d : t V) : list (string * V) := d.

End PyDict.

(** ** models.py *)

Module NodeType.
Inductive t :=
| COMPUTE_INSTANCE | LOAD_BALANCER | NETWORK | SUBNET
| FIREWALL | VOLUME | IP_ADDRESS | DNS_RECORD.

#[global] Instance eq_dec : EqDecision t.
Proof. solve_decision. Defined.

Definition value (x : t) : string :=
  match x with
  | COMPUTE_INSTANCE => "ComputeInstance"
  | LOAD_BALANCER => "LoadBalancer"
  | NETWORK => "Network"
  | SUBNET => "Subnet"
  | FIREWALL => "Firewall"
  | VOLUME => "Volume"
  | IP_ADDRESS => "IpAddress"
  | DNS_RECORD => "DnsRecord"
  end.

Definition all : list t :=
  [COMPUTE_INSTANCE; LOAD_BALANCER; NETWORK; SUBNET;
   FIREWALL; VOLUME; IP_ADDRESS; DNS_RECORD].
End NodeType.

Module EdgeType.
Inductive t :=
| ATTACHED_TO | IN_NETWORK | PROTECTED_BY | TARGETS | RESOLVES_TO.

#[global] Instance eq_dec : EqDecision t.
Proof. solve_decision. Defined.

Definition value (x : t) : string :=
  match x with
  | ATTACHED_TO => "attached_to"
  | IN_NETWORK => "in_network"
  | PROTECTED_BY => "protected_by"
  | TARGETS => "targets"
  | RESOLVES_TO => "resolves_to"
  end.

Definition all : list t :=
  [ATTACHED_TO; IN_NETWORK; PROTECTED_BY; TARGETS; RESOLVES_TO].
End EdgeType.

Module Node.
Record t := mk {
  id : string;
  type : NodeType.t;
  name : option string;
  region : option string;
  zone : option string;
  provider : option string;
  provider_native_id : option string;
  labels : PyDict.t string;
  attrs : PyDict.t string;
}.
End Node.

Module Edge.
Record t := mk {
  from_id : string;
  to_id : string;
  type : EdgeType.t;
}.
End Edge.

Module CloudGraph.
Record t := mk {
  nodes : list Node.t;
  edges : list Edge.t;
}.
End CloudGraph.

Module RuntimeType.
Inductive t := DOCKER | NODEJS | PYTHON | STATIC | GO.

#[global] Instance eq_dec : EqDecision t.
Proof. solve_decision. Defined.

Definition value (x : t) : string :=
  match x with
  | DOCKER => "docker"
  | NODEJS => "nodejs"
  | PYTHON => "python"
  | STATIC => "static"
  | GO => "go"
  end.
End RuntimeType.

Module ServiceSpec.
Record t := mk {
  command : string;
  environment : PyDict.t string;
  environment_file : option string;
  environment_file_upload : option string;
  ports : list Z;
  server_names : list string;
  https : bool;
}.
End ServiceSpec.

Module BuildSpec.
Record t := mk {
  install_command : option string;
  build_command : option string;
  system_packages : list string;
}.
End BuildSpec.

Module ApplicationSpec.
Record t := mk {
  name : string;
  repo_url : string;
  branch : string;
  runtime : RuntimeType.t;
  build_config : BuildSpec.t;
  service_config : ServiceSpec.t;
  destination_path : string;
}.
End ApplicationSpec.

Module NetworkSpec.
Record t := mk {
  name : string;
  cidr : string;
}.
End NetworkSpec.

Module UnattendedUpgradesPolicy.
Record t := mk {
  enabled : bool;
  allowed_origins : list string;
  auto_reboot : bool;
  auto_reboot_time : string;
}.
End UnattendedUpgradesPolicy.

Module MaintenancePolicy.
Record t := mk {
  unattended_upgrades : UnattendedUpgradesPolicy.t;
}.
End MaintenancePolicy.

Module InstanceSpec.
Record t := mk {
  name : string;
  size : string;
  network : string;
  region : option string;
  labels : PyDict.t string;
  workloads : list ApplicationSpec.t;
  maintenance : option MaintenancePolicy.t;
}.
End InstanceSpec.

Module LoadBalancerSpec.
Record t := mk {
  name : string;
  network : string;
  ports : list (Z * string);          (* LoadBalancerPortSpec: port, protocol *)
  targets : list (string * string);   (* LoadBalancerTargetSpec: type, selector *)
}.
End LoadBalancerSpec.

Module FirewallRuleSpec.
Record t := mk {
  direction : string;
  protocol : string;
  port : option string;
  cidr : option string;
}.
End FirewallRuleSpec.

Module FirewallSpec.
Record t := mk {
  name : string;
  rules : list FirewallRuleSpec.t;
  targets : list (string * string);   (* FirewallTargetSpec: type, selector *)
}.
End FirewallSpec.

Module DnsRecordSpec.
Record t := mk {
  zone : string;
  name : string;
  type : string;
  target : string;
}.
End DnsRecordSpec.

Module ContainerSpec.
Record t := mk {
  name : string;
  image : string;
  host_selector : string;
  ports : list (Z * option Z);        (* ContainerPortSpec *)
  env : list (string * string);       (* ContainerEnvVar *)
  volumes : list (string * string);   (* ContainerVolumeSpec *)
  restart_policy : string;
}.
End ContainerSpec.

Module DesiredStateSpec.
Record t := mk {
  provider : string;
  region : option string;
  networks : list NetworkSpec.t;
  instances : list InstanceSpec.t;
  load_balancers : list LoadBalancerSpec.t;
  firewalls : list FirewallSpec.t;
  dns_records : list DnsRecordSpec.t;
  containers : list ContainerSpec.t;
}.
End DesiredStateSpec.

(** ** core/spec.py: the graph-to-spec compiler *)

Module Spec.

(** [regions.add(r)] on a [set[str]], kept as its insertion history. *)
Definition set_add (r : string) (s : list string) : list string :=
  if decide (r ∈ s) then s else s ++ [r].

(** The state of the third loop: [networks], [regions], [instances]. *)
Record acc := mk_acc {
  networks : PyDict.t NetworkSpec.t;
  regions : list string;
  instances : list InstanceSpec.t;
}.

(** First loop: one [NetworkSpec] per Network node, keyed by node id. *)
Definition add_network (networks : PyDict.t NetworkSpec.t) (node : Node.t)
  : PyDict.t NetworkSpec.t :=
  if decide (NodeType.value (Node.type node) = "Network") then
    let cidr := PyStr.or_else (PyDict.get "ip_range" (Node.attrs node)) "10.0.0.0/24" in
    let name := PyStr.or_else (Node.name node) (Node.id node) in
    PyDict.set (Node.id node) (NetworkSpec.mk name cidr) networks
  else networks.

Definition build_networks (g : CloudGraph.t) : PyDict.t NetworkSpec.t :=
  fold_left add_network (CloudGraph.nodes g) [].

(** Second loop: server id -> network name, through [in_network] edges
    whose target is a key of [networks]. *)
Definition add_edge (networks : PyDict.t NetworkSpec.t)
    (server_network : gmap string string) (edge : Edge.t) : gmap string string :=
  if decide (EdgeType.value (Edge.type edge) = "in_network") then
    match PyDict.get (Edge.to_id edge) networks with
    | Some net => <[Edge.from_id edge := NetworkSpec.name net]> server_network
    | None => server_network
    end
  else server_network.

Definition build_server_network (networks : PyDict.t NetworkSpec.t)
    (g : CloudGraph.t) : gmap string string :=
  fold_left (add_edge networks) (CloudGraph.edges g) ∅.

(** Third loop: one [InstanceSpec] per ComputeInstance node. *)
Definition add_instance (server_network : gmap string string)
    (st : acc) (node : Node.t) : acc :=
  if decide (NodeType.value (Node.type node) = "ComputeInstance") then
    let net_name := default "default" (server_network !! Node.id node) in
    let networks' :=
      if decide (net_name ∈ map NetworkSpec.name (PyDict.values (networks st)))
      then networks st
      else PyDict.setdefault ("synthetic:" +:+ net_name)
             (NetworkSpec.mk net_name "10.0.0.0/24") (networks st) in
    let size := PyStr.or_else (PyDict.get "server_type" (Node.attrs node)) "cx21" in
    let inst_region := Node.region node in
    let regions' :=
      match inst_region with
      | Some r => if PyStr.truthy r then set_add r (regions st) else regions st
      | None => regions st
      end in
    mk_acc networks' regions'
      (instances st ++
         [InstanceSpec.mk (PyStr.or_else (Node.name node) (Node.id node))
            size net_name inst_region (Node.labels node) [] None])
  else st.

Section GraphToSpec.

(** The order in which a [set[str]] with the given insertion history is
    iterated: it follows the strings' hashes, which the program does not
    control. *)
Variable set_iter : list string → list string.

Definition graph_to_spec (graph : CloudGraph.t) (provider : string)
  : DesiredStateSpec.t :=
  let networks0 := build_networks graph in
  let server_network := build_server_network networks0 graph in
  let st := fold_left (add_instance server_network) (CloudGraph.nodes graph)
              (mk_acc networks0 [] []) in
  let region :=
    match regions st with
    | [] => None
    | _ => head (set_iter (regions st))
    end in
  DesiredStateSpec.mk provider region (PyDict.values (networks st))
    (instances st) [] [] [] [].

End GraphToSpec.

(** An iteration order is admissible when it lists exactly the members. *)
Definition valid_set_iter (set_iter : list string → list string) : Prop :=
  ∀ s, NoDup s → set_iter s ≡ₚ s.

End Spec.

(** ** JSON documents and the CloudGraph schema

    [scan.json] is written by [graph.model_dump_json(indent=2)] and read
    back by [CloudGraph.model_validate(json.loads(text))]. The document is
    kept as a tree; printing and parsing the text are the JSON library's. *)

Module Json.
#[local] Unset Elimination Schemes.
Inductive t :=
| Null
| Bool (b : bool)
| Num (n : Z)
| Str (s : string)
| Arr (items : list t)
| Obj (fields : PyDict.t t).
#[local] Set Elimination Schemes.

(** Truthiness of the decoded Python value. *)
Definition truthy (j : t) : bool :=
  match j with
  | Null => false
  | Bool b => b
  | Num n => negb (n =? 0)%Z
  | Str s => PyStr.truthy s
  | Arr items => match items with [] => false | _ => true end
  | Obj fields => match fields with [] => false | _ => true end
  end.
End Json.

Module GraphCodec.

(** *** Serialization: fields in declaration order, under their names. *)

Definition dump_opt_str (o : option string) : Json.t :=
  match o with Some s => Json.Str s | None => Json.Null end.

Definition dump_dict (d : PyDict.t string) : Json.t :=
  Json.Obj (map (λ kv, (kv.1, Json.Str kv.2)) d).

Definition dump_node (n : Node.t) : Json.t :=
  Json.Obj
    [("id", Json.Str (Node.id n));
     ("type", Json.Str (NodeType.value (Node.type n)));
     ("name", dump_opt_str (Node.name n));
     ("region", dump_opt_str (Node.region n));
     ("zone", dump_opt_str (Node.zone n));
     ("provider", dump_opt_str (Node.provider n));
     ("provider_native_id", dump_opt_str (Node.provider_native_id n));
     ("labels", dump_dict (Node.labels n));
     ("attrs", dump_dict (Node.attrs n))].

Definition dump_edge (e : Edge.t) : Json.t :=
  Json.Obj
    [("from_id", Json.Str (Edge.from_id e));
     ("to_id", Json.Str (Edge.to_id e));
     ("type", Json.Str (EdgeType.value (Edge.type e)))].

(** [CloudGraph.model_dump_json] *)
Definition model_dump (g : CloudGraph.t) : Json.t :=
  Json.Obj
    [("nodes", Json.Arr (map dump_node (CloudGraph.nodes g)));
     ("edges", Json.Arr (map dump_edge (CloudGraph.edges g)))].

(** *** Validation: [None] stands for a ValidationError. *)

(** A required [str] field. *)
Definition req_str (o : option Json.t) : option string :=
  match o with Some (Json.Str s) => Some s | _ => None end.

(** An [Optional[str] = None] field. *)
Definition opt_str (o : option Json.t) : option (option string) :=
  match o with
  | None | Some Json.Null => Some None
  | Some (Json.Str s) => Some (Some s)
  | Some _ => None
  end.

(** A [Dict[str, str]] field with an empty default. *)
Definition str_dict (o : option Json.t) : option (PyDict.t string) :=
  match o with
  | None => Some []
  | Some (Json.Obj fields) =>
      mapM (λ kv, match kv.2 with
                  | Json.Str s => Some (kv.1, s)
                  | _ => None
                  end) fields
  | Some _ => None
  end.

(** An enumeration field, given by its value. *)
Definition enum_of {T} (value : T → string) (all : list T) (o : option Json.t)
  : option T :=
  s ← req_str o;
  snd <$> list_find (λ x, value x = s) all.

Definition validate_node (j : Json.t) : option Node.t :=
  match j with
  | Json.Obj o =>
      id ← req_str (PyDict.get "id" o);
      type ← enum_of NodeType.value NodeType.all (PyDict.get "type" o);
      name ← opt_str (PyDict.get "name" o);
      region ← opt_str (PyDict.get "region" o);
      zone ← opt_str (PyDict.get "zone" o);
      provider ← opt_str (PyDict.get "provider" o);
      provider_native_id ← opt_str (PyDict.get "provider_native_id" o);
      labels ← str_dict (PyDict.get "labels" o);
      attrs ← str_dict (PyDict.get "attrs" o);
      Some (Node.mk id type name region zone provider provider_native_id labels attrs)
  | _ => None
  end.

(** A field with an alias, under [populate_by_name]: the alias first, then
    the field's own name. *)
Definition aliased (alias name : string) (o : PyDict.t Json.t) : option Json.t :=
  match PyDict.get alias o with
  | Some v => Some v
  | None => PyDict.get name o
  end.

Definition validate_edge (j : Json.t) : option Edge.t :=
  match j with
  | Json.Obj o =>
      from_id ← req_str (aliased "from" "from_id" o);
      to_id ← req_str (aliased "to" "to_id" o);
      type ← enum_of EdgeType.value EdgeType.all (PyDict.get "type" o);
      Some (Edge.mk from_id to_id type)
  | _ => None
  end.

(** A [List[...]] field with an empty default. *)
Definition list_of {T} (item : Json.t → option T) (o : option Json.t)
  : option (list T) :=
  match o with
  | None => Some []
  | Some (Json.Arr items) => mapM item items
  | Some _ => None
  end.

(** [CloudGraph.model_validate] *)
Definition model_validate (j : Json.t) : option CloudGraph.t :=
  match j with
  | Json.Obj o =>
      nodes ← list_of validate_node (PyDict.get "nodes" o);
      edges ← list_of validate_edge (PyDict.get "edges" o);
      Some (CloudGraph.mk nodes edges)
  | _ => None
  end.

End GraphCodec.

(** ** Effects: exceptions, events and the monad of the pipeline *)

Module Eff.

(** The exceptions the pipeline raises or lets through; all of them are
    caught by [except Exception]. *)
Inductive exn :=
| Exception (msg : string)
| ConnectionError (msg : string)
| FileNotFoundError (msg : string)
| ValueError (msg : string)
| ValidationError                      (* pydantic's, a ValueError *)
| JSONDecodeError                      (* json's, a ValueError *)
| CalledProcessError (returncode : Z) (cmd : list string)
| IndexError
| LibraryError (msg : string).         (* what a library call raised *)

(** Whether [except ValueError] would catch it. *)
Definition is_value_error (e : exn) : bool :=
  match e with
  | ValueError _ | ValidationError | JSONDecodeError => true
  | _ => false
  end.

Inductive result (A : Type) :=
| Ok (a : A)
| Raise (e : exn).
Arguments Ok {A} a.
Arguments Raise {A} e.

(** What a deployer does to its host, with what came back. *)
Inductive ssh_event :=
| Log (line : string)                                   (* print *)
| Connect (ip : string) (ok : bool)                     (* client.connect *)
| Sleep (seconds : Z)
| Exec (ip cmd : string) (outcome : exn + Z * string * string)
    (* exec_command: exit status, stdout, stderr *)
| Upload (ip path content : string) (failure : option exn).

(** What the orchestrator does on the local machine. *)
Inductive event :=
| Print (line : string)
| Mkdir (path : string)
| WriteText (path content : string)
| SshKey (project_id : string)                          (* get_or_create_project_ssh_key *)
| Subprocess (argv : list string) (cwd : string) (env : PyDict.t string)
    (outcome : exn + Z * string)
    (* subprocess.run / check_output with the variables set on top of
       os.environ: return code, stdout *)
| Deploy (e : ssh_event).

(** A computation reads the events so far and yields an outcome with the
    events it added. *)
Definition M (E A : Type) : Type := list E → result A * list E.

Definition ret {E A} (a : A) : M E A := λ _, (Ok a, []).

Definition raise {E A} (e : exn) : M E A := λ _, (Raise e, []).

Definition bind {E A B} (m : M E A) (k : A → M E B) : M E B :=
  λ hist,
    match m hist with
    | (Ok a, ev1) => let '(r, ev2) := k a (hist ++ ev1) in (r, ev1 ++ ev2)
    | (Raise e, ev1) => (Raise e, ev1)
    end.

Definition emit {E} (e : E) : M E unit := λ _, (Ok tt, [e]).

(** [try: body / except Exception: handler] *)
Definition try_except {E A} (body : M E A) (handler : M E A) : M E A :=
  λ hist,
    match body hist with
    | (Ok a, ev1) => (Ok a, ev1)
    | (Raise _, ev1) => let '(r, ev2) := handler (hist ++ ev1) in (r, ev1 ++ ev2)
    end.

#[global] Instance M_ret {E} : MRet (M E) := @ret E.
#[global] Instance M_bind {E} : MBind (M E) := λ A B k m, bind m k.

(** [if c: body] *)
Definition when {E} (c : bool) (body : M E unit) : M E unit :=
  if c then body else ret tt.

(** [for x in xs: body] *)
Fixpoint for_each {E X} (xs : list X) (body : X → M E unit) : M E unit :=
  match xs with
  | [] => ret tt
  | x :: rest => body x ;; for_each rest body
  end.

Definition ssh_of (e : event) : option ssh_event :=
  match e with Deploy s => Some s | _ => None end.

(** [m] adds only events that satisfy [P]. *)
Definition only {E A} (P : E → Prop) (m : M E A) : Prop :=
  ∀ hist r ev, m hist = (r, ev) → Forall P ev.

(** A deployer's computation inside the orchestrator's. *)
Definition lift_ssh {A} (m : M ssh_event A) : M event A :=
  λ hist, let '(r, ev) := m (omap ssh_of hist) in (r, map Deploy ev).

End Eff.

(** ** terraform_gen.py *)

Module TerraformGen.
Import Eff.

#[local] Abbreviation dq := PyStr.dq.
#[local] Abbreviation nl := PyStr.nl.

Definition DEFAULT_ALLOWED_ORIGINS : list string :=
  [ "${distro_id}:${distro_codename}-security";
    "${distro_id}ESMApps:${distro_codename}-apps-security";
    "${distro_id}ESM:${distro_codename}-infra-security" ].

Definition DEFAULT_REBOOT_TIME : string := "04:00".

(** The interface of a generator: its provider id and [generate]. *)
Record TerraformGenerator := {
  id : string;
  generate : DesiredStateSpec.t → string → string → string → M event unit;
}.

(** [out_dir / name] *)
Definition path_join (dir name : string) : string := dir +:+ "/" +:+ name.

(** [(out_dir / name).write_text(content)] *)
Definition write_text (dir name content : string) : M event unit :=
  emit (WriteText (path_join dir name) content).

Module Hetzner.

Definition _base_user_data : string :=
  PyStr.text
    [ "#cloud-config";
      "package_update: true";
      "package_upgrade: true";
      "packages:";
      "  - git";
      "  - curl";
      "  - python3";
      "  - python3-pip";
      "  - nginx";
      "  - docker.io";
      "  - unattended-upgrades";
      "";
      "ssh_pwauth: false";
      "chpasswd:";
      "  expire: False";
      "  list: |";
      "    root:cloudhand-temp-rotate";
      "users:";
      "  - name: root";
      "    ssh_authorized_keys:";
      "      - ${var.ssh_public_key}";
      "";
      "write_files:";
      "  - path: /etc/apt/apt.conf.d/20auto-upgrades";
      ("    permissions: " +:+ dq +:+ "0644" +:+ dq);
      "    content: |";
      ("      APT::Periodic::Update-Package-Lists " +:+ dq +:+ "__CH_PERIODIC_UPDATE__" +:+ dq +:+ ";");
      ("      APT::Periodic::Unattended-Upgrade " +:+ dq +:+ "__CH_PERIODIC_UPGRADE__" +:+ dq +:+ ";");
      "";
      "  - path: /etc/apt/apt.conf.d/50unattended-upgrades";
      ("    permissions: " +:+ dq +:+ "0644" +:+ dq);
      "    content: |";
      "      Unattended-Upgrade::Allowed-Origins {";
      "__CH_ALLOWED_ORIGINS__";
      "      };";
      "";
      ("      Unattended-Upgrade::Automatic-Reboot " +:+ dq +:+ "__CH_AUTO_REBOOT__" +:+ dq +:+ ";");
      ("      Unattended-Upgrade::Automatic-Reboot-Time " +:+ dq +:+ "__CH_REBOOT_TIME__" +:+ dq +:+ ";");
      "";
      "  - path: /etc/systemd/system/apt-daily.timer.d/override.conf";
      ("    permissions: " +:+ dq +:+ "0644" +:+ dq);
      "    content: |";
      "      [Timer]";
      "      OnCalendar=";
      "      OnCalendar=*-*-* 02:00:00";
      "      RandomizedDelaySec=15m";
      "      Persistent=false";
      "";
      "  - path: /etc/systemd/system/apt-daily-upgrade.timer.d/override.conf";
      ("    permissions: " +:+ dq +:+ "0644" +:+ dq);
      "    content: |";
      "      [Timer]";
      "      OnCalendar=";
      "      OnCalendar=*-*-* 02:15:00";
      "      RandomizedDelaySec=15m";
      "      Persistent=false";
      "";
      "runcmd:";
      ("  - bash -lc " +:+ dq +:+ "chage -I -1 -m 0 -M 99999 -E -1 root" +:+ dq);
      ("  - bash -lc " +:+ dq +:+ "chage -d $(date +%Y-%m-%d) root" +:+ dq);
      "  - passwd -d root || true";
      "  - systemctl daemon-reload";
      "  - systemctl restart apt-daily.timer apt-daily-upgrade.timer";
      "  - systemctl enable nginx";
      "  - systemctl start nginx" ].

Definition _render_allowed_origins (origins : list string) : string :=
  let escaped := map (λ origin, PyStr.replace origin "${" "$${") origins in
  PyStr.concat (map (λ origin, "          " +:+ dq +:+ origin +:+ dq +:+ ";" +:+ nl) escaped).

Definition _user_data_for_instance (inst : InstanceSpec.t) : string :=
  let labels := InstanceSpec.labels inst in
  let role := PyStr.lower (PyStr.or_else (PyDict.get "role" labels) "") in
  let stateful :=
    bool_decide (PyStr.lower (default "" (PyDict.get "stateful" labels)) = "true")
    || bool_decide (role ∈ ["db"; "postgres"]) in
  let policy := MaintenancePolicy.unattended_upgrades <$> InstanceSpec.maintenance inst in
  let allowed_origins :=
    match policy with
    | Some p =>
        match UnattendedUpgradesPolicy.allowed_origins p with
        | [] => DEFAULT_ALLOWED_ORIGINS
        | origins => origins
        end
    | None => DEFAULT_ALLOWED_ORIGINS
    end in
  let auto_reboot_value :=
    match policy with
    | Some p => UnattendedUpgradesPolicy.auto_reboot p
    | None => negb stateful
    end in
  let reboot_time :=
    match policy with
    | Some p => PyStr.or_else (Some (UnattendedUpgradesPolicy.auto_reboot_time p))
                  DEFAULT_REBOOT_TIME
    | None => DEFAULT_REBOOT_TIME
    end in
  let periodic :=
    match policy with
    | Some p => if UnattendedUpgradesPolicy.enabled p then "1" else "0"
    | None => "1"
    end in
  let periodic_update := periodic in
  let periodic_upgrade := periodic in
  let s := _base_user_data in
  let s := PyStr.replace s "__CH_ALLOWED_ORIGINS__" (_render_allowed_origins allowed_origins) in
  let s := PyStr.replace s "__CH_AUTO_REBOOT__" (if auto_reboot_value then "true" else "false") in
  let s := PyStr.replace s "__CH_REBOOT_TIME__" reboot_time in
  let s := PyStr.replace s "__CH_PERIODIC_UPDATE__" periodic_update in
  PyStr.replace s "__CH_PERIODIC_UPGRADE__" periodic_upgrade.

Definition _server_block (inst : InstanceSpec.t) (spec : DesiredStateSpec.t)
    (user_data : string) : string :=
  let res_name := PyStr.replace (InstanceSpec.name inst) "-" "_" in
  let net_name := PyStr.replace (InstanceSpec.network inst) "-" "_" in
  let labels_hcl :=
    PyStr.concat
      (map (λ kv, "    " +:+ kv.1 +:+ " = " +:+ dq +:+ kv.2 +:+ dq +:+ nl)
         (PyDict.items (InstanceSpec.labels inst))) in
  let user_data_hcl := "  user_data = <<-EOF" +:+ nl +:+ user_data +:+ "EOF" +:+ nl in
  let location :=
    if PyStr.truthy_opt (InstanceSpec.region inst) then InstanceSpec.region inst
    else DesiredStateSpec.region spec in
  PyStr.concat
    ([ "resource " +:+ dq +:+ "hcloud_server" +:+ dq +:+ " " +:+ dq +:+ res_name +:+ dq +:+ " {" +:+ nl;
       "  name        = " +:+ dq +:+ InstanceSpec.name inst +:+ dq +:+ nl;
       "  server_type = " +:+ dq +:+ InstanceSpec.size inst +:+ dq +:+ nl;
       "  image       = " +:+ dq +:+ "ubuntu-22.04" +:+ dq +:+ nl ]
     ++ (if PyStr.truthy_opt location
         then [ "  location    = " +:+ dq +:+ default "" location +:+ dq +:+ nl ]
         else [])
     ++ (if PyStr.truthy labels_hcl
         then [ "  labels = {" +:+ nl +:+ labels_hcl +:+ "  }" +:+ nl ]
         else [])
     ++ [ nl +:+ "  network {" +:+ nl;
          "    network_id = data.hcloud_network." +:+ net_name +:+ ".id" +:+ nl;
          "  }" +:+ nl +:+ nl;
          user_data_hcl;
          "  lifecycle {" +:+ nl;
          "    ignore_changes = [user_data]" +:+ nl;
          "  }" +:+ nl;
          "}" +:+ nl +:+ nl ]).

Definition backend_tf : string :=
  PyStr.text
    [ "terraform {";
      "  # Using local backend for now; swap to remote backend when available.";
      "}" ].

Definition providers_tf : string :=
  PyStr.text
    [ "terraform {";
      "  required_providers {";
      "    hcloud = {";
      ("      source  = " +:+ dq +:+ "hetznercloud/hcloud" +:+ dq);
      ("      version = " +:+ dq +:+ "~> 1.0" +:+ dq);
      "    }";
      "  }";
      "}";
      "";
      ("provider " +:+ dq +:+ "hcloud" +:+ dq +:+ " {");
      "  token = var.hcloud_token";
      "}" ].

Definition variables_tf : string :=
  PyStr.text
    [ ("variable " +:+ dq +:+ "hcloud_token" +:+ dq +:+ " {");
      "  type      = string";
      "  sensitive = true";
      "}";
      "";
      ("variable " +:+ dq +:+ "ssh_public_key" +:+ dq +:+ " {");
      "  type = string";
      "}" ].

Definition network_blocks (spec : DesiredStateSpec.t) : list string :=
  map (λ net,
         let res_name := PyStr.replace (NetworkSpec.name net) "-" "_" in
         "data " +:+ dq +:+ "hcloud_network" +:+ dq +:+ " " +:+ dq +:+ res_name +:+ dq +:+ " {" +:+ nl
         +:+ "  name = " +:+ dq +:+ NetworkSpec.name net +:+ dq +:+ nl
         +:+ "}" +:+ nl +:+ nl)
    (DesiredStateSpec.networks spec).

Definition server_blocks (spec : DesiredStateSpec.t) : list string :=
  map (λ inst, _server_block inst spec (_user_data_for_instance inst))
    (DesiredStateSpec.instances spec).

Definition outputs (spec : DesiredStateSpec.t) : list string :=
  [ "output " +:+ dq +:+ "server_ips" +:+ dq +:+ " {" +:+ nl +:+ "  value = {" +:+ nl ]
  ++ map (λ inst,
            let res_name := PyStr.replace (InstanceSpec.name inst) "-" "_" in
            "    " +:+ dq +:+ InstanceSpec.name inst +:+ dq
            +:+ " = hcloud_server." +:+ res_name +:+ ".ipv4_address" +:+ nl)
       (DesiredStateSpec.instances spec)
  ++ [ "  }" +:+ nl +:+ "}" +:+ nl ].

(** [HetznerTerraformGenerator.generate]; the local file system is taken
    to accept the writes. *)
Definition generate (spec : DesiredStateSpec.t)
    (out_dir project_id workspace_id : string) : M event unit :=
  emit (Mkdir out_dir) ;;
  write_text out_dir "backend.tf" backend_tf ;;
  write_text out_dir "providers.tf" providers_tf ;;
  write_text out_dir "variables.tf" variables_tf ;;
  write_text out_dir "network.tf" (PyStr.concat (network_blocks spec)) ;;
  write_text out_dir "servers.tf" (PyStr.concat (server_blocks spec)) ;;
  write_text out_dir "outputs.tf" (PyStr.concat (outputs spec)).

End Hetzner.

Definition HetznerTerraformGenerator : TerraformGenerator :=
  {| id := "hetzner"; generate := Hetzner.generate |}.

Definition GENERATOR_BY_PROVIDER : PyDict.t TerraformGenerator :=
  [ (id HetznerTerraformGenerator, HetznerTerraformGenerator) ].

Definition get_generator (provider : string) : M event TerraformGenerator :=
  match PyDict.get provider GENERATOR_BY_PROVIDER with
  | Some g => ret g
  | None => raise (ValueError ("Unknown provider: " +:+ provider))
  end.

End TerraformGen.

(** ** adapters/deployer.py *)

Module Deployer.
Import Eff.

#[local] Abbreviation dq := PyStr.dq.
#[local] Abbreviation nl := PyStr.nl.

(** What the deployer cannot decide by itself: the SSH transport, the
    remote host, the process environment and the local files. Each answer
    may depend on everything done so far. *)
Record World := {
  rsa_key_ok : string → bool;
  transport_active : list ssh_event → string → bool;
  connect_ok : list ssh_event → string → bool;
  exec_command : list ssh_event → string → string → exn + Z * string * string;
  sftp_write : list ssh_event → string → string → string → option exn;
  getenv : string → option string;
  expanduser : string → string;
  resolve : string → string;
  cwd : string;
  read_text : string → option string;   (* [None]: no such file *)
}.

(** [os.getenv(a) or os.getenv(b) or ...] *)
Definition getenv_truthy (W : World) (name : string) : option string :=
  match getenv W name with
  | Some v => if PyStr.truthy v then Some v else None
  | None => None
  end.

Record ServerDeployer := {
  ip : string;
  user : string;
  key : string;
  local_root : option string;
}.

Section WithWorld.
Variable W : World.

(** [ServerDeployer(ip, private_key_str, user, local_root)] *)
Definition init (ip private_key_str user : string) (local_root : option string)
  : M ssh_event ServerDeployer :=
  if rsa_key_ok W private_key_str then
    ret {| ip := ip; user := user; key := private_key_str;
           local_root := (λ p, resolve W (expanduser W p)) <$> local_root |}
  else raise (LibraryError "SSHException").

Definition try_connect (d : ServerDeployer) : M ssh_event bool :=
  λ hist, let ok := connect_ok W hist (ip d) in (Ok ok, [Connect (ip d) ok]).

Fixpoint connect_attempts (d : ServerDeployer) (n : nat) : M ssh_event unit :=
  match n with
  | O => raise (ConnectionError ("Could not connect to " +:+ ip d))
  | S n' =>
      ok ← try_connect d;
      if ok : bool then ret tt
      else emit (Sleep 5) ;; connect_attempts d n'
  end.

Definition connect (d : ServerDeployer) : M ssh_event unit :=
  connect_attempts d 10.

Definition ensure_transport (d : ServerDeployer) : M ssh_event unit :=
  λ hist, if transport_active W hist (ip d) then (Ok tt, []) else connect d hist.

Definition exec (d : ServerDeployer) (cmd : string) : M ssh_event (Z * string * string) :=
  λ hist,
    let outcome := exec_command W hist (ip d) cmd in
    (match outcome with inl e => Raise e | inr r => Ok r end,
     [Exec (ip d) cmd outcome]).

(** The command as it is printed: each non-empty [mask] entry starred out. *)
Definition masked (final_cmd : string) (mask : option (list string)) : string :=
  fold_left (λ display_cmd m,
               if PyStr.truthy m then PyStr.replace display_cmd m "***"
               else display_cmd)
    (default [] mask) final_cmd.

Definition run (d : ServerDeployer) (cmd : string)
    (cwd : option string) (mask : option (list string)) : M ssh_event string :=
  ensure_transport d ;;
  let final_cmd :=
    if PyStr.truthy_opt cwd then "cd " +:+ default "" cwd +:+ " && " +:+ cmd else cmd in
  let display_cmd := masked final_cmd mask in
  emit (Log ("[" +:+ ip d +:+ "] Running: " +:+ display_cmd)) ;;
  r ← exec d final_cmd;
  let exit_code := r.1.1 in
  let out := PyStr.strip r.1.2 in
  let err := PyStr.strip r.2 in
  if negb (exit_code =? 0)%Z
  then raise (Exception ("Command failed: " +:+ final_cmd +:+ nl +:+ "Error: " +:+ err))
  else ret out.

Definition run_ (d : ServerDeployer) (cmd : string) : M ssh_event unit :=
  run d cmd None None ;; ret tt.

Definition sftp (d : ServerDeployer) (content remote_path : string)
  : M ssh_event unit :=
  λ hist,
    let failure := sftp_write W hist (ip d) remote_path content in
    (match failure with Some e => Raise e | None => Ok tt end,
     [Upload (ip d) remote_path content failure]).

Definition upload_file (d : ServerDeployer) (content remote_path : string)
  : M ssh_event unit :=
  ensure_transport d ;;
  sftp d content remote_path.

Definition _normalize_server_names (server_names : list string) : list string :=
  fold_left (λ names name,
               let cleaned := PyStr.strip name in
               if PyStr.truthy cleaned && negb (bool_decide (cleaned ∈ names))
               then names ++ [cleaned] else names)
    server_names [].

Definition _server_name_directive (server_names : list string) : string :=
  match server_names with
  | [] => "_"
  | _ => PyStr.join " " server_names
  end.

Definition _resolve_local_path (d : ServerDeployer) (raw_path : string) : string :=
  let path := expanduser W raw_path in
  let path :=
    if negb (PyStr.startswith path "/")
    then default (cwd W) (local_root d) +:+ "/" +:+ path
    else path in
  resolve W path.

Definition _env_lines_from_map (env_map : PyDict.t string) : list string :=
  map (λ kv, kv.1 +:+ "=" +:+ PyStr.strip kv.2) (PyDict.items env_map).

Definition _upload_env_content (d : ServerDeployer) (content remote_path : string)
  : M ssh_event unit :=
  let remote_dir := PyStr.dirname remote_path in
  when (PyStr.truthy remote_dir) (run_ d ("mkdir -p " +:+ remote_dir)) ;;
  upload_file d content remote_path ;;
  run_ d ("chmod 600 " +:+ remote_path).

Definition _write_env_file (d : ServerDeployer) (app : ApplicationSpec.t)
    (path : option string) : M ssh_event (option string) :=
  let lines := _env_lines_from_map
                 (ServiceSpec.environment (ApplicationSpec.service_config app)) in
  match lines with
  | [] => ret None
  | _ =>
      let target :=
        PyStr.or_else path ("/etc/cloudhand/env/" +:+ ApplicationSpec.name app +:+ ".env") in
      _upload_env_content d (PyStr.join nl lines +:+ nl) target ;;
      ret (Some target)
  end.

Definition _parse_env_file_path (raw_path app_dir : string) : option (string * bool) :=
  let cleaned := PyStr.strip raw_path in
  if negb (PyStr.truthy cleaned) then None
  else
    let optional := PyStr.startswith cleaned "-" in
    let cleaned :=
      if optional
      then match cleaned with String _ rest => rest | EmptyString => EmptyString end
      else cleaned in
    let resolved :=
      if PyStr.startswith cleaned "/" then cleaned else app_dir +:+ "/" +:+ cleaned in
    Some (resolved, optional).

Definition _resolve_env_file (raw_path app_dir : string) : option string :=
  match _parse_env_file_path raw_path app_dir with
  | None => None
  | Some (resolved, optional) => Some (if optional : bool then "-" +:+ resolved else resolved)
  end.

Definition _env_file_directives (d : ServerDeployer) (app : ApplicationSpec.t)
    (app_dir : string) : M ssh_event string :=
  let sc := ApplicationSpec.service_config app in
  st ←
    (if PyStr.truthy_opt (ServiceSpec.environment_file_upload sc) then
       let local_path :=
         _resolve_local_path d (default "" (ServiceSpec.environment_file_upload sc)) in
       match read_text W local_path with
       | None => raise (FileNotFoundError ("Environment file not found at " +:+ local_path))
       | Some content =>
           let content :=
             if negb (PyStr.endswith content nl) then content +:+ nl else content in
           let extra_lines := _env_lines_from_map (ServiceSpec.environment sc) in
           let content :=
             match extra_lines with
             | [] => content
             | _ => content +:+ PyStr.join nl extra_lines +:+ nl
             end in
           let env_map_consumed :=
             match extra_lines with [] => false | _ => true end in
           let target_raw :=
             PyStr.or_else (ServiceSpec.environment_file sc)
               ("/etc/cloudhand/env/" +:+ ApplicationSpec.name app +:+ ".env") in
           match _parse_env_file_path target_raw app_dir with
           | None =>
               raise (ValueError "environment_file_upload set but no target path resolved")
           | Some (target_path, optional) =>
               _upload_env_content d content target_path ;;
               ret ([if optional : bool then "-" +:+ target_path else target_path],
                    env_map_consumed)
           end
       end
     else if PyStr.truthy_opt (ServiceSpec.environment_file sc) then
       match _resolve_env_file (default "" (ServiceSpec.environment_file sc)) app_dir with
       | Some resolved => if PyStr.truthy resolved then ret ([resolved], false)
                          else ret ([], false)
       | None => ret ([], false)
       end
     else ret ([], false));
  let env_files : list string := st.1 in
  let env_map_consumed : bool := st.2 in
  env_files ←
    (match ServiceSpec.environment sc with
     | _ :: _ =>
         if negb env_map_consumed then
           generated ← _write_env_file d app None;
           match generated with
           | Some g => if PyStr.truthy g then ret (env_files ++ [g]) else ret env_files
           | None => ret env_files
           end
         else ret env_files
     | [] => ret env_files
     end);
  match env_files with
  | [] => ret ""
  | _ => ret (PyStr.join nl (map (λ path, "EnvironmentFile=" +:+ path) env_files))
  end.

Definition _configure_systemd (d : ServerDeployer) (app : ApplicationSpec.t)
    (app_dir : string) : M ssh_event unit :=
  env_str ← _env_file_directives d app app_dir;
  let unit :=
    PyStr.text
      [ "[Unit]";
        "Description=" +:+ ApplicationSpec.name app;
        "After=network.target";
        "";
        "[Service]";
        "Type=simple";
        "User=root";
        "WorkingDirectory=" +:+ app_dir;
        "ExecStart=" +:+ ServiceSpec.command (ApplicationSpec.service_config app);
        "Restart=always";
        env_str;
        "";
        "[Install]";
        "WantedBy=multi-user.target" ] in
  upload_file d unit ("/etc/systemd/system/" +:+ ApplicationSpec.name app +:+ ".service") ;;
  run_ d "systemctl daemon-reload" ;;
  run_ d ("systemctl enable " +:+ ApplicationSpec.name app) ;;
  run_ d ("systemctl restart " +:+ ApplicationSpec.name app).

Definition _enable_https (d : ServerDeployer) (server_names : list string)
  : M ssh_event unit :=
  let names := _normalize_server_names server_names in
  match names with
  | [] =>
      emit (Log ("[" +:+ ip d +:+ "] HTTPS requested but no server_names configured; "
                 +:+ "skipping certificate setup."))
  | _ =>
      let domain_args := PyStr.join " " (map (λ name, "-d " +:+ name) names) in
      found ← run d "command -v certbox || command -v certbot || true" None None;
      cert_cmd ←
        (if negb (PyStr.truthy (PyStr.strip found)) then
           run_ d ("DEBIAN_FRONTEND=noninteractive apt-get update && "
                   +:+ "DEBIAN_FRONTEND=noninteractive apt-get install -y certbot python3-certbot-nginx") ;;
           ret "certbot"
         else ret (PyStr.strip found));
      let cmd_name := PyStr.basename cert_cmd in
      if decide (cmd_name = "certbot") then
        let email :=
          PyStr.or_else (getenv_truthy W "CERTBOT_EMAIL")
            (PyStr.or_else (getenv_truthy W "LETSENCRYPT_EMAIL") "") in
        let email_flag :=
          if PyStr.truthy email then "--email " +:+ email
          else "--register-unsafely-without-email" in
        run_ d (cert_cmd +:+ " --nginx " +:+ domain_args
                +:+ " --non-interactive --agree-tos " +:+ email_flag +:+ " --redirect")
      else
        run_ d (cert_cmd +:+ " --nginx " +:+ domain_args
                +:+ " --non-interactive --agree-tos --redirect "
                +:+ "--register-unsafely-without-email")
  end.

(** [ports[0]] *)
Definition first_port (app : ApplicationSpec.t) : M ssh_event Z :=
  match ServiceSpec.ports (ApplicationSpec.service_config app) with
  | port :: _ => ret port
  | [] => raise IndexError
  end.

Definition _configure_nginx (d : ServerDeployer) (app : ApplicationSpec.t)
  : M ssh_event unit :=
  let sc := ApplicationSpec.service_config app in
  match ServiceSpec.ports sc with
  | [] => ret tt
  | _ =>
      nginx_bin ← run d "command -v nginx || true" None None;
      when (negb (PyStr.truthy (PyStr.strip nginx_bin)))
        (run_ d ("DEBIAN_FRONTEND=noninteractive apt-get update && "
                 +:+ "DEBIAN_FRONTEND=noninteractive apt-get install -y nginx")) ;;
      run_ d "mkdir -p /etc/nginx/sites-available /etc/nginx/sites-enabled" ;;
      run_ d "systemctl enable nginx || true" ;;
      run_ d "systemctl start nginx || true" ;;
      port ← first_port app;
      let server_names := _normalize_server_names (ServiceSpec.server_names sc) in
      let server_name_line := _server_name_directive server_names in
      let conf :=
        PyStr.join nl
          [ "server {";
            "    listen 80;";
            "    server_name " +:+ server_name_line +:+ ";";
            "    location / {";
            "        proxy_pass http://127.0.0.1:" +:+ PyStr.str_of_int port +:+ ";";
            "        proxy_http_version 1.1;";
            "        proxy_set_header Upgrade $http_upgrade;";
            "        proxy_set_header Connection 'upgrade';";
            "        proxy_set_header Host $host;";
            "    }";
            "}" ] in
      let name := ApplicationSpec.name app in
      upload_file d conf ("/etc/nginx/sites-available/" +:+ name) ;;
      run_ d ("ln -sf /etc/nginx/sites-available/" +:+ name
              +:+ " /etc/nginx/sites-enabled/" +:+ name) ;;
      run_ d "rm -f /etc/nginx/sites-enabled/default" ;;
      run_ d "systemctl reload nginx" ;;
      when (ServiceSpec.https sc) (_enable_https d server_names)
  end.

(** *** [configure_combined_nginx]

    The workloads handed over are distinct objects, so [app is root_app]
    is a comparison of positions in [candidates]. *)

Definition has_ports (app : ApplicationSpec.t) : Prop :=
  ServiceSpec.ports (ApplicationSpec.service_config app) ≠ [].

#[global] Instance has_ports_dec app : Decision (has_ports app).
Proof. unfold has_ports. apply _. Defined.

Definition named_ui (app : ApplicationSpec.t) : Prop :=
  PyStr.contains "ui" (PyStr.lower (ApplicationSpec.name app)) = true.

#[global] Instance named_ui_dec app : Decision (named_ui app).
Proof. unfold named_ui. apply _. Defined.

Definition location_block (prefix : string) (port : Z) : string :=
  PyStr.join nl
    [ "    location " +:+ prefix +:+ " {";
      "        proxy_pass http://127.0.0.1:" +:+ PyStr.str_of_int port +:+ "/;";
      "        proxy_http_version 1.1;";
      "        proxy_set_header Upgrade $http_upgrade;";
      "        proxy_set_header Connection 'upgrade';";
      "        proxy_set_header Host $host;";
      "        proxy_set_header X-Real-IP $remote_addr;";
      "    }" ].

(** The loop that fills [locations]; [i] is the position of the head of
    [candidates]. *)
Fixpoint location_blocks (root_idx i : nat) (candidates : list ApplicationSpec.t)
  : M ssh_event (list string) :=
  match candidates with
  | [] => ret []
  | app :: rest =>
      port ← first_port app;
      if decide (i = root_idx) then location_blocks root_idx (S i) rest
      else
        let name := PyStr.lower (ApplicationSpec.name app) in
        let prefix :=
          if PyStr.contains "api" name then "/api/"
          else "/" +:+ ApplicationSpec.name app +:+ "/" in
        let prefix :=
          if negb (PyStr.startswith prefix "/") then "/" +:+ prefix else prefix in
        let prefix :=
          if negb (PyStr.endswith prefix "/") then prefix +:+ "/" else prefix in
        blocks ← location_blocks root_idx (S i) rest;
        ret (location_block prefix port :: blocks)
  end.

(** The text of the single site: [config] joined by line feeds. *)
Definition combined_site (server_name_line : string) (root_port : Z)
    (locations : list string) : string :=
  let config :=
    [ "server {";
      "    listen 80;";
      "    server_name " +:+ server_name_line +:+ ";";
      "    client_max_body_size 25m;";
      "    location / {";
      "        proxy_pass http://127.0.0.1:" +:+ PyStr.str_of_int root_port +:+ "/;";
      "        proxy_http_version 1.1;";
      "        proxy_set_header Upgrade $http_upgrade;";
      "        proxy_set_header Connection 'upgrade';";
      "        proxy_set_header Host $host;";
      "        proxy_set_header X-Real-IP $remote_addr;";
      "    }" ]
    ++ locations ++ [ "}" ] in
  PyStr.join nl config.

Definition configure_combined_nginx (d : ServerDeployer)
    (apps : list ApplicationSpec.t) : M ssh_event unit :=
  let candidates := filter has_ports apps in
  match candidates with
  | [] => ret tt
  | first :: _ =>
      let root := default (0, first) (list_find named_ui candidates) in
      let root_idx := root.1 in
      let root_app := root.2 in
      root_port ← first_port root_app;
      locations ← location_blocks root_idx 0 candidates;
      let server_names :=
        flat_map (λ app, ServiceSpec.server_names (ApplicationSpec.service_config app))
          candidates in
      let https_enabled :=
        existsb (λ app, ServiceSpec.https (ApplicationSpec.service_config app))
          candidates in
      let server_names := _normalize_server_names server_names in
      let server_name_line := _server_name_directive server_names in
      let conf := combined_site server_name_line root_port locations in
      upload_file d conf "/etc/nginx/sites-available/cloudhand" ;;
      run_ d "ln -sf /etc/nginx/sites-available/cloudhand /etc/nginx/sites-enabled/cloudhand" ;;
      run_ d "rm -f /etc/nginx/sites-enabled/default || true" ;;
      run_ d "systemctl reload nginx" ;;
      when https_enabled (_enable_https d server_names)
  end.

(** *** [deploy] *)

Definition gh_token : string :=
  PyStr.or_else (getenv_truthy W "GITHUB_TOKEN")
    (PyStr.or_else (getenv_truthy W "GH_TOKEN")
       (PyStr.or_else (getenv_truthy W "GITHUB_PAT") "")).

Definition app_dir_of (app : ApplicationSpec.t) : string :=
  ApplicationSpec.destination_path app +:+ "/" +:+ ApplicationSpec.name app.

Definition token_mask : option (list string) :=
  if PyStr.truthy gh_token then Some [gh_token] else None.

Definition fetch_cmd (app : ApplicationSpec.t) : string :=
  if PyStr.truthy gh_token then
    "git -c http.extraheader=" +:+ dq +:+ "Authorization: Bearer " +:+ gh_token +:+ dq +:+ " "
    +:+ "fetch origin && git -c http.extraheader=" +:+ dq +:+ "Authorization: Bearer "
    +:+ gh_token +:+ dq +:+ " "
    +:+ "reset --hard origin/" +:+ ApplicationSpec.branch app
  else "git fetch origin && git reset --hard origin/" +:+ ApplicationSpec.branch app.

(** The body of the [try]. *)
Definition fetch_existing (d : ServerDeployer) (app : ApplicationSpec.t)
  : M ssh_event unit :=
  let app_dir := app_dir_of app in
  run_ d ("test -d " +:+ app_dir) ;;
  run d (fetch_cmd app) (Some app_dir) token_mask ;;
  ret tt.

(** The body of the [except Exception]. *)
Definition reclone (d : ServerDeployer) (app : ApplicationSpec.t)
  : M ssh_event unit :=
  let app_dir := app_dir_of app in
  run_ d ("rm -rf " +:+ app_dir) ;;
  run_ d ("mkdir -p " +:+ ApplicationSpec.destination_path app) ;;
  let clone_url :=
    if PyStr.truthy gh_token
    then PyStr.replace (ApplicationSpec.repo_url app) "https://"
           ("https://" +:+ gh_token +:+ "@")
    else ApplicationSpec.repo_url app in
  run d ("git clone --branch " +:+ ApplicationSpec.branch app +:+ " " +:+ clone_url
         +:+ " " +:+ app_dir) None token_mask ;;
  ret tt.

(** Step 2 of [deploy]. *)
Definition git_sync (d : ServerDeployer) (app : ApplicationSpec.t)
  : M ssh_event unit :=
  try_except (fetch_existing d app) (reclone d app).

(** Step 1 of [deploy]. *)
Definition system_deps (d : ServerDeployer) (app : ApplicationSpec.t)
  : M ssh_event unit :=
  let packages := BuildSpec.system_packages (ApplicationSpec.build_config app) in
  when (match packages with [] => false | _ => true end)
    (run_ d ("DEBIAN_FRONTEND=noninteractive apt-get update && "
             +:+ "DEBIAN_FRONTEND=noninteractive apt-get install -y "
             +:+ PyStr.join " " packages)) ;;
  when (bool_decide (ApplicationSpec.runtime app = RuntimeType.NODEJS))
    (run_ d "DEBIAN_FRONTEND=noninteractive apt-get purge -y nodejs npm libnode-dev libnode72 || true" ;;
     run_ d "DEBIAN_FRONTEND=noninteractive apt-get autoremove -y || true" ;;
     run_ d ("bash -lc " +:+ dq +:+ "curl -fsSL https://deb.nodesource.com/setup_20.x | bash -" +:+ dq) ;;
     run_ d "DEBIAN_FRONTEND=noninteractive apt-get install -y nodejs").

(** Step 3 of [deploy]. *)
Definition build (d : ServerDeployer) (app : ApplicationSpec.t) : M ssh_event unit :=
  let bc := ApplicationSpec.build_config app in
  let app_dir := app_dir_of app in
  when (PyStr.truthy_opt (BuildSpec.install_command bc))
    (run d (default "" (BuildSpec.install_command bc)) (Some app_dir) None ;; ret tt) ;;
  when (PyStr.truthy_opt (BuildSpec.build_command bc))
    (run d (default "" (BuildSpec.build_command bc)) (Some app_dir) None ;; ret tt).

(** Step 4 of [deploy]. *)
Definition services (d : ServerDeployer) (app : ApplicationSpec.t)
    (configure_nginx : bool) : M ssh_event unit :=
  _configure_systemd d app (app_dir_of app) ;;
  when configure_nginx (_configure_nginx d app).

Definition deploy (d : ServerDeployer) (app : ApplicationSpec.t)
    (configure_nginx : bool) : M ssh_event unit :=
  system_deps d app ;;
  git_sync d app ;;
  build d app ;;
  services d app configure_nginx.
End WithWorld.
End Deployer.

(** ** core/paths.py and core/apply.py *)

Module Apply.
Import Eff.

(** What the orchestrator cannot decide by itself. *)
Record World := {
  ssh : Deployer.World;
  plan_text : string → option string;          (* [None]: no such file *)
  json_loads : string → option Json.t;         (* [None]: JSONDecodeError *)
  model_validate : Json.t → option DesiredStateSpec.t;   (* [None]: ValidationError *)
  model_dump_json : DesiredStateSpec.t → string;
  get_or_create_project_ssh_key : list event → string → exn + string * string;
  which : string → option string;
  subprocess : list event → list string → string → PyDict.t string → exn + Z * string;
  format_runtime : RuntimeType.t → string;
}.

(** [cloudhand_dir(root)] and [terraform_dir(root)] for a given [root]. *)
Definition cloudhand_dir (root : string) : string := TerraformGen.path_join root "cloudhand".
Definition terraform_dir (root : string) : string :=
  TerraformGen.path_join (cloudhand_dir root) "terraform".

Section WithWorld.
Variable W : World.

Definition getenv (name : string) : option string := Deployer.getenv (ssh W) name.

Definition ssh_key (project_id : string) : M event (string * string) :=
  λ hist,
    (match get_or_create_project_ssh_key W hist project_id with
     | inl e => Raise e
     | inr keys => Ok keys
     end, [SshKey project_id]).

(** [subprocess.run(argv, cwd=cwd, env=env)]: the return code and stdout. *)
Definition subprocess_run (argv : list string) (cwd : string) (env : PyDict.t string)
  : M event (Z * string) :=
  λ hist,
    let outcome := subprocess W hist argv cwd env in
    (match outcome with inl e => Raise e | inr r => Ok r end,
     [Subprocess argv cwd env outcome]).

(** [subprocess.run(..., check=True)] and [subprocess.check_output(...)] *)
Definition subprocess_checked (argv : list string) (cwd : string) (env : PyDict.t string)
  : M event string :=
  r ← subprocess_run argv cwd env;
  if negb (r.1 =? 0)%Z then raise (CalledProcessError r.1 argv) else ret r.2.

(** [d.get(key, {})] on a decoded JSON value. *)
Definition json_get (key : string) (j : Json.t) : M event (option Json.t) :=
  match j with
  | Json.Obj fields => ret (PyDict.get key fields)
  | _ => raise (LibraryError "AttributeError")
  end.

Definition deploy_instance (nginx_mode priv_key root : string)
    (server_ips : Json.t) (inst : InstanceSpec.t) : M event unit :=
  ip ← json_get (InstanceSpec.name inst) server_ips;
  match ip, InstanceSpec.workloads inst with
  | Some (Json.Str ip), (_ :: _) as workloads =>
      if negb (PyStr.truthy ip) then ret tt
      else
        emit (Print (" Configuring " +:+ InstanceSpec.name inst +:+ " (" +:+ ip +:+ ")...")) ;;
        deployer ← lift_ssh (Deployer.init (ssh W) ip priv_key "root" (Some root));
        let announce app :=
          emit (Print ("  -> Deploying " +:+ ApplicationSpec.name app +:+ " ("
                       +:+ format_runtime W (ApplicationSpec.runtime app) +:+ ")...")) in
        if bool_decide (nginx_mode ∈ ["combined"; "single"; "shared"]) then
          for_each workloads
            (λ app, announce app ;;
                    lift_ssh (Deployer.deploy (ssh W) deployer app false)) ;;
          lift_ssh (Deployer.configure_combined_nginx (ssh W) deployer workloads)
        else
          for_each workloads
            (λ app, announce app ;;
                    lift_ssh (Deployer.deploy (ssh W) deployer app true))
  | Some other, (_ :: _) =>
      (* an address that is not a string: left to fail on first use *)
      if Json.truthy other then raise (LibraryError "TypeError") else ret tt
  | _, _ => ret tt
  end.

(** The last step: "Deploy workloads over SSH", from the outputs of the
    provisioning tool. *)
Definition deploy_workloads (root priv_key : string)
    (new_spec : DesiredStateSpec.t) (outputs : Json.t) : M event unit :=
  entry ← json_get "server_ips" outputs;
  server_ips ← json_get "value" (default (Json.Obj []) entry);
  let server_ips := default (Json.Obj []) server_ips in
  emit (Print "Deploying Applications...") ;;
  let nginx_mode :=
    PyStr.lower (PyStr.strip (default "per-app" (getenv "CLOUDHAND_NGINX_MODE"))) in
  for_each (DesiredStateSpec.instances new_spec)
    (deploy_instance nginx_mode priv_key root server_ips).

(** The environment handed to the provisioning tool, on top of
    [os.environ]. *)
Definition tool_env (pub_key : string) : PyDict.t string :=
  (match getenv "TF_VAR_hcloud_token", Deployer.getenv_truthy (ssh W) "HCLOUD_TOKEN" with
   | None, Some token => [("TF_VAR_hcloud_token", token)]
   | _, _ => []
   end) ++ [("TF_VAR_ssh_public_key", pub_key)].

(** From "Run Terraform Apply" to the end. *)
Definition provision_and_deploy (root : string) (auto_approve : bool)
    (terraform_bin : string) (new_spec : DesiredStateSpec.t)
    (priv_key pub_key : string) : M event Z :=
  match which W terraform_bin with
  | None =>
      raise (FileNotFoundError
               ("Terraform binary '" +:+ terraform_bin +:+ "' not found in PATH"))
  | Some tf_bin =>
      let tf_dir := terraform_dir root in
      let env := tool_env pub_key in
      subprocess_checked [tf_bin; "init"; "-input=false"; "-upgrade"] tf_dir env ;;
      let cmd := [tf_bin; "apply"] ++ (if auto_approve then ["-auto-approve"] else []) in
      result ← subprocess_run cmd tf_dir env;
      if negb (result.1 =? 0)%Z then ret result.1
      else
        tf_out ← subprocess_checked [tf_bin; "output"; "-json"] tf_dir env;
        match json_loads W tf_out with
        | None => raise JSONDecodeError
        | Some outputs =>
            deploy_workloads root priv_key new_spec outputs ;;
            ret 0%Z
        end
  end.

Definition apply_plan (root plan_path : string) (auto_approve : bool)
    (terraform_bin project_id workspace_id : string) : M event Z :=
  match plan_text W plan_path with
  | None => raise (FileNotFoundError ("Plan file not found at " +:+ plan_path))
  | Some text =>
      match json_loads W text with
      | None => raise JSONDecodeError
      | Some plan_data =>
          new_spec_data ← json_get "new_spec" plan_data;
          if negb (Json.truthy (default Json.Null new_spec_data))
          then raise (ValueError "Plan does not contain 'new_spec'")
          else
            match model_validate W (default Json.Null new_spec_data) with
            | None => raise ValidationError
            | Some new_spec =>
                let ch_dir := cloudhand_dir root in
                emit (Mkdir ch_dir) ;;
                TerraformGen.write_text ch_dir "spec.json" (model_dump_json W new_spec) ;;
                generator ← TerraformGen.get_generator (DesiredStateSpec.provider new_spec);
                let tf_dir := terraform_dir root in
                TerraformGen.generate generator new_spec tf_dir project_id workspace_id ;;
                emit (Print "Fetching SSH Identity...") ;;
                keys ← ssh_key project_id;
                provision_and_deploy root auto_approve terraform_bin new_spec keys.1 keys.2
            end
      end
  end.
End WithWorld.
End Apply.

(** ** More string primitives: [splitlines] and [split] *)

Module PyLines.

(** The line boundaries [str.splitlines] knows, among the code points
    below 256, other than the carriage return. *)
Definition is_break (c : Ascii.ascii) : bool :=
  let n := Ascii.nat_of_ascii c in
  ((n =? 10) || (n =? 11) || (n =? 12) || (n =? 28) || (n =? 29) || (n =? 30)
   || (n =? 133))%nat.

Definition is_cr (c : Ascii.ascii) : bool := (Ascii.nat_of_ascii c =? 13)%nat.
Definition is_lf (c : Ascii.ascii) : bool := (Ascii.nat_of_ascii c =? 10)%nat.

(** [cur] is the line read so far. A carriage return followed by a line
    feed is one boundary; a text that ends in a boundary has no empty last
    line. *)
Fixpoint splitlines_from (cur s : string) : list string :=
  match s with
  | EmptyString => match cur with EmptyString => [] | _ => [cur] end
  | String c s' =>
      if is_cr c then
        match s' with
        | String c' s'' =>
            if is_lf c' then cur :: splitlines_from EmptyString s''
            else cur :: splitlines_from EmptyString s'
        | EmptyString => [cur]
        end
      else if is_break c then cur :: splitlines_from EmptyString s'
      else splitlines_from (cur +:+ String c EmptyString) s'
  end.

(** [s.splitlines()] *)
Definition splitlines (s : string) : list string := splitlines_from EmptyString s.

Fixpoint drop (n : nat) (s : string) : string :=
  match n, s with
  | S k, String _ s' => drop k s'
  | _, _ => s
  end.

(** [s.split(sep, 1)] for a non-empty [sep]: the parts around the first
    occurrence, or [None] when there is none (the list then has [s] only). *)
Fixpoint split_once (sep s : string) : option (string * string) :=
  if String.prefix sep s then Some (EmptyString, drop (String.length sep) s)
  else
    match s with
    | EmptyString => None
    | String c s' =>
        match split_once sep s' with
        | Some (a, b) => Some (String c a, b)
        | None => None
        end
    end.

End PyLines.

(** ** core/scan.py, [sync_spec] of core/spec.py, core/terraform.py

    The steps around the compiler: the scan that writes [scan.json], the
    sync that reads it back and writes [spec.json], and the generation of
    the Terraform directory. *)

Module Core.
Import Eff.

(** What these steps cannot decide by themselves: the local files, the
    JSON library, the provider's API. Each answer of the file system may
    depend on everything done so far. *)
Record World := {
  cwd : string;                                         (* [Path.cwd()] *)
  getenv : string → option string;                      (* [os.getenv] *)
  exists_ : list event → string → bool;                 (* [Path.exists] *)
  read_text : list event → string → exn + string;       (* [Path.read_text] *)
  json_loads : string → option Json.t;                  (* [None]: JSONDecodeError *)
  json_dumps : Json.t → string;                         (* the text of a document *)
  spec_dump_json : DesiredStateSpec.t → string;         (* [spec.model_dump_json(indent=2)] *)
  set_iter : list string → list string;
  scan : list event → PyDict.t Json.t → exn + CloudGraph.t;   (* [HetznerAdapter().scan] *)
}.

(** An adapter: its provider id; its [scan] is the world's. *)
Record CloudAdapter := { id : string }.

Definition HetznerAdapter : CloudAdapter := {| id := "hetzner" |}.

Definition ADAPTERS : PyDict.t CloudAdapter := [ (id HetznerAdapter, HetznerAdapter) ].

(** [adapters.get_adapter] *)
Definition get_adapter (provider : string) : M event CloudAdapter :=
  match PyDict.get provider ADAPTERS with
  | Some adapter => ret adapter
  | None => raise (ValueError ("Unknown provider: " +:+ provider))
  end.

Section WithWorld.
Variable W : World.

(** [adapter.scan(provider_config)] *)
Definition adapter_scan (adapter : CloudAdapter) (provider_config : PyDict.t Json.t)
  : M event CloudGraph.t :=
  λ hist,
    (match scan W hist provider_config with inl e => Raise e | inr graph => Ok graph end, []).

(** [graph.model_dump_json(indent=2)] *)
Definition graph_dump_json (graph : CloudGraph.t) : string :=
  json_dumps W (GraphCodec.model_dump graph).

(** [core/scan.py: run_scan] *)
Definition run_scan (root provider : string) (provider_config : PyDict.t Json.t)
  : M event CloudGraph.t :=
  emit (Print ("Scanning infrastructure for provider: " +:+ provider +:+ "...")) ;;
  adapter ← get_adapter provider;
  graph ← adapter_scan adapter provider_config;
  emit (Print ("Scan complete. Found "
               +:+ PyStr.str_of_int (Z.of_nat (length (CloudGraph.nodes graph)))
               +:+ " resources.")) ;;
  let ch_dir := Apply.cloudhand_dir root in
  emit (Mkdir ch_dir) ;;
  TerraformGen.write_text ch_dir "scan.json" (graph_dump_json graph) ;;
  emit (Print ("Written scan results to " +:+ TerraformGen.path_join ch_dir "scan.json")) ;;
  ret graph.

(** [json.loads(path.read_text(encoding="utf-8"))] *)
Definition load_json (path : string) : M event Json.t :=
  λ hist,
    match read_text W hist path with
    | inl e => (Raise e, [])
    | inr text =>
        match json_loads W text with
        | Some data => (Ok data, [])
        | None => (Raise JSONDecodeError, [])
        end
    end.

(** [core/spec.py: sync_spec] *)
Definition sync_spec (root provider : string) : M event DesiredStateSpec.t :=
  let scan_path := TerraformGen.path_join (Apply.cloudhand_dir root) "scan.json" in
  λ hist,
    if negb (exists_ W hist scan_path) then
      raise (FileNotFoundError
               ("scan.json not found at " +:+ scan_path +:+ ". Run 'ch scan' first.")) hist
    else
      (data ← load_json scan_path;
       match GraphCodec.model_validate data with
       | None => raise ValidationError
       | Some graph =>
           let spec := Spec.graph_to_spec (set_iter W) graph provider in
           let ch_dir := Apply.cloudhand_dir root in
           emit (Mkdir ch_dir) ;;
           TerraformGen.write_text ch_dir "spec.json" (spec_dump_json W spec) ;;
           ret spec
       end) hist.

(** *** core/paths.py, core/init.py and core/config.py *)

(** [project_root(base)]: a [Path] is always truthy. *)
Definition project_root (base : option string) : string := default (cwd W) base.

Definition diagrams_dir (root : string) : string :=
  TerraformGen.path_join (Apply.cloudhand_dir root) "diagrams".

Definition GITIGNORE : string :=
  PyStr.text
    [ "cloudhand/terraform/.terraform/";
      "cloudhand/terraform/terraform.tfstate";
      "cloudhand/terraform/terraform.tfstate.*";
      "cloudhand/terraform/*.tfplan";
      "cloudhand/*.json";
      "cloudhand/*.diff" ].

(** The [ch.yaml] of a new project. *)
Definition ch_yaml (provider project : string) : string :=
  "provider: " +:+ provider +:+ PyStr.nl +:+ "project: " +:+ project +:+ PyStr.nl.

(** [if not path.exists(): path.write_text(content)] *)
Definition write_if_missing (dir name content : string) : M event unit :=
  λ hist,
    if negb (exists_ W hist (TerraformGen.path_join dir name))
    then TerraformGen.write_text dir name content hist
    else ret tt hist.

(** [core/init.py: init_project] *)
Definition init_project (provider project : string) (root : option string)
  : M event unit :=
  let root := project_root root in
  let tf_dir := Apply.terraform_dir root in
  let diag_dir := diagrams_dir root in
  let ch_dir := Apply.cloudhand_dir root in
  for_each [tf_dir; TerraformGen.path_join diag_dir "history"; ch_dir]
    (λ d, emit (Mkdir d)) ;;
  write_if_missing root ".gitignore" GITIGNORE ;;
  write_if_missing root "ch.yaml" (ch_yaml provider project).

(** One turn of the loop of [load_config]. *)
Definition config_line (cfg : PyDict.t string) (line : string)
  : result (PyDict.t string) :=
  let line := PyStr.strip line in
  if negb (PyStr.truthy line) || PyStr.startswith line "#"
     || negb (PyStr.contains ":" line)
  then Ok cfg
  else
    match PyLines.split_once ":" line with
    | Some (key, value) => Ok (PyDict.set (PyStr.strip key) (PyStr.strip value) cfg)
    | None => Raise (ValueError "not enough values to unpack (expected 2, got 1)")
    end.

Fixpoint config_lines (cfg : PyDict.t string) (lines : list string)
  : result (PyDict.t string) :=
  match lines with
  | [] => Ok cfg
  | line :: rest =>
      match config_line cfg line with
      | Ok cfg' => config_lines cfg' rest
      | Raise e => Raise e
      end
  end.

(** [core/config.py: load_config] *)
Definition load_config (path : string) : M event (PyDict.t string) :=
  λ hist,
    if negb (exists_ W hist path) then (Ok [], [])
    else
      match read_text W hist path with
      | inl e => (Raise e, [])
      | inr content => (config_lines [] (PyLines.splitlines content), [])
      end.

(** [x or {}] on a decoded JSON value that may be missing. *)
Definition or_empty (o : option Json.t) : Json.t :=
  match o with
  | Some j => if Json.truthy j then j else Json.Obj []
  | None => Json.Obj []
  end.

(** The body of the [try] of [load_provider_config]: the token the
    secrets file holds for the provider, if it is truthy. *)
Definition secrets_token (provider secrets_path : string) : M event (option Json.t) :=
  secrets ← load_json secrets_path;
  providers ← Apply.json_get "providers" secrets;
  provider_cfg ← Apply.json_get provider (or_empty providers);
  token ← Apply.json_get "token" (or_empty provider_cfg);
  ret (match token with
       | Some t => if Json.truthy t then Some t else None
       | None => None
       end).

(** [core/config.py: load_provider_config]; a [ProviderConfig] is a
    dictionary, and nothing checks its values. *)
Definition load_provider_config (provider : string) (root : option string)
  : M event (PyDict.t Json.t) :=
  let secrets_path :=
    TerraformGen.path_join (Apply.cloudhand_dir (project_root root)) "secrets.json" in
  found ← (λ hist,
             if exists_ W hist secrets_path
             then try_except (secrets_token provider secrets_path) (ret None) hist
             else ret None hist);
  match found with
  | Some token => ret [("token", token)]
  | None =>
      if decide (provider = "hetzner") then
        match getenv W "HCLOUD_TOKEN" with
        | Some token => if PyStr.truthy token then ret [("token", Json.Str token)] else ret []
        | None => ret []
        end
      else ret []
  end.

End WithWorld.

(** [core/terraform.py: generate_terraform] *)
Definition generate_terraform (root : string) (spec : DesiredStateSpec.t)
    (project_id workspace_id : string) : M event string :=
  generator ← TerraformGen.get_generator (DesiredStateSpec.provider spec);
  let tf_dir := Apply.terraform_dir root in
  TerraformGen.generate generator spec tf_dir project_id workspace_id ;;
  ret tf_dir.

End Core.

(** * Example inputs and the vocabulary of the statements *)

Module SpecCases.
Import Spec.

Definition network_node (nid : string) (nm : option string) : Node.t :=
  Node.mk nid NodeType.NETWORK nm None None (Some "hetzner") None [] [].

Definition server_node (sid : string) (nm reg : option string) : Node.t :=
  Node.mk sid NodeType.COMPUTE_INSTANCE nm reg None (Some "hetzner") None
    [] [("server_type", "cx31")].

Definition in_network (s n : string) : Edge.t := Edge.mk s n EdgeType.IN_NETWORK.

(** One server attached to two networks. *)
Definition two_networks : CloudGraph.t :=
  CloudGraph.mk
    [network_node "hetzner:network:1" (Some "net-a");
     network_node "hetzner:network:2" (Some "net-b");
     server_node "hetzner:server:9" (Some "web") (Some "nbg1")]
    [in_network "hetzner:server:9" "hetzner:network:1";
     in_network "hetzner:server:9" "hetzner:network:2"].

(** Two servers in different regions, no network. *)
Definition two_regions : CloudGraph.t :=
  CloudGraph.mk
    [server_node "hetzner:server:1" (Some "a") (Some "nbg1");
     server_node "hetzner:server:2" (Some "b") (Some "fsn1")]
    [].

(** The id of a node in the data model: ["<provider>:<kind>:<native_id>"]
    (the adapter emits ["hetzner:<kind>:<native_id>"]). *)
Definition scheme_id (provider kind native_id : string) : string :=
  provider +:+ ":" +:+ kind +:+ ":" +:+ native_id.

Definition follows_scheme (id : string) : Prop :=
  ∃ provider kind native_id, id = scheme_id provider kind native_id.

(** The number of colons of a string. *)
Definition colons (s : string) : nat :=
  length (filter (λ c, c = ":"%char) (String.list_ascii_of_string s)).

(** A Network node whose id is the key the compiler reserves for the
    synthetic default network; the id is not one of the data model. *)
Definition reserved_key : CloudGraph.t :=
  CloudGraph.mk
    [network_node "synthetic:default" None;
     server_node "hetzner:server:1" (Some "web") None]
    [].

(** The network name of the first [in_network] edge of a server that
    points to a known network. *)
Definition first_edge_network (g : CloudGraph.t) (server : string) : option string :=
  let networks := build_networks g in
  e ← head (filter (λ e, Edge.type e = EdgeType.IN_NETWORK
                          ∧ Edge.from_id e = server
                          ∧ is_Some (PyDict.get (Edge.to_id e) networks))
              (CloudGraph.edges g));
  NetworkSpec.name <$> PyDict.get (Edge.to_id e) networks.

(** The regions of the ComputeInstance nodes that have one, in node order. *)
Definition instance_regions (nodes : list Node.t) : list string :=
  omap (λ node,
          if decide (Node.type node = NodeType.COMPUTE_INSTANCE)
          then match Node.region node with
               | Some r => if PyStr.truthy r then Some r else None
               | None => None
               end
          else None) nodes.

Definition binds (networks : PyDict.t NetworkSpec.t) (server : string) (e : Edge.t) : Prop :=
  Edge.type e = EdgeType.IN_NETWORK ∧ Edge.from_id e = server
  ∧ is_Some (PyDict.get (Edge.to_id e) networks).

Definition is_instance (node : Node.t) : Prop :=
  Node.type node = NodeType.COMPUTE_INSTANCE.

#[export] Instance is_instance_dec node : Decision (is_instance node).
Proof. unfold is_instance. apply _. Defined.

(** The [InstanceSpec] emitted for a ComputeInstance node. *)
Definition instance_of (sn : gmap string string) (node : Node.t) : InstanceSpec.t :=
  InstanceSpec.mk (PyStr.or_else (Node.name node) (Node.id node))
    (PyStr.or_else (PyDict.get "server_type" (Node.attrs node)) "cx21")
    (default "default" (sn !! Node.id node))
    (Node.region node) (Node.labels node) [] None.

Definition names (d : PyDict.t NetworkSpec.t) : list string :=
  map NetworkSpec.name (PyDict.values d).

Definition synthetic_default : string * NetworkSpec.t :=
  ("synthetic:default", NetworkSpec.mk "default" "10.0.0.0/24").

(** What the loop maintains: the instances emitted so far name a network
    of [networks], and the reserved key, once taken, holds the network
    called default. *)
Definition networked (st : acc) : Prop :=
  (∀ inst, inst ∈ instances st → InstanceSpec.network inst ∈ names (networks st))
  ∧ (PyDict.get "synthetic:default" (networks st) = None
     ∨ "default" ∈ names (networks st)).
End SpecCases.

Module TerraformCases.
Import Eff TerraformGen.

(** The [outputs.tf] whose [server_ips] map has no entry. *)
Definition empty_outputs_tf : string :=
  PyStr.text
    [ "output " +:+ PyStr.dq +:+ "server_ips" +:+ PyStr.dq +:+ " {";
      "  value = {";
      "  }";
      "}" ].

Definition no_instances : DesiredStateSpec.t :=
  DesiredStateSpec.mk "hetzner" None [NetworkSpec.mk "app-net" "10.0.0.0/24"]
    [] [] [] [] [].
End TerraformCases.

Module DeployerCases.
Import Eff Deployer.

#[local] Abbreviation nl := PyStr.nl.

(** A reachable host whose commands answer through [answer], with the
    process environment [env]. *)
Definition host (answer : string → Z * string * string)
    (env : string → option string) : World :=
  {| rsa_key_ok := λ _, true;
     transport_active := λ _ _, true;
     connect_ok := λ _ _, true;
     exec_command := λ _ _ cmd, inr (answer cmd);
     sftp_write := λ _ _ _ _, None;
     getenv := env;
     expanduser := λ p, p;
     resolve := λ p, p;
     cwd := "/";
     read_text := λ _, None |}.

Definition no_env : string → option string := λ _, None.

Definition box : ServerDeployer :=
  {| ip := "10.0.0.5"; user := "root"; key := "KEY"; local_root := None |}.

Definition workload (name : string) (ports : list Z) : ApplicationSpec.t :=
  ApplicationSpec.mk name "https://github.com/acme/app.git" "main" RuntimeType.PYTHON
    (BuildSpec.mk None None [])
    (ServiceSpec.mk "python3 main.py" [] None None ports [] false)
    "/opt/apps".

Definition clone_with_token : string :=
  "git clone --branch main https://ghp_s3cr3t@github.com/acme/app.git /opt/apps/app".

Definition repository_not_found : string → Z * string * string :=
  λ _, (128%Z, "", "fatal: repository not found" +:+ nl).

(** What [deploy] goes on with once the fetch of an existing checkout has
    failed: the [except] branch, then steps 3 and 4. *)
Definition after_failed_fetch (W : World) (d : ServerDeployer)
    (app : ApplicationSpec.t) (configure_nginx : bool) : M ssh_event unit :=
  run_ W d ("rm -rf " +:+ app_dir_of app) ;;
  run_ W d ("mkdir -p " +:+ ApplicationSpec.destination_path app) ;;
  run W d ("git clone --branch " +:+ ApplicationSpec.branch app +:+ " "
           +:+ (if PyStr.truthy (gh_token W)
                then PyStr.replace (ApplicationSpec.repo_url app) "https://"
                       ("https://" +:+ gh_token W +:+ "@")
                else ApplicationSpec.repo_url app)
           +:+ " " +:+ app_dir_of app) None (token_mask W) ;;
  build W d app ;;
  services W d app configure_nginx.

(** A host on which the checkout exists and the fetch fails. *)
Definition fetch_fails : string → Z * string * string :=
  λ cmd, if PyStr.contains "git fetch" cmd
         then (1%Z, "", "fatal: unable to access the remote")
         else (0%Z, "", "").

(** The path prefix of a workload that is not the root one, in the words
    of the specification: [/api/] when the lower-cased name contains
    [api], and the name between slashes otherwise. *)
Definition route_prefix (app : ApplicationSpec.t) : string :=
  if PyStr.contains "api" (PyStr.lower (ApplicationSpec.name app)) then "/api/"
  else "/" +:+ ApplicationSpec.name app +:+ "/".

(** [block] proxies [app]: its prefix to its first port. *)
Definition routed (app : ApplicationSpec.t) (block : string) : Prop :=
  ∃ port, head (ServiceSpec.ports (ApplicationSpec.service_config app)) = Some port
          ∧ block = location_block (route_prefix app) port.

(** [root] at position [i] is the root workload of [candidates]: the
    first one whose lower-cased name contains [ui], or else the first. *)
Definition is_root (candidates : list ApplicationSpec.t) (i : nat)
    (root : ApplicationSpec.t) : Prop :=
  candidates !! i = Some root
  ∧ ((named_ui root ∧ ∀ j app, candidates !! j = Some app → j < i → ¬ named_ui app)
     ∨ (i = 0 ∧ Forall (λ app, ¬ named_ui app) candidates)).

(** The server names and the HTTPS switch of the single site. *)
Definition site_names (candidates : list ApplicationSpec.t) : list string :=
  _normalize_server_names
    (flat_map (λ app, ServiceSpec.server_names (ApplicationSpec.service_config app))
       candidates).

Definition site_https (candidates : list ApplicationSpec.t) : bool :=
  existsb (λ app, ServiceSpec.https (ApplicationSpec.service_config app)) candidates.

(** Installing the single site [conf]. *)
Definition install_site (W : World) (d : ServerDeployer)
    (candidates : list ApplicationSpec.t) (conf : string) : M ssh_event unit :=
  upload_file W d conf "/etc/nginx/sites-available/cloudhand" ;;
  run_ W d "ln -sf /etc/nginx/sites-available/cloudhand /etc/nginx/sites-enabled/cloudhand" ;;
  run_ W d "rm -f /etc/nginx/sites-enabled/default || true" ;;
  run_ W d "systemctl reload nginx" ;;
  when (site_https candidates) (_enable_https W d (site_names candidates)).

(** A UI that is not first, an API and a worker, all with ports. *)
Definition three_apps : list ApplicationSpec.t :=
  [workload "orders-api" [8000%Z]; workload "Web-UI" [3000%Z];
   workload "worker" [9000%Z]].
End DeployerCases.

Module ApplyCases.
Import Eff Apply.

(** Events that are not a run of the provisioning tool, and those of the
    deployment of workloads. *)
Definition quiet (e : event) : Prop :=
  match e with Subprocess _ _ _ _ => False | _ => True end.

Definition deploying (e : event) : Prop :=
  match e with Print _ | Deploy _ => True | _ => False end.

Definition init_argv (tf_bin : string) : list string :=
  [tf_bin; "init"; "-input=false"; "-upgrade"].

Definition apply_argv (tf_bin : string) (auto_approve : bool) : list string :=
  [tf_bin; "apply"] ++ (if auto_approve then ["-auto-approve"] else []).

Definition output_argv (tf_bin : string) : list string := [tf_bin; "output"; "-json"].

(** How far a run of [apply_plan] got, with its outcome. *)
Inductive progress (root : string) (auto_approve : bool)
    (res : result Z) (trace : list event) : Prop :=
| stopped_before_init :
    Forall quiet trace → progress root auto_approve res trace
| stopped_at_init pre tf_bin env o :
    Forall quiet pre →
    trace = pre ++ [Subprocess (init_argv tf_bin) (terraform_dir root) env o] →
    match o with
    | inl e => res = Raise e
    | inr (code, out) =>
        code ≠ 0%Z ∧ res = Raise (CalledProcessError code (init_argv tf_bin))
    end →
    progress root auto_approve res trace
| stopped_at_apply pre tf_bin env out0 o :
    Forall quiet pre →
    trace = pre ++ [Subprocess (init_argv tf_bin) (terraform_dir root) env (inr (0%Z, out0));
                    Subprocess (apply_argv tf_bin auto_approve) (terraform_dir root) env o] →
    match o with
    | inl e => res = Raise e
    | inr (code, out) => code ≠ 0%Z ∧ res = Ok code
    end →
    progress root auto_approve res trace
| went_on_to_deploy pre tf_bin env out0 out1 o post :
    Forall quiet pre →
    trace = pre ++ [Subprocess (init_argv tf_bin) (terraform_dir root) env (inr (0%Z, out0));
                    Subprocess (apply_argv tf_bin auto_approve) (terraform_dir root) env
                      (inr (0%Z, out1));
                    Subprocess (output_argv tf_bin) (terraform_dir root) env o] ++ post →
    Forall deploying post →
    progress root auto_approve res trace.

(** A validator that asks for a [provider] string only. *)
Definition provider_only (j : Json.t) : option DesiredStateSpec.t :=
  match j with
  | Json.Obj o =>
      match PyDict.get "provider" o with
      | Some (Json.Str p) => Some (DesiredStateSpec.mk p None [] [] [] [] [] [])
      | _ => None
      end
  | _ => None
  end.

(** A machine holding the plan [plan], on which the provisioning tool
    exits with [init_code] and [apply_code]. *)
Definition machine (plan : Json.t) (init_code apply_code : Z) : World :=
  {| ssh := DeployerCases.host (λ _, (0%Z, "", "")) DeployerCases.no_env;
     plan_text := λ _, Some "plan";
     json_loads := λ text, if decide (text = "plan") then Some plan else Some (Json.Obj []);
     model_validate := provider_only;
     model_dump_json := λ _, "{}";
     get_or_create_project_ssh_key := λ _ _, inr ("PRIVATE", "ssh-rsa AAAA");
     which := λ bin, Some ("/usr/bin/" +:+ bin);
     subprocess := λ _ argv _ _,
       match argv with
       | _ :: "init" :: _ => inr (init_code, "")
       | _ :: "apply" :: _ => inr (apply_code, "")
       | _ => inr (0%Z, "{}")
       end;
     format_runtime := RuntimeType.value |}.

Definition hetzner_plan : Json.t :=
  Json.Obj [("operations", Json.Arr []);
            ("new_spec", Json.Obj [("provider", Json.Str "hetzner")])].

Definition run_apply (W : World) : result Z * list event :=
  apply_plan W "/p" "/p/cloudhand/plan-1.json" true "terraform" "default" "default" [].
End ApplyCases.


Module Words.

(** No character of [new] occurs in [w]. *)
Definition apart (new w : string) : Prop :=
  ∀ c, In c (String.list_ascii_of_string new) → ¬ In c (String.list_ascii_of_string w).

End Words.

Module DeployerWords.
Import Eff Deployer.

(** [k] connection attempts that failed, each followed by its pause. *)
Definition failed_attempts (ip : string) (k : nat) : list ssh_event :=
  concat (replicate k [Connect ip false; Sleep 5]).

(** What [deploy] goes on with once the checkout is in place: steps 3 and 4. *)
Definition after_sync (W : World) (d : ServerDeployer)
    (app : ApplicationSpec.t) (configure_nginx : bool) : M ssh_event unit :=
  build W d app ;; services W d app configure_nginx.

(** The command [run] sends: [cmd], inside [cwd] when one is given. *)
Definition final_cmd (cmd : string) (cwd : option string) : string :=
  if PyStr.truthy_opt cwd then "cd " +:+ default "" cwd +:+ " && " +:+ cmd else cmd.

(** The events of one command on a live transport, given what comes back. *)
Definition command_events (d : ServerDeployer) (cmd : string) (cwd : option string)
    (mask : option (list string)) (outcome : exn + Z * string * string)
  : list ssh_event :=
  [ Log ("[" +:+ ip d +:+ "] Running: " +:+ masked (final_cmd cmd cwd) mask);
    Exec (ip d) (final_cmd cmd cwd) outcome ].

Definition is_exec (e : ssh_event) : Prop :=
  match e with Exec _ _ _ => True | _ => False end.

End DeployerWords.

Module DeployerWorlds.
Import Eff Deployer.

Definition is_connect (e : ssh_event) : bool :=
  match e with Connect _ _ => true | _ => false end.

(** A host whose transport is down and that accepts a connection only
    after [refusals] refused attempts; commands then answer through
    [answer]. *)
Definition waking_host (refusals : nat) (answer : string → Z * string * string) : World :=
  {| rsa_key_ok := λ _, true;
     transport_active := λ _ _, false;
     connect_ok := λ hist _, bool_decide (refusals ≤ length (filter is_connect hist));
     exec_command := λ _ _ cmd, inr (answer cmd);
     sftp_write := λ _ _ _ _, None;
     getenv := λ _, None;
     expanduser := λ p, p;
     resolve := λ p, p;
     cwd := "/";
     read_text := λ _, None |}.

(** A reachable host on which no directory exists yet. *)
Definition fresh_host : World :=
  {| rsa_key_ok := λ _, true;
     transport_active := λ _ _, true;
     connect_ok := λ _ _, true;
     exec_command := λ _ _ cmd,
       inr (if PyStr.startswith cmd "test -d" then (1%Z, "", "") else (0%Z, "", ""));
     sftp_write := λ _ _ _ _, None;
     getenv := λ _, None;
     expanduser := λ p, p;
     resolve := λ p, p;
     cwd := "/";
     read_text := λ _, None |}.

(** A workload whose environment comes from a local file to upload
    ([upload]), a target on the server ([target]) and inline variables. *)
Definition env_workload (upload target : option string) (env : PyDict.t string)
  : ApplicationSpec.t :=
  ApplicationSpec.mk "web" "https://github.com/acme/app.git" "main" RuntimeType.PYTHON
    (BuildSpec.mk None None [])
    (ServiceSpec.mk "python3 main.py" env target upload [8000%Z] [] false)
    "/opt/apps".

(** A reachable host, with one file on the local machine. *)
Definition host_with_file (path content : string) : World :=
  {| rsa_key_ok := λ _, true;
     transport_active := λ _ _, true;
     connect_ok := λ _ _, true;
     exec_command := λ _ _ _, inr (0%Z, "", "");
     sftp_write := λ _ _ _ _, None;
     getenv := λ _, None;
     expanduser := λ p, p;
     resolve := λ p, p;
     cwd := "/home/ops";
     read_text := λ p, if decide (p = path) then Some content else None |}.

End DeployerWorlds.

Module SpecWords.
Import Spec SpecCases.

Definition is_network (node : Node.t) : Prop :=
  Node.type node = NodeType.NETWORK.

#[export] Instance is_network_dec node : Decision (is_network node).
Proof. unfold is_network. apply _. Defined.

(** The [NetworkSpec] stored for a Network node. *)
Definition network_of (node : Node.t) : NetworkSpec.t :=
  NetworkSpec.mk (PyStr.or_else (Node.name node) (Node.id node))
    (PyStr.or_else (PyDict.get "ip_range" (Node.attrs node)) "10.0.0.0/24").

(** The nodes and edges the compiler looks at. *)
Definition compiled (node : Node.t) : Prop := is_network node ∨ is_instance node.

#[export] Instance compiled_dec node : Decision (compiled node).
Proof. unfold compiled. apply _. Defined.

Definition is_in_network (e : Edge.t) : Prop := Edge.type e = EdgeType.IN_NETWORK.

#[export] Instance is_in_network_dec e : Decision (is_in_network e).
Proof. unfold is_in_network. apply _. Defined.

Definition compiled_part (g : CloudGraph.t) : CloudGraph.t :=
  CloudGraph.mk (filter compiled (CloudGraph.nodes g))
    (filter is_in_network (CloudGraph.edges g)).

(** What the third loop keeps: the networks are the scanned ones followed
    by at most the synthetic default. *)
Definition grown (networks0 : PyDict.t NetworkSpec.t) (st : acc) : Prop :=
  networks st = networks0 ∨ networks st = networks0 ++ [synthetic_default].

(** A graph with a volume, a firewall and an attachment edge besides one
    server in one network. *)
Definition mixed_graph : CloudGraph.t :=
  CloudGraph.mk
    [ Node.mk "hetzner:volume:7" NodeType.VOLUME (Some "data") None None (Some "hetzner")
        None [] [];
      network_node "hetzner:network:1" (Some "net-a");
      Node.mk "hetzner:firewall:3" NodeType.FIREWALL (Some "fw") None None (Some "hetzner")
        None [] [];
      server_node "hetzner:server:9" (Some "web") (Some "nbg1") ]
    [ Edge.mk "hetzner:volume:7" "hetzner:server:9" EdgeType.ATTACHED_TO;
      in_network "hetzner:server:9" "hetzner:network:1" ].

End SpecWords.

Module ApplyWords.
Import Eff Apply ApplyCases.

(** Events of the local preparation: neither a run of the provisioning
    tool nor anything done on a server. *)
Definition preparing (e : event) : Prop :=
  match e with Subprocess _ _ _ _ | Deploy _ => False | _ => True end.

(** Events on a server. *)
Definition remote (e : event) : Prop :=
  match e with Deploy _ => True | _ => False end.

(** The three runs of the provisioning tool that come before any
    deployment, each with exit code 0. *)
Definition provisioned (root : string) (auto_approve : bool) (tf_bin : string)
    (env : PyDict.t string) (out0 out1 out2 : string) : list event :=
  [ Subprocess (init_argv tf_bin) (terraform_dir root) env (inr (0%Z, out0));
    Subprocess (apply_argv tf_bin auto_approve) (terraform_dir root) env (inr (0%Z, out1));
    Subprocess (output_argv tf_bin) (terraform_dir root) env (inr (0%Z, out2)) ].

(** One instance with one workload, on the given provider. *)
Definition web_spec (provider : string) : DesiredStateSpec.t :=
  DesiredStateSpec.mk provider None [NetworkSpec.mk "app-net" "10.0.0.0/24"]
    [InstanceSpec.mk "web-1" "cx21" "app-net" None []
       [DeployerCases.workload "web" [8000%Z]] None] [] [] [] [].

(** A machine on which every plan validates to [spec], the provisioning
    tool is found at [tf] (if at all) and succeeds, and its outputs decode
    to [outputs]. *)
Definition site (spec : DesiredStateSpec.t) (tf : option string) (outputs : Json.t) : World :=
  {| ssh := DeployerCases.host (λ _, (0%Z, "", "")) DeployerCases.no_env;
     plan_text := λ _, Some "plan";
     json_loads := λ text,
       if decide (text = "plan") then Some (Json.Obj [("new_spec", Json.Obj [("provider", Json.Str "any")])])
       else Some outputs;
     model_validate := λ _, Some spec;
     model_dump_json := λ _, "{spec}";
     get_or_create_project_ssh_key := λ _ _, inr ("PRIVATE", "ssh-rsa AAAA");
     which := λ _, tf;
     subprocess := λ _ _ _ _, inr (0%Z, "{outputs}");
     format_runtime := RuntimeType.value |}.

Definition web_outputs : Json.t :=
  Json.Obj [("server_ips", Json.Obj [("value", Json.Obj [("web-1", Json.Str "10.0.0.5")])])].

End ApplyWords.

Module CoreWords.
Import Eff Core.

Definition scan_path (root : string) : string :=
  TerraformGen.path_join (Apply.cloudhand_dir root) "scan.json".

Definition spec_path (root : string) : string :=
  TerraformGen.path_join (Apply.cloudhand_dir root) "spec.json".

Definition scanning (provider : string) : event :=
  Print ("Scanning infrastructure for provider: " +:+ provider +:+ "...").

(** What a scan that found [graph] leaves behind, after its first line. *)
Definition scanned (W : World) (root : string) (graph : CloudGraph.t) : list event :=
  [ Print ("Scan complete. Found "
           +:+ PyStr.str_of_int (Z.of_nat (length (CloudGraph.nodes graph)))
           +:+ " resources.");
    Mkdir (Apply.cloudhand_dir root);
    WriteText (scan_path root) (graph_dump_json W graph);
    Print ("Written scan results to " +:+ scan_path root) ].

(** What a sync that compiled [spec] leaves behind. *)
Definition synced (W : World) (root : string) (spec : DesiredStateSpec.t) : list event :=
  [ Mkdir (Apply.cloudhand_dir root);
    WriteText (spec_path root) (spec_dump_json W spec) ].

(** The paths written by a list of events, in order. *)
Definition written (ev : list event) : list string :=
  omap (λ e, match e with WriteText path _ => Some path | _ => None end) ev.

(** The last text written to [path], if any. *)
Definition last_write (hist : list event) (path : string) : option string :=
  last (omap (λ e, match e with
                   | WriteText p content => if decide (p = path) then Some content else None
                   | _ => None
                   end) hist).

(** A machine with an empty disk that keeps what is written, whose
    provider answers [found], and whose JSON library knows one document. *)
Definition disk (found : exn + CloudGraph.t) (doc : Json.t) : World :=
  {| cwd := "/p";
     getenv := λ _, None;
     exists_ := λ hist path, bool_decide (is_Some (last_write hist path));
     read_text := λ hist path,
       match last_write hist path with
       | Some text => inr text
       | None => inl (FileNotFoundError path)
       end;
     json_loads := λ text, if decide (text = "<doc>") then Some doc else None;
     json_dumps := λ _, "<doc>";
     spec_dump_json := λ _, "<spec>";
     set_iter := λ s, s;
     scan := λ _ _, found |}.

End CoreWords.

Module ConfigWords.
Import Eff Core.

(** A text without any line boundary. *)
Definition one_line (s : string) : Prop :=
  Forall (λ c, PyLines.is_cr c = false ∧ PyLines.is_break c = false)
    (String.list_ascii_of_string s).

(** The directories [init_project] makes under [root]. *)
Definition layout (root : string) : list event :=
  [ Mkdir (Apply.terraform_dir root);
    Mkdir (TerraformGen.path_join (TerraformGen.path_join (Apply.cloudhand_dir root)
                                     "diagrams") "history");
    Mkdir (Apply.cloudhand_dir root) ].

(** A machine whose disk holds the files [files] and keeps what is
    written. *)
Definition desk (files : PyDict.t string) : World :=
  {| cwd := "/p";
     getenv := λ _, None;
     exists_ := λ hist path,
       bool_decide (is_Some (CoreWords.last_write hist path))
       || PyDict.contains path files;
     read_text := λ hist path,
       match CoreWords.last_write hist path, PyDict.get path files with
       | Some text, _ | None, Some text => inr text
       | None, None => inl (FileNotFoundError path)
       end;
     json_loads := λ _, None;
     json_dumps := λ _, "";
     spec_dump_json := λ _, "";
     set_iter := λ s, s;
     scan := λ _ _, inl (ConnectionError "offline") |}.

(** A machine with [HCLOUD_TOKEN] set and a [secrets.json] whose text
    decodes to [secrets]. *)
Definition vault (env_token : string) (secrets : option Json.t) : World :=
  {| cwd := "/p";
     getenv := λ name, if decide (name = "HCLOUD_TOKEN") then Some env_token else None;
     exists_ := λ _ path, bool_decide (path = "/p/cloudhand/secrets.json");
     read_text := λ _ _, inr "<secrets>";
     json_loads := λ _, secrets;
     json_dumps := λ _, "";
     spec_dump_json := λ _, "";
     set_iter := λ s, s;
     scan := λ _ _, inl (ConnectionError "offline") |}.

Definition hetzner_secret (token : Json.t) : Json.t :=
  Json.Obj [("providers", Json.Obj [("hetzner", Json.Obj [("token", token)])])].

End ConfigWords.

Module TerraformWords.
Import TerraformGen.

(** Whether the labels mark the instance as one that keeps state:
    [stateful=true], or the role [db] or [postgres], in any letter case. *)
Definition stateful (inst : InstanceSpec.t) : bool :=
  bool_decide (PyStr.lower (default "" (PyDict.get "stateful" (InstanceSpec.labels inst)))
               = "true")
  || bool_decide (PyStr.lower (PyStr.or_else (PyDict.get "role" (InstanceSpec.labels inst)) "")
                  ∈ ["db"; "postgres"]).

(** The line of [50unattended-upgrades] that allows or forbids the reboot. *)
Definition reboot_line (allowed : bool) : string :=
  "Unattended-Upgrade::Automatic-Reboot " +:+ PyStr.dq
  +:+ (if allowed then "true" else "false") +:+ PyStr.dq +:+ ";".

Definition reboot_time_line (time : string) : string :=
  "Unattended-Upgrade::Automatic-Reboot-Time " +:+ PyStr.dq +:+ time +:+ PyStr.dq +:+ ";".

(** The reference a server block makes to the network data source [r],
    and the head of the declaration of that data source. *)
Definition network_reference (r : string) : string :=
  "network_id = data.hcloud_network." +:+ r +:+ ".id".

Definition network_declaration (r : string) : string :=
  "data " +:+ PyStr.dq +:+ "hcloud_network" +:+ PyStr.dq +:+ " " +:+ PyStr.dq +:+ r
  +:+ PyStr.dq +:+ " {".

End TerraformWords.

(** * Properties *)

(** ** The string primitives on concrete inputs *)

Example replace_masks : PyStr.replace "git clone https://tok@h/x tok" "tok" "***"
                        = "git clone https://***@h/x ***".
Proof. reflexivity. Qed.

Example replace_no_overlap : PyStr.replace "aaa" "aa" "b" = "ba".
Proof. reflexivity. Qed.

Example replace_empty_old : PyStr.replace "ab" "" "-" = "-a-b-".
Proof. reflexivity. Qed.

Example strip_both : PyStr.strip (" " +:+ PyStr.nl +:+ "a b " +:+ PyStr.nl) = "a b".
Proof. reflexivity. Qed.

Example lower_mixed : PyStr.lower "Web-UI" = "web-ui".
Proof. reflexivity. Qed.

Example dirname_env : PyStr.dirname "/etc/cloudhand/env/web.env" = "/etc/cloudhand/env".
Proof. reflexivity. Qed.

Example dirname_root : PyStr.dirname "/x" = "/".
Proof. reflexivity. Qed.

Example basename_bin : PyStr.basename "/usr/bin/certbot" = "certbot".
Proof. reflexivity. Qed.

Example str_of_port : PyStr.str_of_int 8080 = "8080".
Proof. reflexivity. Qed.


(** ** The graph-to-spec compiler *)

Module SpecFacts.
Import Spec SpecCases.

(** *** Dictionaries *)

Lemma get_set_eq {V} k (v : V) d : PyDict.get k (PyDict.set k v d) = Some v.
Proof.
  induction d as [|[k' v'] d IH]; simpl.
  - by rewrite decide_True.
  - destruct (decide (k = k')) as [->|Hne]; simpl.
    + by rewrite decide_True.
    + by rewrite decide_False.
Qed.

Lemma get_set_ne {V} k k' (v : V) d :
  k ≠ k' → PyDict.get k (PyDict.set k' v d) = PyDict.get k d.
Proof.
  intros Hne. induction d as [|[k0 v0] d IH]; simpl.
  - by rewrite decide_False.
  - destruct (decide (k' = k0)) as [->|Hne0]; simpl.
    + by rewrite !decide_False.
    + destruct (decide (k = k0)); done.
Qed.

Lemma elem_of_set {V} k (v : V) d x :
  x ∈ PyDict.set k v d → x = (k, v) ∨ x ∈ d.
Proof.
  induction d as [|[k' v'] d IH]; simpl.
  - intros ->%list_elem_of_singleton. by left.
  - destruct (decide (k = k')) as [->|Hne].
    + intros [->|Hin]%elem_of_cons; [by left | right; by apply elem_of_cons; right].
    + intros [->|Hin]%elem_of_cons.
      * right. apply elem_of_cons. by left.
      * destruct (IH Hin) as [->|Hd]; [by left | right; apply elem_of_cons; by right].
Qed.

Lemma get_Some_elem_of {V} k (v : V) d : PyDict.get k d = Some v → (k, v) ∈ d.
Proof.
  induction d as [|[k' v'] d IH]; simpl; [done|].
  destruct (decide (k = k')) as [->|Hne].
  - intros [= ->]. apply elem_of_cons. by left.
  - intros H. apply elem_of_cons. right. by apply IH.
Qed.

Lemma get_None_not_key {V} k (d : PyDict.t V) v :
  PyDict.get k d = None → (k, v) ∉ d.
Proof.
  induction d as [|[k' v'] d IH]; simpl; [intros _; apply not_elem_of_nil|].
  destruct (decide (k = k')) as [->|Hne]; [done|].
  intros H [Heq|Hin]%elem_of_cons; [congruence | by eapply IH].
Qed.

(** *** The enumerations' values *)

Lemma node_value_network t : NodeType.value t = "Network" ↔ t = NodeType.NETWORK.
Proof. destruct t; split; (done || discriminate). Qed.

Lemma node_value_instance t :
  NodeType.value t = "ComputeInstance" ↔ t = NodeType.COMPUTE_INSTANCE.
Proof. destruct t; split; (done || discriminate). Qed.

Lemma edge_value_in_network t :
  EdgeType.value t = "in_network" ↔ t = EdgeType.IN_NETWORK.
Proof. destruct t; split; (done || discriminate). Qed.

(** *** First loop *)

(** Every entry of [networks] comes from a Network node, under its id. *)
Lemma add_network_keys nodes d k v :
  (k, v) ∈ fold_left add_network nodes d →
  (k, v) ∈ d ∨ ∃ node, node ∈ nodes ∧ Node.type node = NodeType.NETWORK
                        ∧ Node.id node = k.
Proof.
  revert d. induction nodes as [|n nodes IH]; intros d; simpl; [by left|].
  intros Hin. destruct (IH _ Hin) as [Hd|(node & Hn & Ht & Hk)].
  - unfold add_network in Hd. case_decide as Hty.
    + apply elem_of_set in Hd as [[= -> ->]|Hd]; [|by left].
      right. exists n. split_and!; [apply elem_of_cons; by left| |done].
      by apply node_value_network.
    + by left.
  - right. exists node. split_and!; [apply elem_of_cons; by right|done|done].
Qed.

Lemma build_networks_keys g k v :
  (k, v) ∈ build_networks g →
  ∃ node, node ∈ CloudGraph.nodes g ∧ Node.type node = NodeType.NETWORK
          ∧ Node.id node = k.
Proof.
  intros [Hnil|H]%add_network_keys; [|done]. by apply elem_of_nil in Hnil.
Qed.

(** *** Second loop *)

Lemma add_edge_other networks sn e server :
  ¬ binds networks server e → add_edge networks sn e !! server = sn !! server.
Proof.
  intros Hnb. unfold add_edge. case_decide as Hty; [|done].
  destruct (PyDict.get (Edge.to_id e) networks) as [net|] eqn:Hget; [|done].
  apply lookup_insert_ne. intros Heq. apply Hnb.
  split_and!; [by apply edge_value_in_network|done|by rewrite Hget].
Qed.

Lemma fold_add_edge_other networks post sn server :
  Forall (λ e, ¬ binds networks server e) post →
  fold_left (add_edge networks) post sn !! server = sn !! server.
Proof.
  revert sn. induction post as [|e post IH]; intros sn Hall; simpl; [done|].
  apply Forall_cons in Hall as [He Hpost].
  rewrite IH; [|done]. by apply add_edge_other.
Qed.

(** The last binding edge of a server decides its entry. *)
Lemma server_network_last networks pre e post sn net :
  Edge.type e = EdgeType.IN_NETWORK →
  PyDict.get (Edge.to_id e) networks = Some net →
  Forall (λ e', ¬ binds networks (Edge.from_id e) e') post →
  fold_left (add_edge networks) (pre ++ e :: post) sn !! Edge.from_id e
  = Some (NetworkSpec.name net).
Proof.
  intros Hty Hget Hpost. rewrite fold_left_app. simpl.
  rewrite fold_add_edge_other; [|done].
  unfold add_edge. rewrite decide_True; [|by apply edge_value_in_network].
  rewrite Hget. apply lookup_insert_eq.
Qed.


(** Every entry is the name of one of [networks]. *)
Lemma server_network_values networks edges sn :
  (∀ k n, sn !! k = Some n → n ∈ map NetworkSpec.name (PyDict.values networks)) →
  ∀ k n, fold_left (add_edge networks) edges sn !! k = Some n →
         n ∈ map NetworkSpec.name (PyDict.values networks).
Proof.
  revert sn. induction edges as [|e edges IH]; intros sn Hsn; simpl; [done|].
  apply IH. intros k n. unfold add_edge. case_decide; [|apply Hsn].
  destruct (PyDict.get (Edge.to_id e) networks) as [net|] eqn:Hget; [|apply Hsn].
  intros [[_ <-]|[_ Hold]]%lookup_insert_Some; [|by eapply Hsn].
  apply get_Some_elem_of in Hget.
  apply list_elem_of_fmap. exists net. split; [done|].
  apply list_elem_of_fmap. by exists (Edge.to_id e, net).
Qed.

(** *** Third loop *)

Lemma instances_fold sn nodes st :
  instances (fold_left (add_instance sn) nodes st)
  = instances st ++ map (instance_of sn) (filter is_instance nodes).
Proof.
  revert st. induction nodes as [|n nodes IH]; intros st; simpl.
  - by rewrite app_nil_r.
  - rewrite IH. unfold add_instance at 1. rewrite filter_cons.
    destruct (decide (is_instance n)) as [Hi|Hi].
    + rewrite decide_True; [|by apply node_value_instance].
      simpl. by rewrite <- app_assoc.
    + rewrite decide_False; [done|]. by rewrite node_value_instance.
Qed.

Lemma regions_fold sn nodes st :
  regions (fold_left (add_instance sn) nodes st)
  = fold_left (λ s r, set_add r s) (instance_regions nodes) (regions st).
Proof.
  revert st. induction nodes as [|n nodes IH]; intros st; simpl; [done|].
  rewrite IH. unfold add_instance at 1, instance_regions. simpl.
  destruct (decide (Node.type n = NodeType.COMPUTE_INSTANCE)) as [Hi|Hi].
  - rewrite decide_True; [|by apply node_value_instance]. simpl.
    destruct (Node.region n) as [r|]; [|done].
    by destruct (PyStr.truthy r).
  - rewrite decide_False; [done|]. by rewrite node_value_instance.
Qed.

Lemma elem_of_names d k net : (k, net) ∈ d → NetworkSpec.name net ∈ names d.
Proof.
  intros Hin. apply list_elem_of_fmap. exists net. split; [done|].
  apply list_elem_of_fmap. by exists (k, net).
Qed.

Lemma names_elem_of d n : n ∈ names d → ∃ k net, (k, net) ∈ d ∧ NetworkSpec.name net = n.
Proof.
  intros (net & -> & ([k net'] & -> & Hin)%list_elem_of_fmap)%list_elem_of_fmap.
  by exists k, net'.
Qed.

Lemma add_instance_networked sn st node :
  (∀ k n, sn !! k = Some n → n ∈ names (networks st)) →
  networked st →
  networked (add_instance sn st node)
  ∧ (∀ x, x ∈ networks st → x ∈ networks (add_instance sn st node))
  ∧ (∀ x, x ∈ networks (add_instance sn st node) →
          x ∈ networks st ∨ x = synthetic_default).
Proof.
  intros Hsn [Hinst Hkey]. unfold add_instance.
  case_decide as Hty; [|by split_and!; [split| |left]].
  set (net_name := default "default" (sn !! Node.id node)).
  destruct (decide (net_name ∈ map NetworkSpec.name (PyDict.values (networks st))))
    as [Hin|Hnin]; simpl.
  - split_and!; [split; simpl| |by left]; [|done|done].
    intros inst [Hold| ->%list_elem_of_singleton]%elem_of_app; [by apply Hinst|done].
  - assert (net_name = "default") as Hdef.
    { subst net_name. destruct (sn !! Node.id node) as [n|] eqn:Hl; [|done].
      exfalso. apply Hnin. by eapply Hsn. }
    rewrite Hdef in *.
    destruct Hkey as [Hnone|Hhas]; [|done].
    unfold PyDict.setdefault, PyDict.contains.
    change ("synthetic:" +:+ "default") with "synthetic:default".
    rewrite Hnone. simpl.
    split_and!; [split; simpl| |].
    + intros inst [Hold| ->%list_elem_of_singleton]%elem_of_app; simpl.
      * apply Hinst in Hold. apply names_elem_of in Hold as (k & net & Hk & <-).
        eapply elem_of_names. apply elem_of_app. by left.
      * eapply (elem_of_names _ "synthetic:default" (NetworkSpec.mk "default" "10.0.0.0/24")).
        apply elem_of_app. right. by apply list_elem_of_singleton.
    + right. eapply (elem_of_names _ "synthetic:default" (NetworkSpec.mk "default" "10.0.0.0/24")).
      apply elem_of_app. right. by apply list_elem_of_singleton.
    + intros x Hx. apply elem_of_app. by left.
    + intros x [Hx| ->%list_elem_of_singleton]%elem_of_app; [by left|by right].
Qed.

Lemma fold_add_instance_networked sn nodes st :
  (∀ k n, sn !! k = Some n → n ∈ names (networks st)) →
  networked st →
  networked (fold_left (add_instance sn) nodes st)
  ∧ (∀ x, x ∈ networks st → x ∈ networks (fold_left (add_instance sn) nodes st))
  ∧ (∀ x, x ∈ networks (fold_left (add_instance sn) nodes st) →
          x ∈ networks st ∨ x = synthetic_default).
Proof.
  revert st. induction nodes as [|n nodes IH]; intros st Hsn Hnet; simpl.
  - split_and!; [done|done|by left].
  - destruct (add_instance_networked sn st n Hsn Hnet) as (Hnet1 & Hmono1 & Horig1).
    destruct (IH (add_instance sn st n)) as (Hnet2 & Hmono2 & Horig2); [|done|].
    + intros k m Hk. apply Hsn in Hk. apply names_elem_of in Hk as (k' & net & Hk' & <-).
      eapply elem_of_names. by apply Hmono1.
    + split_and!; [done| |].
      * intros x Hx. by apply Hmono2, Hmono1.
      * intros x Hx. destruct (Horig2 x Hx) as [Hx'|]; [by apply Horig1|by right].
Qed.

(** *** The set of regions *)

Lemma set_add_fold_elem rs s x :
  x ∈ fold_left (λ s r, set_add r s) rs s ↔ x ∈ s ∨ x ∈ rs.
Proof.
  revert s. induction rs as [|r rs IH]; intros s; simpl.
  - split; [by left|]. intros [H|H]; [done|by apply elem_of_nil in H].
  - rewrite IH. unfold set_add. rewrite elem_of_cons.
    destruct (decide (r ∈ s)) as [Hr|Hr].
    + split; [intros [?|?]; auto|]. intros [?|[->|?]]; auto.
    + rewrite elem_of_app, list_elem_of_singleton. tauto.
Qed.

Lemma set_add_fold_NoDup rs s :
  NoDup s → NoDup (fold_left (λ s r, set_add r s) rs s).
Proof.
  revert s. induction rs as [|r rs IH]; intros s Hs; simpl; [done|].
  apply IH. unfold set_add. destruct (decide (r ∈ s)) as [Hr|Hr]; [done|].
  apply NoDup_app. split_and!; [done| |apply NoDup_singleton].
  intros x Hx ->%list_elem_of_singleton. done.
Qed.

Lemma graph_regions set_iter g provider :
  DesiredStateSpec.region (graph_to_spec set_iter g provider)
  = match fold_left (λ s r, set_add r s) (instance_regions (CloudGraph.nodes g)) [] with
    | [] => None
    | r :: s => head (set_iter (r :: s))
    end.
Proof.
  unfold graph_to_spec. simpl. rewrite regions_fold. simpl.
  by destruct (fold_left _ _ _).
Qed.

Lemma graph_instances set_iter g provider :
  DesiredStateSpec.instances (graph_to_spec set_iter g provider)
  = map (instance_of (build_server_network (build_networks g) g))
      (filter is_instance (CloudGraph.nodes g)).
Proof. unfold graph_to_spec. simpl. by rewrite instances_fold. Qed.

Lemma graph_instance_network set_iter g provider i node :
  filter is_instance (CloudGraph.nodes g) !! i = Some node →
  InstanceSpec.network <$> DesiredStateSpec.instances (graph_to_spec set_iter g provider) !! i
  = Some (default "default" (build_server_network (build_networks g) g !! Node.id node)).
Proof.
  intros Hi. rewrite graph_instances.
  change (map ?f ?l) with (f <$> l). rewrite list_lookup_fmap, Hi. done.
Qed.

(** *** C2 *)

(** C2, as the code has it: when a server has [in_network] edges to known
    networks, its InstanceSpec carries the network name of the LAST such
    edge in the graph's edge list, whatever the edges before it. *)
Theorem graph_to_spec_network_of_last_edge
    set_iter g provider i node pre e post net :
  filter is_instance (CloudGraph.nodes g) !! i = Some node →
  CloudGraph.edges g = pre ++ e :: post →
  Edge.type e = EdgeType.IN_NETWORK →
  Edge.from_id e = Node.id node →
  PyDict.get (Edge.to_id e) (build_networks g) = Some net →
  Forall (λ e', ¬ (Edge.type e' = EdgeType.IN_NETWORK
                   ∧ Edge.from_id e' = Node.id node
                   ∧ is_Some (PyDict.get (Edge.to_id e') (build_networks g)))) post →
  InstanceSpec.network <$> DesiredStateSpec.instances (graph_to_spec set_iter g provider) !! i
  = Some (NetworkSpec.name net).
Proof.
  intros Hi Hedges Hty Hfrom Hget Hpost.
  rewrite (graph_instance_network _ _ _ _ _ Hi).
  unfold build_server_network. rewrite Hedges, <- Hfrom.
  rewrite (server_network_last _ pre e post ∅ net Hty Hget); [done|].
  by rewrite Hfrom.
Qed.

Lemma graph_to_spec_network_of_last_edge_witness :
  InstanceSpec.network <$>
    DesiredStateSpec.instances (graph_to_spec (λ s, s) two_networks "hetzner") !! 0
  = Some "net-b".
Proof.
  apply (graph_to_spec_network_of_last_edge (λ s, s) two_networks "hetzner" 0
           (server_node "hetzner:server:9" (Some "web") (Some "nbg1"))
           [in_network "hetzner:server:9" "hetzner:network:1"]
           (in_network "hetzner:server:9" "hetzner:network:2") []
           (NetworkSpec.mk "net-b" "10.0.0.0/24"));
    first [reflexivity | apply Forall_nil_2].
Defined.

(** C2 as stated fails: with edges to net-a and then net-b, the first edge
    names net-a and the compiled instance is on net-b. *)
Lemma graph_to_spec_first_edge_counterexample :
  first_edge_network two_networks "hetzner:server:9" = Some "net-a"
  ∧ InstanceSpec.network <$>
      DesiredStateSpec.instances (graph_to_spec (λ s, s) two_networks "hetzner") !! 0
    = Some "net-b"
  ∧ InstanceSpec.network <$>
      DesiredStateSpec.instances (graph_to_spec (λ s, s) two_networks "hetzner") !! 0
    ≠ first_edge_network two_networks "hetzner:server:9".
Proof. split_and!; [by vm_compute | by vm_compute | by vm_compute]. Qed.

(** *** C6 *)

(** C6, as the code has it: the spec's region is null when no
    ComputeInstance node has a non-empty region; otherwise it is the
    region of one of those nodes, which one being left to the iteration
    order of a set; it is the first node's region when all of them agree. *)
Theorem graph_to_spec_region set_iter g provider :
  valid_set_iter set_iter →
  (instance_regions (CloudGraph.nodes g) = [] →
   DesiredStateSpec.region (graph_to_spec set_iter g provider) = None)
  ∧ (instance_regions (CloudGraph.nodes g) ≠ [] →
     ∃ r, DesiredStateSpec.region (graph_to_spec set_iter g provider) = Some r
          ∧ r ∈ instance_regions (CloudGraph.nodes g))
  ∧ (∀ r0, head (instance_regions (CloudGraph.nodes g)) = Some r0 →
           Forall (eq r0) (instance_regions (CloudGraph.nodes g)) →
           DesiredStateSpec.region (graph_to_spec set_iter g provider) = Some r0).
Proof.
  intros Hvalid. rewrite graph_regions.
  set (rs := instance_regions (CloudGraph.nodes g)).
  assert (rs ≠ [] →
          ∃ r, match fold_left (λ s r, set_add r s) rs [] with
               | [] => None
               | r :: s => head (set_iter (r :: s))
               end = Some r ∧ r ∈ rs) as Hsome.
  { intros Hne.
    pose proof (set_add_fold_NoDup rs [] (NoDup_nil_2)) as Hnd.
    pose proof (set_add_fold_elem rs []) as Hel.
    destruct (fold_left (λ s r, set_add r s) rs []) as [|r s] eqn:Hfold.
    - destruct rs as [|r0 rs']; [done|]. exfalso.
      eapply not_elem_of_nil. apply (Hel r0). right. apply elem_of_cons. by left.
    - pose proof (Hvalid _ Hnd) as Hperm.
      destruct (set_iter (r :: s)) as [|x xs] eqn:Hit.
      + symmetry in Hperm. by apply Permutation_nil_r in Hperm.
      + exists x. split; [done|].
        assert (x ∈ r :: s) as Hx.
        { rewrite <- Hperm. apply elem_of_cons. by left. }
        apply Hel in Hx as [Hx|Hx]; [by apply elem_of_nil in Hx|done]. }
  split_and!.
  - intros ->. done.
  - done.
  - intros r0 Hhead Hall. destruct Hsome as (r & -> & Hr).
    + intros Hnil. by rewrite Hnil in Hhead.
    + f_equal. symmetry. by eapply list.Forall_forall in Hall.
Qed.

Lemma graph_to_spec_region_witness :
  DesiredStateSpec.region
    (graph_to_spec (λ s, s)
       (CloudGraph.mk [server_node "hetzner:server:1" (Some "a") (Some "nbg1");
                       server_node "hetzner:server:2" (Some "b") (Some "nbg1")] [])
       "hetzner")
  = Some "nbg1".
Proof.
  refine (proj2 (proj2 (graph_to_spec_region (λ s, s) _ "hetzner" _)) "nbg1" _ _).
  - intros s _. reflexivity.
  - reflexivity.
  - repeat constructor.
Defined.

(** C6 as stated fails: an admissible iteration order yields the region
    of the second instance, not of the first. *)
Lemma graph_to_spec_first_region_counterexample :
  valid_set_iter reverse
  ∧ head (instance_regions (CloudGraph.nodes two_regions)) = Some "nbg1"
  ∧ DesiredStateSpec.region (graph_to_spec reverse two_regions "hetzner") = Some "fsn1".
Proof.
  split_and!; [|by vm_compute|by vm_compute].
  intros s _. apply reverse_Permutation.
Qed.

(** *** C7 *)

(** An id of the data model has two colons at least, so it is never the
    key [synthetic:default] under which the compiler stores the network it
    synthesizes. *)
Lemma colons_append a b : colons (a +:+ b) = colons a + colons b.
Proof.
  unfold colons. induction a as [|c a IH]; [done|].
  change (String c a +:+ b) with (String c (a +:+ b)).
  cbn [String.list_ascii_of_string]. rewrite !filter_cons.
  destruct (decide (c = ":"%char)); cbn [length]; by rewrite IH.
Qed.

Lemma scheme_not_reserved id : follows_scheme id → id ≠ "synthetic:default".
Proof.
  intros (provider & kind & native_id & ->) Heq.
  apply (f_equal colons) in Heq. unfold scheme_id in Heq.
  rewrite !colons_append in Heq.
  change (colons ":") with 1 in Heq. change (colons "synthetic:default") with 1 in Heq.
  lia.
Qed.




(** The hypothesis is used: the id [synthetic:default] is not one of the
    data model, and a graph with a Network node under it gets no network
    called default. *)
Example reserved_key_outside_scheme :
  ¬ follows_scheme "synthetic:default"
  ∧ ∃ inst, inst ∈ DesiredStateSpec.instances (graph_to_spec (λ s, s) reserved_key "hetzner")
            ∧ InstanceSpec.network inst = "default"
            ∧ ∀ net, net ∈ DesiredStateSpec.networks
                             (graph_to_spec (λ s, s) reserved_key "hetzner")
                     → NetworkSpec.name net ≠ InstanceSpec.network inst.
Proof.
  split; [intros H; by apply scheme_not_reserved in H|].
  exists (InstanceSpec.mk "web" "cx31" "default" None [] [] None).
  split_and!; [vm_compute; apply list_elem_of_here | done |].
  intros net Hnet. vm_compute in Hnet.
  apply elem_of_cons in Hnet as [->|Hnet]; [discriminate|].
  by apply elem_of_nil in Hnet.
Qed.

(** *** The compiler on a scan of one server in one network *)

Example one_server_one_network :
  graph_to_spec (λ s, s)
    (CloudGraph.mk
       [Node.mk "hetzner:network:7" NodeType.NETWORK (Some "appnet") None None
          (Some "hetzner") (Some "7") [] [("ip_range", "10.1.0.0/16")];
        Node.mk "hetzner:server:3" NodeType.COMPUTE_INSTANCE (Some "web") (Some "fsn1")
          None (Some "hetzner") (Some "3") [("role", "web")] [("server_type", "cx31")];
        Node.mk "hetzner:volume:5" NodeType.VOLUME (Some "data") None None
          (Some "hetzner") (Some "5") [] []]
       [Edge.mk "hetzner:server:3" "hetzner:network:7" EdgeType.IN_NETWORK;
        Edge.mk "hetzner:server:3" "hetzner:volume:5" EdgeType.ATTACHED_TO])
    "hetzner"
  = DesiredStateSpec.mk "hetzner" (Some "fsn1")
      [NetworkSpec.mk "appnet" "10.1.0.0/16"]
      [InstanceSpec.mk "web" "cx31" "appnet" (Some "fsn1") [("role", "web")] [] None]
      [] [] [] [].
Proof. by vm_compute. Qed.

Example server_without_network :
  graph_to_spec (λ s, s)
    (CloudGraph.mk [server_node "hetzner:server:1" None None] []) "hetzner"
  = DesiredStateSpec.mk "hetzner" None
      [NetworkSpec.mk "default" "10.0.0.0/24"]
      [InstanceSpec.mk "hetzner:server:1" "cx31" "default" None [] [] None]
      [] [] [] [].
Proof. by vm_compute. Qed.
End SpecFacts.

(** ** Serialization of the resource graph *)

Module GraphCodecFacts.
Import GraphCodec.

Lemma opt_str_dump o : opt_str (Some (dump_opt_str o)) = Some o.
Proof. by destruct o. Qed.

Lemma str_dict_dump d : str_dict (Some (dump_dict d)) = Some d.
Proof.
  unfold str_dict, dump_dict.
  induction d as [|[k v] d IH]; [done|].
  cbn [map mapM fst snd]. by rewrite IH.
Qed.

Lemma node_type_dump t :
  enum_of NodeType.value NodeType.all (Some (Json.Str (NodeType.value t))) = Some t.
Proof. by destruct t. Qed.

Lemma edge_type_dump t :
  enum_of EdgeType.value EdgeType.all (Some (Json.Str (EdgeType.value t))) = Some t.
Proof. by destruct t. Qed.

Lemma get_here {V} k (v : V) d : PyDict.get k ((k, v) :: d) = Some v.
Proof. simpl. by rewrite decide_True. Qed.

Lemma get_skip {V} k k' (v : V) d :
  k ≠ k' → PyDict.get k ((k', v) :: d) = PyDict.get k d.
Proof. intros. simpl. by rewrite decide_False. Qed.

Lemma get_nil {V} k : PyDict.get k ([] : PyDict.t V) = None.
Proof. done. Qed.

(** One step of validating a serialized record: look a field up by its
    (literal) name, or undo the serialization of a field. *)
Ltac field_step :=
  first [ rewrite get_here
        | rewrite get_skip by discriminate
        | rewrite get_nil
        | rewrite node_type_dump
        | rewrite edge_type_dump
        | rewrite opt_str_dump
        | rewrite str_dict_dump
        | progress cbn [req_str mbind option_bind] ].

Lemma validate_dump_node n : validate_node (dump_node n) = Some n.
Proof.
  destruct n as [id type name region zone provider native labels attrs].
  unfold validate_node, dump_node.
  cbn [Node.id Node.type Node.name Node.region Node.zone
       Node.provider Node.provider_native_id Node.labels Node.attrs].
  by repeat field_step.
Qed.

Lemma validate_dump_edge e : validate_edge (dump_edge e) = Some e.
Proof.
  destruct e as [from_id to_id type].
  unfold validate_edge, dump_edge, aliased.
  cbn [Edge.from_id Edge.to_id Edge.type].
  by repeat field_step.
Qed.

Lemma list_of_dump {T} (dump : T → Json.t) (validate : Json.t → option T) l :
  (∀ x, validate (dump x) = Some x) →
  list_of validate (Some (Json.Arr (map dump l))) = Some l.
Proof.
  intros Hrt. unfold list_of.
  induction l as [|x l IH]; [done|].
  cbn [map mapM]. by rewrite Hrt, IH.
Qed.

(** Validation undoes serialization. *)
Lemma model_validate_dump g : model_validate (model_dump g) = Some g.
Proof.
  destruct g as [nodes edges]. unfold model_validate, model_dump.
  cbn [CloudGraph.nodes CloudGraph.edges].
  repeat field_step.
  rewrite (list_of_dump _ _ _ validate_dump_node). cbn [mbind option_bind].
  repeat field_step.
  rewrite (list_of_dump _ _ _ validate_dump_edge). done.
Qed.

(** C8: a CloudGraph written as JSON and validated again is the same
    graph; in particular it has as many nodes and edges, and its nodes
    have the same ids and the same attrs, in the same order. *)
Theorem cloudgraph_roundtrip g :
  ∃ g', model_validate (model_dump g) = Some g'
        ∧ length (CloudGraph.nodes g') = length (CloudGraph.nodes g)
        ∧ length (CloudGraph.edges g') = length (CloudGraph.edges g)
        ∧ map Node.id (CloudGraph.nodes g') = map Node.id (CloudGraph.nodes g)
        ∧ map Node.attrs (CloudGraph.nodes g') = map Node.attrs (CloudGraph.nodes g)
        ∧ g' = g.
Proof. exists g. split_and!; [apply model_validate_dump | done..]. Qed.

(** The document of an edge carries the field names, and the aliases are
    accepted on input as well. *)
Example edge_by_alias :
  validate_edge (Json.Obj [("from", Json.Str "a"); ("to", Json.Str "b");
                           ("type", Json.Str "in_network")])
  = Some (Edge.mk "a" "b" EdgeType.IN_NETWORK).
Proof. reflexivity. Qed.

Example node_defaults :
  validate_node (Json.Obj [("id", Json.Str "hetzner:server:1");
                           ("type", Json.Str "ComputeInstance")])
  = Some (Node.mk "hetzner:server:1" NodeType.COMPUTE_INSTANCE
            None None None None None [] []).
Proof. reflexivity. Qed.

Example node_bad_type :
  validate_node (Json.Obj [("id", Json.Str "x"); ("type", Json.Str "Server")]) = None.
Proof. reflexivity. Qed.
End GraphCodecFacts.

(** ** The effect monad *)

Module EffFacts.
Import Eff.

Lemma bind_unfold {E A B} (m : M E A) (k : A → M E B) hist :
  (m ≫= k) hist
  = match m hist with
    | (Ok a, ev1) => let '(r, ev2) := k a (hist ++ ev1) in (r, ev1 ++ ev2)
    | (Raise e, ev1) => (Raise e, ev1)
    end.
Proof. reflexivity. Qed.

Lemma bind_Ok {E A B} (m : M E A) (k : A → M E B) hist a ev1 :
  m hist = (Ok a, ev1) →
  (m ≫= k) hist = ((k a (hist ++ ev1)).1, ev1 ++ (k a (hist ++ ev1)).2).
Proof. intros Hm. rewrite bind_unfold, Hm. by destruct (k a (hist ++ ev1)). Qed.

Lemma bind_Raise {E A B} (m : M E A) (k : A → M E B) hist e ev1 :
  m hist = (Raise e, ev1) → (m ≫= k) hist = (Raise e, ev1).
Proof. intros Hm. by rewrite bind_unfold, Hm. Qed.

Lemma bind_emit {E B} (e : E) (k : unit → M E B) hist :
  (emit e ≫= k) hist = ((k tt (hist ++ [e])).1, e :: (k tt (hist ++ [e])).2).
Proof. by rewrite (bind_Ok _ _ _ tt [e]). Qed.

Lemma bind_ret {E A B} (a : A) (k : A → M E B) hist :
  (ret a ≫= k) hist = k a hist.
Proof.
  rewrite (bind_Ok _ _ _ a []); [|done]. rewrite app_nil_r. by destruct (k a hist).
Qed.

Lemma bind_raise {E A B} (e : exn) (k : A → M E B) hist :
  (raise e ≫= k) hist = (Raise e, []).
Proof. done. Qed.
End EffFacts.

Module EffLaws.
Import Eff EffFacts.

(** A step that adds no event hands the history on unchanged. *)
Lemma bind_pure {E A B} (m : M E A) (k : A → M E B) hist a :
  m hist = (Ok a, []) → (m ≫= k) hist = k a hist.
Proof.
  intros Hm. rewrite (bind_Ok _ _ _ a [] Hm), app_nil_r. by destruct (k a hist).
Qed.

(** Associativity, at every history. *)
Lemma bind_assoc {E A B C} (m : M E A) (f : A → M E B) (g : B → M E C) hist :
  ((m ≫= f) ≫= g) hist = (m ≫= (λ a, f a ≫= g)) hist.
Proof.
  rewrite !bind_unfold. destruct (m hist) as [[a|e] ev1]; [|done].
  rewrite bind_unfold.
  destruct (f a (hist ++ ev1)) as [[b|e] ev2]; [|done].
  rewrite <- app_assoc.
  destruct (g b (hist ++ ev1 ++ ev2)) as [r ev3]. by rewrite <- app_assoc.
Qed.

Lemma try_except_Ok {E A} (body handler : M E A) hist a ev :
  body hist = (Ok a, ev) → try_except body handler hist = (Ok a, ev).
Proof. intros Hb. unfold try_except. by rewrite Hb. Qed.

Lemma try_except_Raise {E A} (body handler : M E A) hist e ev :
  body hist = (Raise e, ev) →
  try_except body handler hist
  = ((handler (hist ++ ev)).1, ev ++ (handler (hist ++ ev)).2).
Proof.
  intros Hb. unfold try_except. rewrite Hb. by destruct (handler (hist ++ ev)).
Qed.
End EffLaws.

(** Computations all of whose events satisfy a predicate. *)
Module EffOnly.
Import Eff EffFacts EffLaws.

Lemma bind_inv {E A B} (m : M E A) (k : A → M E B) hist r ev :
  (m ≫= k) hist = (r, ev) →
  (∃ e, m hist = (Raise e, ev) ∧ r = Raise e)
  ∨ (∃ a ev1 ev2, m hist = (Ok a, ev1) ∧ k a (hist ++ ev1) = (r, ev2)
                  ∧ ev = ev1 ++ ev2).
Proof.
  rewrite bind_unfold. destruct (m hist) as [[a|e] ev1].
  - destruct (k a (hist ++ ev1)) as [r' ev2] eqn:Hk. intros [= <- <-].
    right. by exists a, ev1, ev2.
  - intros [= <- <-]. left. by exists e.
Qed.

Lemma only_ret {E A} (P : E → Prop) (a : A) : only P (ret a).
Proof. intros hist r ev [= <- <-]. constructor. Qed.

Lemma only_raise {E A} (P : E → Prop) e : only P (raise e : M E A).
Proof. intros hist r ev [= <- <-]. constructor. Qed.

Lemma only_emit {E} (P : E → Prop) e : P e → only P (emit e).
Proof. intros He hist r ev [= <- <-]. by repeat constructor. Qed.

Lemma only_bind {E A B} (P : E → Prop) (m : M E A) (k : A → M E B) :
  only P m → (∀ a, only P (k a)) → only P (m ≫= k).
Proof.
  intros Hm Hk hist r ev [(e & Hr & _)|(a & ev1 & ev2 & Hr & Hkr & ->)]%bind_inv.
  - by eapply Hm.
  - apply Forall_app. split; [by eapply Hm|by eapply Hk].
Qed.

Lemma only_when {E} (P : E → Prop) c (m : M E unit) : only P m → only P (when c m).
Proof. destruct c; [done|]. intros _. apply only_ret. Qed.

Lemma only_for_each {E X} (P : E → Prop) (xs : list X) (body : X → M E unit) :
  (∀ x, only P (body x)) → only P (for_each xs body).
Proof.
  intros Hbody. induction xs as [|x xs IH]; [apply only_ret|].
  apply only_bind; [apply Hbody|done].
Qed.

Lemma only_lift_ssh {A} (P : event → Prop) (m : M ssh_event A) :
  (∀ s, P (Deploy s)) → only P (lift_ssh m).
Proof.
  intros HP hist r ev. unfold lift_ssh.
  destruct (m (omap ssh_of hist)) as [r' ev']. intros [= <- <-].
  apply list.Forall_forall. intros e (s & -> & _)%list_elem_of_fmap. apply HP.
Qed.
End EffOnly.

(** ** The Terraform generator *)

Module TerraformGenFacts.
Import Eff EffFacts TerraformGen TerraformCases.

(** C9: for a spec with no instance the Hetzner generator writes a
    [servers.tf] with empty content and an [outputs.tf] whose
    [server_ips] map is empty (after the files that do not depend on the
    instances). *)
Theorem hetzner_generate_no_instances spec out_dir project_id workspace_id hist :
  DesiredStateSpec.instances spec = [] →
  generate HetznerTerraformGenerator spec out_dir project_id workspace_id hist
  = (Ok tt,
     [ Mkdir out_dir;
       WriteText (path_join out_dir "backend.tf") Hetzner.backend_tf;
       WriteText (path_join out_dir "providers.tf") Hetzner.providers_tf;
       WriteText (path_join out_dir "variables.tf") Hetzner.variables_tf;
       WriteText (path_join out_dir "network.tf")
         (PyStr.concat (Hetzner.network_blocks spec));
       WriteText (path_join out_dir "servers.tf") "";
       WriteText (path_join out_dir "outputs.tf") empty_outputs_tf ]).
Proof.
  intros Hnone. cbn [generate HetznerTerraformGenerator]. unfold Hetzner.generate.
  unfold write_text. rewrite !bind_emit.
  unfold Hetzner.server_blocks, Hetzner.outputs. rewrite Hnone.
  reflexivity.
Qed.

Lemma hetzner_generate_no_instances_witness :
  (generate HetznerTerraformGenerator no_instances "/p/cloudhand/terraform"
     "default" "default" []).2 !! 5
  = Some (WriteText "/p/cloudhand/terraform/servers.tf" "").
Proof.
  rewrite (hetzner_generate_no_instances no_instances "/p/cloudhand/terraform"
             "default" "default" [] eq_refl).
  reflexivity.
Defined.

Example network_tf_example :
  PyStr.concat (Hetzner.network_blocks no_instances)
  = PyStr.text [ "data " +:+ PyStr.dq +:+ "hcloud_network" +:+ PyStr.dq +:+ " "
                 +:+ PyStr.dq +:+ "app_net" +:+ PyStr.dq +:+ " {";
                 "  name = " +:+ PyStr.dq +:+ "app-net" +:+ PyStr.dq;
                 "}"; "" ].
Proof. reflexivity. Qed.

(** The server block of an instance [web-1] on the network [appnet]. *)
Example server_block_example :
  Hetzner._server_block
    (InstanceSpec.mk "web-1" "cx31" "appnet" None [("role", "db")] [] None)
    (DesiredStateSpec.mk "hetzner" (Some "fsn1") [] [] [] [] [] []) ("#cloud-config" +:+ PyStr.nl)
  = PyStr.text
      [ "resource " +:+ PyStr.dq +:+ "hcloud_server" +:+ PyStr.dq +:+ " "
        +:+ PyStr.dq +:+ "web_1" +:+ PyStr.dq +:+ " {";
        "  name        = " +:+ PyStr.dq +:+ "web-1" +:+ PyStr.dq;
        "  server_type = " +:+ PyStr.dq +:+ "cx31" +:+ PyStr.dq;
        "  image       = " +:+ PyStr.dq +:+ "ubuntu-22.04" +:+ PyStr.dq;
        "  location    = " +:+ PyStr.dq +:+ "fsn1" +:+ PyStr.dq;
        "  labels = {";
        "    role = " +:+ PyStr.dq +:+ "db" +:+ PyStr.dq;
        "  }";
        "";
        "  network {";
        "    network_id = data.hcloud_network.appnet.id";
        "  }";
        "";
        "  user_data = <<-EOF";
        "#cloud-config";
        "EOF";
        "  lifecycle {";
        "    ignore_changes = [user_data]";
        "  }";
        "}";
        "" ].
Proof. by vm_compute. Qed.

(** The bootstrap script of a database host: no automatic reboot, and the
    origins escaped for the templating layer. *)
Example user_data_for_db :
  PyStr.contains
    ("Unattended-Upgrade::Automatic-Reboot " +:+ PyStr.dq +:+ "false" +:+ PyStr.dq +:+ ";")
    (Hetzner._user_data_for_instance
       (InstanceSpec.mk "db" "cx31" "appnet" None [("role", "DB")] [] None)) = true
  ∧ PyStr.contains
      ("          " +:+ PyStr.dq +:+ "$${distro_id}:$${distro_codename}-security" +:+ PyStr.dq +:+ ";")
      (Hetzner._user_data_for_instance
         (InstanceSpec.mk "db" "cx31" "appnet" None [("role", "DB")] [] None)) = true
  ∧ PyStr.contains "__CH_"
      (Hetzner._user_data_for_instance
         (InstanceSpec.mk "db" "cx31" "appnet" None [("role", "DB")] [] None)) = false.
Proof. by vm_compute. Qed.
End TerraformGenFacts.

(** ** The SSH deployer *)

Module DeployerFacts.
Import Eff EffFacts EffLaws Deployer DeployerCases.

#[local] Abbreviation nl := PyStr.nl.

(** *** [run] *)

Lemma run_unfold W d cmd cwd mask hist :
  transport_active W hist (ip d) = true →
  run W d cmd cwd mask hist
  = let final_cmd :=
      if PyStr.truthy_opt cwd then "cd " +:+ default "" cwd +:+ " && " +:+ cmd else cmd in
    let line := Log ("[" +:+ ip d +:+ "] Running: " +:+ masked final_cmd mask) in
    let outcome := exec_command W (hist ++ [line]) (ip d) final_cmd in
    (match outcome with
     | inl e => Raise e
     | inr (exit_code, out, err) =>
         if negb (exit_code =? 0)%Z
         then Raise (Exception ("Command failed: " +:+ final_cmd +:+ nl
                                +:+ "Error: " +:+ PyStr.strip err))
         else Ok (PyStr.strip out)
     end,
     [line; Exec (ip d) final_cmd outcome]).
Proof.
  intros Hactive. unfold run.
  rewrite (bind_pure (ensure_transport W d) _ hist tt);
    [|unfold ensure_transport; by rewrite Hactive].
  rewrite bind_emit. cbn zeta. rewrite bind_unfold. unfold exec.
  destruct (exec_command W _ (ip d) _) as [e|[[code out] err]]; [done|].
  cbn [fst snd]. by destruct (negb (code =? 0)%Z).
Qed.

(** Whatever the mask, the exception of a failed command carries the
    command as it was sent. *)
Lemma run_failure_ignores_mask W d cmd cwd mask hist code out err :
  transport_active W hist (ip d) = true →
  exec_command W
    (hist ++ [Log ("[" +:+ ip d +:+ "] Running: "
                   +:+ masked (if PyStr.truthy_opt cwd
                               then "cd " +:+ default "" cwd +:+ " && " +:+ cmd else cmd) mask)])
    (ip d) (if PyStr.truthy_opt cwd then "cd " +:+ default "" cwd +:+ " && " +:+ cmd else cmd)
  = inr (code, out, err) →
  code ≠ 0%Z →
  (run W d cmd cwd mask hist).1
  = Raise (Exception ("Command failed: "
                      +:+ (if PyStr.truthy_opt cwd
                           then "cd " +:+ default "" cwd +:+ " && " +:+ cmd else cmd)
                      +:+ nl +:+ "Error: " +:+ PyStr.strip err)).
Proof.
  intros Hactive Hexec Hcode. rewrite run_unfold by done. cbn zeta.
  rewrite Hexec. cbn [fst].
  destruct (code =? 0)%Z eqn:Heq; [|done].
  by apply Z.eqb_eq in Heq.
Qed.

(** *** C1 *)

(** C1 fails on the code: a clone that embeds the token, run with the
    token in [mask], exits with status 128; the line printed has the
    token starred out, and the exception raised carries the command
    unmasked, token included. *)
Theorem run_error_leaks_masked_secret :
  ∃ msg,
    run (host repository_not_found no_env) box clone_with_token None
      (Some ["ghp_s3cr3t"]) []
    = (Raise (Exception msg),
       [ Log "[10.0.0.5] Running: git clone --branch main https://***@github.com/acme/app.git /opt/apps/app";
         Exec "10.0.0.5" clone_with_token
           (inr (128%Z, "", "fatal: repository not found" +:+ nl)) ])
    ∧ msg = "Command failed: " +:+ clone_with_token +:+ nl
            +:+ "Error: fatal: repository not found"
    ∧ PyStr.contains "ghp_s3cr3t" msg = true.
Proof. eexists. split_and!; [by vm_compute | reflexivity | by vm_compute]. Qed.

(** *** C10 *)

Lemma reclone_then W d app (k : M ssh_event unit) configure_nginx hist :
  k = (build W d app ;; services W d app configure_nginx) →
  (reclone W d app ;; k) hist = after_failed_fetch W d app configure_nginx hist.
Proof.
  intros ->. unfold reclone, after_failed_fetch.
  rewrite bind_assoc. rewrite !bind_unfold.
  destruct (run_ W d _ hist) as [[[]|e] ev1]; [|done].
  rewrite bind_assoc. rewrite !bind_unfold.
  destruct (run_ W d _ (hist ++ ev1)) as [[[]|e] ev2]; [|done].
  rewrite bind_assoc. rewrite !bind_unfold.
  destruct (run W d _ None (token_mask W) ((hist ++ ev1) ++ ev2)) as [[o|e] ev3]; [|done].
  rewrite bind_ret. done.
Qed.

(** C10: when the checkout exists ([test -d] succeeds) and the
    fetch-and-reset fails, with whatever exception, [deploy] does not
    raise it: it goes on to remove the whole app directory, clone the
    repository afresh, and build and start the service; its outcome is
    the outcome of those steps. *)
Theorem deploy_reclones_on_fetch_failure
    W d app configure_nginx hist ev0 out ev1 e ev2 :
  system_deps W d app hist = (Ok tt, ev0) →
  run W d ("test -d " +:+ app_dir_of app) None None (hist ++ ev0) = (Ok out, ev1) →
  run W d (fetch_cmd W app) (Some (app_dir_of app)) (token_mask W) (hist ++ ev0 ++ ev1)
  = (Raise e, ev2) →
  deploy W d app configure_nginx hist
  = ((after_failed_fetch W d app configure_nginx (hist ++ ev0 ++ ev1 ++ ev2)).1,
     ev0 ++ ev1 ++ ev2
     ++ (after_failed_fetch W d app configure_nginx (hist ++ ev0 ++ ev1 ++ ev2)).2).
Proof.
  intros Hdeps Htest Hfetch.
  assert (fetch_existing W d app (hist ++ ev0) = (Raise e, ev1 ++ ev2)) as Hbody.
  { unfold fetch_existing, run_.
    rewrite bind_assoc, (bind_Ok _ _ _ out ev1 Htest), bind_ret.
    rewrite <- (app_assoc hist ev0 ev1).
    by rewrite (bind_Raise _ _ _ e ev2 Hfetch). }
  pose proof (try_except_Raise _ (reclone W d app) _ e _ Hbody) as Hsync.
  fold (git_sync W d app) in Hsync.
  pose proof (reclone_then W d app _ configure_nginx (hist ++ ev0 ++ ev1 ++ ev2) eq_refl)
    as Hrest.
  rewrite bind_unfold in Hrest.
  replace ((hist ++ ev0) ++ ev1 ++ ev2) with (hist ++ ev0 ++ ev1 ++ ev2) in Hsync
    by (by rewrite <- !app_assoc).
  unfold deploy. rewrite bind_unfold, Hdeps, bind_unfold, Hsync.
  destruct (reclone W d app (hist ++ ev0 ++ ev1 ++ ev2)) as [[[]|e'] ev3];
    cbn [fst snd]; rewrite <- Hrest.
  - replace ((hist ++ ev0) ++ (ev1 ++ ev2) ++ ev3)
      with ((hist ++ ev0 ++ ev1 ++ ev2) ++ ev3) by (by rewrite <- !app_assoc).
    destruct ((build W d app ;; services W d app configure_nginx) _) as [r ev4].
    cbn [fst snd]. by rewrite <- !app_assoc.
  - cbn [fst snd]. by rewrite <- !app_assoc.
Qed.

Lemma deploy_reclones_on_fetch_failure_witness :
  deploy (host fetch_fails no_env) box (workload "web" [8000%Z]) false []
  = (Ok tt,
     [ Log "[10.0.0.5] Running: test -d /opt/apps/web";
       Exec "10.0.0.5" "test -d /opt/apps/web" (inr (0%Z, "", ""));
       Log "[10.0.0.5] Running: cd /opt/apps/web && git fetch origin && git reset --hard origin/main";
       Exec "10.0.0.5" "cd /opt/apps/web && git fetch origin && git reset --hard origin/main"
         (inr (1%Z, "", "fatal: unable to access the remote"));
       Log "[10.0.0.5] Running: rm -rf /opt/apps/web";
       Exec "10.0.0.5" "rm -rf /opt/apps/web" (inr (0%Z, "", ""));
       Log "[10.0.0.5] Running: mkdir -p /opt/apps";
       Exec "10.0.0.5" "mkdir -p /opt/apps" (inr (0%Z, "", ""));
       Log "[10.0.0.5] Running: git clone --branch main https://github.com/acme/app.git /opt/apps/web";
       Exec "10.0.0.5" "git clone --branch main https://github.com/acme/app.git /opt/apps/web"
         (inr (0%Z, "", ""));
       Upload "10.0.0.5" "/etc/systemd/system/web.service"
         (PyStr.text
            [ "[Unit]"; "Description=web"; "After=network.target"; "";
              "[Service]"; "Type=simple"; "User=root";
              "WorkingDirectory=/opt/apps/web"; "ExecStart=python3 main.py";
              "Restart=always"; ""; ""; "[Install]"; "WantedBy=multi-user.target" ])
         None;
       Log "[10.0.0.5] Running: systemctl daemon-reload";
       Exec "10.0.0.5" "systemctl daemon-reload" (inr (0%Z, "", ""));
       Log "[10.0.0.5] Running: systemctl enable web";
       Exec "10.0.0.5" "systemctl enable web" (inr (0%Z, "", ""));
       Log "[10.0.0.5] Running: systemctl restart web";
       Exec "10.0.0.5" "systemctl restart web" (inr (0%Z, "", "")) ]).
Proof.
  etransitivity.
  - eapply (deploy_reclones_on_fetch_failure _ _ _ _ []); vm_compute; reflexivity.
  - vm_compute. reflexivity.
Defined.

(** *** Combined routing *)

Lemma list_ascii_app a b :
  String.list_ascii_of_string (a +:+ b)
  = String.list_ascii_of_string a ++ String.list_ascii_of_string b.
Proof. induction a as [|c a IH]; simpl; [done|]. by rewrite IH. Qed.

Lemma prefix_app p s : String.prefix p (p +:+ s) = true.
Proof.
  induction p as [|c p IH]; simpl; [by destruct s|].
  destruct (Ascii.ascii_dec c c); [done|congruence].
Qed.

Lemma string_of_list_app l1 l2 :
  String.string_of_list_ascii (l1 ++ l2)
  = String.string_of_list_ascii l1 +:+ String.string_of_list_ascii l2.
Proof. induction l1 as [|c l1 IH]; simpl; [done|]. by rewrite IH. Qed.

Lemma endswith_app a b : PyStr.endswith (a +:+ b) b = true.
Proof.
  unfold PyStr.endswith, PyStr.rev_string.
  rewrite list_ascii_app.
  change (rev ?l) with (List.rev l). rewrite List.rev_app_distr.
  rewrite string_of_list_app. apply prefix_app.
Qed.

(** The two adjustments of [prefix] in the loop never apply. *)
Lemma route_prefix_normal app :
  (let name := PyStr.lower (ApplicationSpec.name app) in
   let prefix :=
     if PyStr.contains "api" name then "/api/"
     else "/" +:+ ApplicationSpec.name app +:+ "/" in
   let prefix := if negb (PyStr.startswith prefix "/") then "/" +:+ prefix else prefix in
   if negb (PyStr.endswith prefix "/") then prefix +:+ "/" else prefix)
  = route_prefix app.
Proof.
  cbn zeta. unfold route_prefix.
  destruct (PyStr.contains "api" _); [done|].
  assert (PyStr.startswith ("/" +:+ ApplicationSpec.name app +:+ "/") "/" = true) as ->.
  { unfold PyStr.startswith. simpl. by destruct (ApplicationSpec.name app +:+ "/"). }
  cbn [negb].
  change ("/" +:+ ApplicationSpec.name app +:+ "/")
    with (("/" +:+ ApplicationSpec.name app) +:+ "/").
  by rewrite endswith_app.
Qed.

Lemma first_port_Ok app hist :
  has_ports app →
  ∃ port, head (ServiceSpec.ports (ApplicationSpec.service_config app)) = Some port
          ∧ first_port app hist = (Ok port, []).
Proof.
  unfold has_ports, first_port.
  destruct (ServiceSpec.ports _) as [|port rest]; [done|]. intros _. by exists port.
Qed.

(** Past the root position, every candidate gets its block. *)
Lemma location_blocks_after root_idx i candidates hist :
  Forall has_ports candidates → root_idx < i →
  ∃ locations, location_blocks root_idx i candidates hist = (Ok locations, [])
               ∧ Forall2 routed candidates locations.
Proof.
  revert i. induction candidates as [|app rest IH]; intros i Hports Hlt.
  - exists []. by split.
  - apply Forall_cons in Hports as [Happ Hrest].
    destruct (first_port_Ok app hist Happ) as (port & Hhead & Hport).
    destruct (IH (S i) Hrest ltac:(lia)) as (locs & Hlocs & Hrouted).
    exists (location_block (route_prefix app) port :: locs). split.
    + cbn [location_blocks]. rewrite (bind_pure _ _ _ _ Hport).
      rewrite decide_False by lia.
      pose proof (route_prefix_normal app) as Hnorm. cbn zeta in Hnorm |- *.
      rewrite Hnorm.
      by rewrite (bind_pure _ _ _ _ Hlocs).
    + constructor; [by exists port|done].
Qed.

(** Up to the root position, every candidate but the root gets its block. *)
Lemma location_blocks_upto root_idx i candidates hist :
  Forall has_ports candidates → i ≤ root_idx →
  ∃ locations, location_blocks root_idx i candidates hist = (Ok locations, [])
               ∧ Forall2 routed (delete (root_idx - i) candidates) locations.
Proof.
  revert i. induction candidates as [|app rest IH]; intros i Hports Hle.
  - exists []. by split.
  - apply Forall_cons in Hports as [Happ Hrest].
    destruct (first_port_Ok app hist Happ) as (port & Hhead & Hport).
    cbn [location_blocks]. rewrite (bind_pure _ _ _ _ Hport).
    destruct (decide (i = root_idx)) as [->|Hne].
    + rewrite Nat.sub_diag. cbn [delete list_delete].
      apply location_blocks_after; [done|lia].
    + destruct (IH (S i) Hrest ltac:(lia)) as (locs & Hlocs & Hrouted).
      exists (location_block (route_prefix app) port :: locs). split.
      * pose proof (route_prefix_normal app) as Hnorm. cbn zeta in Hnorm |- *.
        rewrite Hnorm.
        by rewrite (bind_pure _ _ _ _ Hlocs).
      * replace (root_idx - i) with (S (root_idx - S i)) by lia.
        cbn [delete list_delete]. constructor; [by exists port|done].
Qed.

Lemma root_found candidates first i root :
  head candidates = Some first →
  is_root candidates i root →
  default (0, first) (list_find named_ui candidates) = (i, root).
Proof.
  intros Hfirst [Hi [[Hui Hbefore]|[-> Hnone]]].
  - assert (list_find named_ui candidates = Some (i, root)) as ->; [|done].
    apply list_find_Some. split_and!; [done|done|]. intros j app Hj Hlt. by eapply Hbefore.
  - assert (list_find named_ui candidates = None) as ->.
    { by apply list_find_None. }
    simpl. f_equal. destruct candidates; simplify_eq/=. done.
Qed.

(** *** C5 *)

(** C5, as the code has it: only the workloads that declare a port take
    part. When there is none, nothing is configured. Otherwise the single
    site proxies the root path to the first port of the root workload
    (the first candidate whose lower-cased name contains [ui], or else
    the first candidate), and has one location per other candidate, in
    order: [/api/] when its lower-cased name contains [api], its name
    between slashes otherwise, proxied to its first port. *)
Theorem combined_routing W d apps hist :
  (filter has_ports apps = [] →
   configure_combined_nginx W d apps hist = (Ok tt, []))
  ∧ (∀ root_idx root,
       is_root (filter has_ports apps) root_idx root →
       ∃ root_port locations,
         head (ServiceSpec.ports (ApplicationSpec.service_config root)) = Some root_port
         ∧ Forall2 routed (delete root_idx (filter has_ports apps)) locations
         ∧ configure_combined_nginx W d apps hist
           = install_site W d (filter has_ports apps)
               (combined_site
                  (_server_name_directive (site_names (filter has_ports apps)))
                  root_port locations) hist).
Proof.
  unfold configure_combined_nginx. split.
  - by intros ->.
  - intros root_idx root Hroot.
    assert (Forall has_ports (filter has_ports apps)) as Hports.
    { apply list.Forall_forall. by intros app [? _]%list_elem_of_filter. }
    destruct (filter has_ports apps) as [|first rest] eqn:Hcands.
    { destruct Hroot as [Hi _]. by rewrite lookup_nil in Hi. }
    rewrite (root_found (first :: rest) first root_idx root eq_refl Hroot).
    cbn [fst snd].
    assert (has_ports root) as Hroot_ports.
    { destruct Hroot as [Hi _]. eapply list.Forall_forall; [exact Hports|].
      by eapply list_elem_of_lookup_2. }
    destruct (first_port_Ok root hist Hroot_ports) as (root_port & Hhead & Hport).
    destruct (location_blocks_upto root_idx 0 (first :: rest) hist Hports ltac:(lia))
      as (locations & Hlocs & Hrouted).
    rewrite Nat.sub_0_r in Hrouted.
    exists root_port, locations. split_and!; [done|done|].
    rewrite (bind_pure _ _ _ _ Hport), (bind_pure _ _ _ _ Hlocs). done.
Qed.

Lemma combined_routing_witness :
  ∃ root_port locations,
    root_port = 3000%Z
    ∧ Forall2 routed [workload "orders-api" [8000%Z]; workload "worker" [9000%Z]] locations
    ∧ configure_combined_nginx (host (λ _, (0%Z, "", "")) no_env) box three_apps []
      = install_site (host (λ _, (0%Z, "", "")) no_env) box three_apps
          (combined_site "_" root_port locations) [].
Proof.
  destruct (proj2 (combined_routing (host (λ _, (0%Z, "", "")) no_env) box three_apps [])
              1 (workload "Web-UI" [3000%Z]))
    as (root_port & locations & Hport & Hrouted & Hrun).
  - split; [reflexivity|]. left. split; [by vm_compute|].
    intros j app Hj Hlt. destruct j as [|j]; [|lia].
    injection Hj as <-. by vm_compute.
  - exists root_port, locations. split_and!; [|exact Hrouted|exact Hrun].
    by injection Hport.
Defined.

Example three_apps_site :
  ∃ rest,
    (configure_combined_nginx (host (λ _, (0%Z, "", "")) no_env) box three_apps []).2
    = Upload "10.0.0.5" "/etc/nginx/sites-available/cloudhand"
        (PyStr.join nl
           [ "server {";
             "    listen 80;";
             "    server_name _;";
             "    client_max_body_size 25m;";
             "    location / {";
             "        proxy_pass http://127.0.0.1:3000/;";
             "        proxy_http_version 1.1;";
             "        proxy_set_header Upgrade $http_upgrade;";
             "        proxy_set_header Connection 'upgrade';";
             "        proxy_set_header Host $host;";
             "        proxy_set_header X-Real-IP $remote_addr;";
             "    }";
             "    location /api/ {";
             "        proxy_pass http://127.0.0.1:8000/;";
             "        proxy_http_version 1.1;";
             "        proxy_set_header Upgrade $http_upgrade;";
             "        proxy_set_header Connection 'upgrade';";
             "        proxy_set_header Host $host;";
             "        proxy_set_header X-Real-IP $remote_addr;";
             "    }";
             "    location /worker/ {";
             "        proxy_pass http://127.0.0.1:9000/;";
             "        proxy_http_version 1.1;";
             "        proxy_set_header Upgrade $http_upgrade;";
             "        proxy_set_header Connection 'upgrade';";
             "        proxy_set_header Host $host;";
             "        proxy_set_header X-Real-IP $remote_addr;";
             "    }";
             "}" ]) None :: rest.
Proof. eexists. vm_compute. reflexivity. Qed.

(** C5 as stated fails: the first workload declares no port and no name
    contains [ui]; the site proxies the root path to the second workload,
    the API, which gets no [/api/] location, and the first workload is
    not proxied at all. *)
Lemma combined_routing_portless_counterexample :
  ∃ conf rest,
    (configure_combined_nginx (host (λ _, (0%Z, "", "")) no_env) box
       [workload "worker" []; workload "api" [8000%Z]] []).2
    = Upload "10.0.0.5" "/etc/nginx/sites-available/cloudhand" conf None :: rest
    ∧ conf = combined_site "_" 8000 []
    ∧ PyStr.contains "location /api/" conf = false
    ∧ PyStr.contains "worker" conf = false
    ∧ Forall (λ e, match e with Upload _ _ _ _ => False | _ => True end) rest.
Proof.
  eexists _, _. split_and!; [by vm_compute | reflexivity | by vm_compute | by vm_compute |].
  repeat constructor.
Qed.
End DeployerFacts.

(** ** The apply orchestrator *)

Module ApplyFacts.
Import Eff EffFacts EffLaws EffOnly Apply ApplyCases.

Lemma deploy_instance_deploying W nginx_mode priv_key root server_ips inst :
  only deploying (deploy_instance W nginx_mode priv_key root server_ips inst).
Proof.
  unfold deploy_instance. apply only_bind.
  { unfold json_get. destruct server_ips; (apply only_ret || apply only_raise). }
  intros ip. destruct ip as [[]|]; try apply only_ret;
    destruct (InstanceSpec.workloads inst) as [|app rest]; try apply only_ret.
  all: try (destruct (Json.truthy _); [apply only_raise|apply only_ret]).
  destruct (negb (PyStr.truthy s)); [apply only_ret|].
  apply only_bind; [by apply only_emit|]. intros _.
  apply only_bind; [by apply only_lift_ssh|]. intros deployer.
  assert (∀ flag, only deploying
            (for_each (app :: rest)
               (λ app0, emit (Print ("  -> Deploying " +:+ ApplicationSpec.name app0 +:+ " ("
                                     +:+ format_runtime W (ApplicationSpec.runtime app0)
                                     +:+ ")...")) ;;
                        lift_ssh (Deployer.deploy (ssh W) deployer app0 flag)))) as Hloop.
  { intros flag. apply only_for_each. intros app0.
    apply only_bind; [by apply only_emit|]. intros _. by apply only_lift_ssh. }
  destruct (bool_decide _); [|apply Hloop].
  apply only_bind; [apply Hloop|]. intros _. by apply only_lift_ssh.
Qed.

Lemma generate_quiet g spec out_dir project_id workspace_id provider hist ev :
  TerraformGen.get_generator provider hist = (Ok g, ev) →
  ev = [] ∧ only quiet (TerraformGen.generate g spec out_dir project_id workspace_id).
Proof.
  unfold TerraformGen.get_generator, TerraformGen.GENERATOR_BY_PROVIDER. simpl.
  destruct (decide (provider = "hetzner")); [|done]. intros [= <- <-]. split; [done|].
  cbn [TerraformGen.generate TerraformGen.HetznerTerraformGenerator].
  unfold TerraformGen.Hetzner.generate, TerraformGen.write_text.
  repeat (apply only_bind; [by apply only_emit|intros _]). by apply only_emit.
Qed.

(** *** The steps of [apply_plan], read off a finished run *)

Lemma ret_inv {E A} (a : A) (hist : list E) r ev :
  ret a hist = (r, ev) → r = Ok a ∧ ev = [].
Proof. by intros [= <- <-]. Qed.

Lemma raise_inv {E A} e (hist : list E) (r : result A) ev :
  raise e hist = (r, ev) → r = Raise e ∧ ev = [].
Proof. by intros [= <- <-]. Qed.

Lemma emit_inv {E} (e : E) hist r ev : emit e hist = (r, ev) → r = Ok tt ∧ ev = [e].
Proof. by intros [= <- <-]. Qed.

Lemma write_text_inv dir name content hist r ev :
  TerraformGen.write_text dir name content hist = (r, ev) →
  r = Ok tt ∧ ev = [WriteText (TerraformGen.path_join dir name) content].
Proof. by intros [= <- <-]. Qed.

Lemma json_get_inv key j hist r ev : json_get key j hist = (r, ev) → ev = [].
Proof. unfold json_get. by destruct j; intros [= <- <-]. Qed.

Lemma ssh_key_inv W project_id hist r ev :
  ssh_key W project_id hist = (r, ev) → ev = [SshKey project_id].
Proof. unfold ssh_key. by intros [= <- <-]. Qed.

Lemma subprocess_run_inv W argv cwd env hist r ev :
  subprocess_run W argv cwd env hist = (r, ev) →
  ∃ o, ev = [Subprocess argv cwd env o]
       ∧ r = match o with inl e => Raise e | inr x => Ok x end.
Proof. unfold subprocess_run. intros [= <- <-]. by eexists. Qed.

Lemma subprocess_checked_inv W argv cwd env hist r ev :
  subprocess_checked W argv cwd env hist = (r, ev) →
  ∃ o, ev = [Subprocess argv cwd env o]
       ∧ match o with
         | inl e => r = Raise e
         | inr (code, out) =>
             (code = 0%Z ∧ r = Ok out)
             ∨ (code ≠ 0%Z ∧ r = Raise (CalledProcessError code argv))
         end.
Proof.
  unfold subprocess_checked.
  intros [(e & Hrun & ->)|([code out] & ev1 & ev2 & Hrun & Hk & ->)]%bind_inv;
    apply subprocess_run_inv in Hrun as (o & -> & Ho).
  - exists o. split; [done|]. destruct o as [e'|x]; by simplify_eq.
  - destruct o as [e'|x]; simplify_eq. cbn [fst snd] in Hk.
    destruct (code =? 0)%Z eqn:Hcode; cbn [negb] in Hk; injection Hk as <- <-.
    + apply Z.eqb_eq in Hcode. eexists. split; [done|]. by left.
    + apply Z.eqb_neq in Hcode. eexists. split; [done|]. by right.
Qed.

(** Split a finished run of [m ≫= k], kept in [H], into the run of [m]
    ([Hm]) and, when [m] returned, the run of [k] (again [H]). *)
Ltac binv H Hm :=
  let e := fresh "e" in let a := fresh "a" in
  let ev1 := fresh "ev" in let ev2 := fresh "ev" in
  apply bind_inv in H as [(e & Hm & ->)|(a & ev1 & ev2 & Hm & H & ->)].

Ltac fin H :=
  first [apply ret_inv in H as [-> ->] | apply raise_inv in H as [-> ->]].

Ltac stop := apply stopped_before_init; by repeat constructor.

Lemma progress_prepend root auto_approve res pre trace :
  Forall quiet pre →
  progress root auto_approve res trace →
  progress root auto_approve res (pre ++ trace).
Proof.
  intros Hpre [Hq|pre' bin env o Hq -> Ho|pre' bin env out0 o Hq -> Ho
               |pre' bin env out0 out1 o post Hq -> Hpost].
  - apply stopped_before_init. by apply Forall_app.
  - eapply (stopped_at_init _ _ _ _ (pre ++ pre')); [by apply Forall_app| |exact Ho].
    by rewrite app_assoc.
  - eapply (stopped_at_apply _ _ _ _ (pre ++ pre')); [by apply Forall_app| |exact Ho].
    by rewrite app_assoc.
  - eapply (went_on_to_deploy _ _ _ _ (pre ++ pre')); [by apply Forall_app| |exact Hpost].
    by rewrite app_assoc.
Qed.

Lemma deploy_workloads_deploying W root priv_key new_spec outputs :
  only deploying (deploy_workloads W root priv_key new_spec outputs).
Proof.
  unfold deploy_workloads.
  apply only_bind.
  { intros hist r ev ->%json_get_inv. constructor. }
  intros entry. apply only_bind.
  { intros hist r ev ->%json_get_inv. constructor. }
  intros server_ips. apply only_bind; [by apply only_emit|]. intros _.
  apply only_for_each. intros inst. apply deploy_instance_deploying.
Qed.

Lemma provision_progress W root auto_approve terraform_bin new_spec
    priv_key pub_key hist res trace :
  provision_and_deploy W root auto_approve terraform_bin new_spec priv_key pub_key hist
  = (res, trace) →
  progress root auto_approve res trace.
Proof.
  unfold provision_and_deploy. intros H.
  destruct (which W terraform_bin) as [tf_bin|]; [|fin H; stop].
  cbn zeta in H. set (env := tool_env W pub_key) in H.
  binv H Hm; apply subprocess_checked_inv in Hm as (o & -> & Ho).
  { eapply (stopped_at_init _ _ _ _ [] tf_bin env o); [constructor|done|].
    destruct o as [e'|[code out]]; [by injection Ho as ->|].
    by destruct Ho as [[_ [=]]|[Hne [= ->]]]. }
  destruct o as [e'|[code0 out0]]; [done|].
  destruct Ho as [[-> [= ->]]|[_ [=]]].
  binv H Hm; apply subprocess_run_inv in Hm as (o & -> & Ho).
  { destruct o as [e'|x]; [|done]. injection Ho as ->.
    by eapply (stopped_at_apply _ _ _ _ [] tf_bin env out0 (inl e')); [constructor|..]. }
  destruct o as [e'|[code1 out1]]; [done|]. injection Ho as ->. cbn [fst snd] in H.
  destruct (code1 =? 0)%Z eqn:Hcode; cbn [negb] in H.
  2:{ fin H. apply Z.eqb_neq in Hcode.
      by eapply (stopped_at_apply _ _ _ _ [] tf_bin env out0 (inr (code1, out1)));
        [constructor|..]. }
  apply Z.eqb_eq in Hcode as ->.
  assert (∀ o post, Forall deploying post →
            progress root auto_approve res
              ([Subprocess [tf_bin; "init"; "-input=false"; "-upgrade"]
                  (terraform_dir root) env (inr (0%Z, out0))] ++
               [Subprocess ([tf_bin; "apply"] ++ (if auto_approve then ["-auto-approve"] else []))
                  (terraform_dir root) env (inr (0%Z, out1))] ++
               [Subprocess [tf_bin; "output"; "-json"] (terraform_dir root) env o] ++ post))
    as Hdone.
  { intros o post Hpost.
    by eapply (went_on_to_deploy _ _ _ _ [] tf_bin env out0 out1 o post); [constructor|..]. }
  binv H Hm; apply subprocess_checked_inv in Hm as (o & -> & Ho).
  { by apply (Hdone o []). }
  destruct (json_loads W _) as [outputs|].
  2:{ fin H. by apply (Hdone o []). }
  binv H Hm.
  - apply (Hdone o). by eapply deploy_workloads_deploying.
  - fin H. apply (Hdone o). rewrite app_nil_r.
    by eapply deploy_workloads_deploying.
Qed.

Lemma apply_plan_progress W root plan_path auto_approve terraform_bin
    project_id workspace_id hist res trace :
  apply_plan W root plan_path auto_approve terraform_bin project_id workspace_id hist
  = (res, trace) →
  progress root auto_approve res trace.
Proof.
  unfold apply_plan. intros H.
  destruct (plan_text W plan_path) as [text|]; [|fin H; stop].
  destruct (json_loads W text) as [plan_data|]; [|fin H; stop].
  binv H Hm; apply json_get_inv in Hm as ->; [stop|].
  rewrite app_nil_l.
  destruct (negb (Json.truthy _)); [fin H; stop|].
  destruct (model_validate W _) as [new_spec|]; [|fin H; stop].
  binv H Hm; apply emit_inv in Hm as [Hr ->]; [done|clear Hr].
  apply progress_prepend; [by repeat constructor|].
  binv H Hm; apply write_text_inv in Hm as [Hr ->]; [done|clear Hr].
  apply progress_prepend; [by repeat constructor|].
  binv H Hm.
  { destruct (TerraformGen.get_generator _ _) as [[g|e'] evg] eqn:Hg; [done|].
    unfold TerraformGen.get_generator in Hg.
    destruct (PyDict.get _ _); [done|]. injection Hg as <- <-. injection Hm as <- <-.
    stop. }
  destruct (generate_quiet _ new_spec (terraform_dir root) project_id workspace_id
              _ _ _ Hm) as [-> Hgen].
  rewrite app_nil_l. clear Hm. binv H Hm.
  { apply stopped_before_init. by eapply Hgen. }
  apply progress_prepend; [by eapply Hgen|]. clear Hm.
  binv H Hm; apply emit_inv in Hm as [Hr ->]; [done|clear Hr].
  apply progress_prepend; [by repeat constructor|].
  binv H Hm; apply ssh_key_inv in Hm as ->; [stop|].
  apply progress_prepend; [by repeat constructor|].
  by eapply provision_progress.
Qed.

(** *** C3 *)

Lemma quiet_not_subprocess trace argv cwd env o :
  Forall quiet trace → Subprocess argv cwd env o ∉ trace.
Proof.
  intros Hq Hin. rewrite list.Forall_forall in Hq. exact (Hq _ Hin).
Qed.

Lemma deploying_not_subprocess trace argv cwd env o :
  Forall deploying trace → Subprocess argv cwd env o ∉ trace.
Proof.
  intros Hq Hin. rewrite list.Forall_forall in Hq. exact (Hq _ Hin).
Qed.

(** Which event of the tail of a trace [Hin] speaks of. *)
Ltac members Hin :=
  try (apply elem_of_app in Hin as [Hin|Hin];
       [by apply quiet_not_subprocess in Hin|]);
  repeat (apply elem_of_cons in Hin as [Hin|Hin];
          [unfold init_argv, apply_argv, output_argv in *; simplify_eq|]);
  try (by apply elem_of_nil in Hin).

(** C3, as the code has it: a non-zero exit code of the tool's init step
    ends the run with a CalledProcessError that carries the code (it is
    raised, not returned); a non-zero exit code of its apply step is
    returned unchanged. Either way that step is the last thing the run
    does: no outputs are read and no workload is deployed. *)
Theorem apply_plan_tool_failure W root plan_path auto_approve terraform_bin
    project_id workspace_id hist res trace :
  apply_plan W root plan_path auto_approve terraform_bin project_id workspace_id hist
  = (res, trace) →
  (∀ bin args cwd env code out,
     Subprocess (bin :: "init" :: args) cwd env (inr (code, out)) ∈ trace →
     code ≠ 0%Z →
     res = Raise (CalledProcessError code (bin :: "init" :: args))
     ∧ last trace = Some (Subprocess (bin :: "init" :: args) cwd env (inr (code, out))))
  ∧ (∀ bin args cwd env code out,
       Subprocess (bin :: "apply" :: args) cwd env (inr (code, out)) ∈ trace →
       code ≠ 0%Z →
       res = Ok code
       ∧ last trace = Some (Subprocess (bin :: "apply" :: args) cwd env (inr (code, out)))).
Proof.
  intros Hrun. apply apply_plan_progress in Hrun.
  destruct Hrun as [Hq|pre tf env' o Hq -> Ho|pre tf env' out0 o Hq -> Ho
                    |pre tf env' out0 out1 o post Hq -> Hpost].
  - split; intros bin args cwd env code out Hin _;
      by apply quiet_not_subprocess in Hin.
  - split; intros bin args cwd env code out Hin Hne; members Hin.
    cbn beta iota in Ho. destruct Ho as [_ ->]. split; [done|]. by rewrite last_snoc.
  - split; intros bin args cwd env code out Hin Hne; members Hin.
    cbn beta iota in Ho. destruct Ho as [_ ->]. split; [done|].
    match goal with
    | |- last (?p ++ [?x; ?y]) = _ =>
        change (p ++ [x; y]) with (p ++ [x] ++ [y]);
        by rewrite (app_assoc p [x] [y]), last_snoc
    end.
  - split; intros bin args cwd env code out Hin Hne;
      apply elem_of_app in Hin as [Hin|Hin];
      try (by apply quiet_not_subprocess in Hin);
      apply elem_of_app in Hin as [Hin|Hin];
      try (by apply deploying_not_subprocess in Hin);
      members Hin.
Qed.

Lemma apply_plan_tool_failure_witness :
  (run_apply (machine hetzner_plan 0 1)).1 = Ok 1%Z
  ∧ last (run_apply (machine hetzner_plan 0 1)).2
    = Some (Subprocess ["/usr/bin/terraform"; "apply"; "-auto-approve"]
              "/p/cloudhand/terraform" [("TF_VAR_ssh_public_key", "ssh-rsa AAAA")]
              (inr (1%Z, ""))).
Proof.
  refine (proj2 (apply_plan_tool_failure (machine hetzner_plan 0 1) "/p"
                   "/p/cloudhand/plan-1.json" true "terraform" "default" "default" []
                   _ _ (surjective_pairing _))
            "/usr/bin/terraform" ["-auto-approve"] "/p/cloudhand/terraform"
            [("TF_VAR_ssh_public_key", "ssh-rsa AAAA")] 1%Z "" _ _).
  - vm_compute. repeat first [apply list_elem_of_here | apply list_elem_of_further].
  - discriminate.
Defined.

(** C3 as stated fails for the init step: its exit code 1 is not what
    [apply_plan] returns; the call raises instead. *)
Lemma apply_plan_init_failure_counterexample :
  (run_apply (machine hetzner_plan 1 0)).1
  = Raise (CalledProcessError 1
             ["/usr/bin/terraform"; "init"; "-input=false"; "-upgrade"])
  ∧ (run_apply (machine hetzner_plan 1 0)).1 ≠ Ok 1%Z.
Proof. split; [by vm_compute|]. by vm_compute. Qed.

(** *** C4 *)

(** C4: when the plan has no [new_spec], or one that fails validation,
    [apply_plan] raises an error of the ValueError class and does nothing
    at all before: no directory made, no file written. *)
Theorem apply_plan_rejects_invalid_spec W root plan_path auto_approve terraform_bin
    project_id workspace_id hist text fields :
  plan_text W plan_path = Some text →
  json_loads W text = Some (Json.Obj fields) →
  (PyDict.get "new_spec" fields = None
   ∨ ∃ j, PyDict.get "new_spec" fields = Some j ∧ model_validate W j = None) →
  ∃ e, apply_plan W root plan_path auto_approve terraform_bin project_id workspace_id hist
       = (Raise e, [])
       ∧ is_value_error e = true.
Proof.
  intros Htext Hjson Hbad. unfold apply_plan. rewrite Htext, Hjson.
  unfold json_get. rewrite bind_ret.
  destruct Hbad as [->|(j & -> & Hinvalid)]; cbn [default from_option id Json.truthy negb].
  - eexists. split; reflexivity.
  - destruct (negb (Json.truthy j)); [eexists; split; reflexivity|].
    rewrite Hinvalid. eexists. split; reflexivity.
Qed.

Lemma apply_plan_rejects_invalid_spec_witness :
  ∃ e, run_apply (machine (Json.Obj [("operations", Json.Arr [])]) 0 0) = (Raise e, [])
       ∧ is_value_error e = true.
Proof.
  apply (apply_plan_rejects_invalid_spec _ _ _ _ _ _ _ _ "plan"
           [("operations", Json.Arr [])]); [reflexivity|reflexivity|].
  left. reflexivity.
Defined.

Example invalid_spec_is_a_validation_error :
  run_apply (machine (Json.Obj [("new_spec", Json.Obj [("region", Json.Str "nbg1")])]) 0 0)
  = (Raise ValidationError, []).
Proof. by vm_compute. Qed.

Example unknown_provider_after_spec_written :
  run_apply (machine (Json.Obj [("new_spec", Json.Obj [("provider", Json.Str "aws")])]) 0 0)
  = (Raise (ValueError "Unknown provider: aws"),
     [Mkdir "/p/cloudhand"; WriteText "/p/cloudhand/spec.json" "{}"]).
Proof. by vm_compute. Qed.
End ApplyFacts.

(** ** Replacement never leaves, nor brings in, what it was to remove *)

Module ReplaceFacts.
Import Words.

Lemma apart_tail new a w : apart new (String a w) → apart new w.
Proof. intros H c Hc Hw. apply (H c Hc). by right. Qed.

Lemma apart_new_tail b new w : apart (String b new) w → apart new w.
Proof. intros H c Hc. apply H. by right. Qed.

Lemma apart_heads a w b new : apart (String b new) (String a w) → a ≠ b.
Proof. intros H ->. apply (H b); by left. Qed.

Lemma app_cons b s rest : String b s +:+ rest = String b (s +:+ rest).
Proof. reflexivity. Qed.

Lemma prefix_empty s : String.prefix "" s = true.
Proof. by destruct s. Qed.

Lemma prefix_cons a w b s :
  String.prefix (String a w) (String b s)
  = if Ascii.ascii_dec a b then String.prefix w s else false.
Proof. reflexivity. Qed.

Lemma contains_cons w c s :
  PyStr.contains w (String c s) = String.prefix w (String c s) || PyStr.contains w s.
Proof. reflexivity. Qed.

Lemma contains_empty s : PyStr.contains "" s = true.
Proof. destruct s; reflexivity. Qed.

(** A non-empty word apart from [new] does not start inside [new]. *)
Lemma contains_skip_new new w rest :
  w ≠ "" → apart new w →
  PyStr.contains w (new +:+ rest) = PyStr.contains w rest.
Proof.
  intros Hw. induction new as [|b new IH]; intros Hap; [done|].
  rewrite app_cons. rewrite contains_cons.
  destruct w as [|a w]; [done|]. rewrite prefix_cons.
  destruct (Ascii.ascii_dec a b) as [->|_].
  - by apply apart_heads in Hap.
  - cbn [orb]. apply IH. by eapply apart_new_tail.
Qed.

Section Replace.
Variables old new : string.
Hypothesis new_not_empty : new ≠ "".

Lemma replace_from_nil k : PyStr.replace_from old new "" k = "".
Proof. by destruct k. Qed.

(** What the output starts with, the input started with. *)
Lemma prefix_replace_from w s :
  apart new w →
  String.prefix w (PyStr.replace_from old new s 0) = true → String.prefix w s = true.
Proof.
  revert w. induction s as [|c s IH]; intros w Hap; [done|].
  cbn [PyStr.replace_from].
  destruct (String.prefix old (String c s)).
  - destruct w as [|a w]; [done|]. destruct new as [|b new']; [done|].
    rewrite app_cons. rewrite prefix_cons.
    destruct (Ascii.ascii_dec a b) as [->|_]; [|done].
    by apply apart_heads in Hap.
  - destruct w as [|a w]; [done|]. rewrite !prefix_cons.
    destruct (Ascii.ascii_dec a c); [|done]. apply IH. by eapply apart_tail.
Qed.

(** Replacement brings in no occurrence of a word apart from [new]. *)
Lemma contains_replace_from w s k :
  apart new w →
  PyStr.contains w (PyStr.replace_from old new s k) = true → PyStr.contains w s = true.
Proof.
  intros Hap. revert k. induction s as [|c s IH]; intros k.
  - by rewrite replace_from_nil.
  - rewrite contains_cons. destruct k as [|k]; cbn [PyStr.replace_from].
    + destruct (String.prefix old (String c s)) eqn:Hmatch.
      * destruct (decide (w = "")) as [->|Hw]; [by rewrite prefix_empty|].
        rewrite contains_skip_new by done. intros H%IH. rewrite H. apply orb_true_r.
      * rewrite contains_cons. intros [H|H]%orb_true_iff.
        -- apply orb_true_iff. left.
           apply prefix_replace_from; [done|]. cbn [PyStr.replace_from].
           by rewrite Hmatch.
        -- apply IH in H. rewrite H. apply orb_true_r.
    + intros H%IH. rewrite H. apply orb_true_r.
Qed.

(** Replacement leaves no occurrence of [old]. *)
Lemma no_old_in_replace_from s k :
  old ≠ "" → apart new old →
  PyStr.contains old (PyStr.replace_from old new s k) = false.
Proof.
  intros Hold Hap. revert k. induction s as [|c s IH]; intros k.
  - rewrite replace_from_nil. by destruct old.
  - destruct k as [|k]; cbn [PyStr.replace_from]; [|apply IH].
    destruct (String.prefix old (String c s)) eqn:Hmatch.
    + rewrite contains_skip_new by done. apply IH.
    + rewrite contains_cons, IH, orb_false_r.
      destruct (String.prefix old (String c (PyStr.replace_from old new s 0))) eqn:Hp;
        [|done].
      rewrite <- Hmatch. symmetry. apply prefix_replace_from; [done|].
      cbn [PyStr.replace_from]. by rewrite Hmatch.
Qed.
End Replace.

Lemma replace_eq s old new :
  old ≠ "" → PyStr.replace s old new = PyStr.replace_from old new s 0.
Proof. by destruct old. Qed.

Lemma no_old_in_replace s old new :
  old ≠ "" → new ≠ "" → apart new old →
  PyStr.contains old (PyStr.replace s old new) = false.
Proof. intros. rewrite replace_eq by done. by apply no_old_in_replace_from. Qed.

Lemma contains_replace w s old new :
  old ≠ "" → new ≠ "" → apart new w →
  PyStr.contains w (PyStr.replace s old new) = true → PyStr.contains w s = true.
Proof. intros ???. rewrite replace_eq by done. by apply contains_replace_from. Qed.

(** A word in which [c] does not occur is apart from a run of [c]s. *)
Lemma contains_char_In c w :
  PyStr.contains (String c "") w = false → ¬ In c (String.list_ascii_of_string w).
Proof.
  induction w as [|a w IH]; [by intros _ []|].
  rewrite contains_cons, prefix_cons. intros [H1 H2]%orb_false_iff [->|Hin].
  - destruct (Ascii.ascii_dec c c); [|done]. by rewrite prefix_empty in H1.
  - by apply IH.
Qed.
End ReplaceFacts.

(** ** [str.strip] *)

Module StripFacts.

Lemma lstrip_head s :
  PyStr.lstrip s = "" ∨ ∃ c r, PyStr.lstrip s = String c r ∧ PyStr.isspace c = false.
Proof.
  induction s as [|c s IH]; [by left|].
  cbn [PyStr.lstrip]. destruct (PyStr.isspace c) eqn:Hc; [done|].
  right. by exists c, s.
Qed.

Lemma lstrip_fixed c r :
  PyStr.isspace c = false → PyStr.lstrip (String c r) = String c r.
Proof. intros Hc. cbn [PyStr.lstrip]. by rewrite Hc. Qed.

Lemma rstrip_head c r :
  PyStr.isspace c = false → ∃ r', PyStr.rstrip (String c r) = String c r'.
Proof.
  intros Hc. cbn [PyStr.rstrip]. rewrite Hc.
  destruct (PyStr.rstrip r); eauto.
Qed.

Lemma rstrip_idempotent s : PyStr.rstrip (PyStr.rstrip s) = PyStr.rstrip s.
Proof.
  induction s as [|c s IH]; [done|].
  cbn [PyStr.rstrip]. destruct (PyStr.rstrip s) as [|a r] eqn:Hr.
  - destruct (PyStr.isspace c) eqn:Hc; [done|].
    cbn [PyStr.rstrip]. by rewrite Hc.
  - change (PyStr.rstrip (String c (String a r)))
      with (match PyStr.rstrip (String a r) with
            | "" => if PyStr.isspace c then "" else String c ""
            | r0 => String c r0
            end).
    by rewrite IH.
Qed.

(** Stripping twice strips once. *)
Lemma strip_idempotent s : PyStr.strip (PyStr.strip s) = PyStr.strip s.
Proof.
  unfold PyStr.strip.
  destruct (lstrip_head s) as [->|(c & r & -> & Hc)]; [done|].
  destruct (rstrip_head c r Hc) as [r' Hr'].
  rewrite Hr', (lstrip_fixed c r' Hc), <- Hr'.
  apply rstrip_idempotent.
Qed.

End StripFacts.

(** ** Concatenation, [join] and [text] *)

Module AppendFacts.

Lemma append_nil_r s : s +:+ "" = s.
Proof.
  induction s as [|c s IH]; [done|].
  rewrite ReplaceFacts.app_cons. by rewrite IH.
Qed.

Lemma append_assoc a b c : (a +:+ b) +:+ c = a +:+ (b +:+ c).
Proof.
  induction a as [|x a IH]; [done|].
  rewrite !ReplaceFacts.app_cons. by rewrite IH.
Qed.

Lemma chars_app a b :
  String.list_ascii_of_string (a +:+ b)
  = String.list_ascii_of_string a ++ String.list_ascii_of_string b.
Proof.
  induction a as [|c a IH]; [done|].
  rewrite ReplaceFacts.app_cons. cbn [String.list_ascii_of_string app]. by rewrite IH.
Qed.

(** Lines joined by line feeds and ended by one are the text of the lines. *)
Lemma join_text l ls :
  PyStr.join PyStr.nl (l :: ls) +:+ PyStr.nl = PyStr.text (l :: ls).
Proof.
  revert l. induction ls as [|l' ls IH]; intros l.
  - unfold PyStr.text. cbn [PyStr.join map PyStr.concat fold_right].
    by rewrite append_nil_r.
  - change (PyStr.join PyStr.nl (l :: l' :: ls))
      with (l +:+ PyStr.nl +:+ PyStr.join PyStr.nl (l' :: ls)).
    rewrite !append_assoc, IH. unfold PyStr.text.
    cbn [map PyStr.concat fold_right]. by rewrite !append_assoc.
Qed.

End AppendFacts.

(** ** More about [strip], and [splitlines] *)

Module LineFacts.
Import StripFacts AppendFacts.

Lemma rstrip_nonspace c s :
  PyStr.isspace c = false → PyStr.rstrip (String c s) = String c (PyStr.rstrip s).
Proof. intros Hc. cbn [PyStr.rstrip]. rewrite Hc. by destruct (PyStr.rstrip s). Qed.

Lemma rstrip_blank s : PyStr.rstrip s = "" → PyStr.lstrip s = "".
Proof.
  induction s as [|c s IH]; [done|]. cbn [PyStr.rstrip PyStr.lstrip].
  destruct (PyStr.rstrip s); [|done].
  destruct (PyStr.isspace c); [|done]. intros _. by apply IH.
Qed.

Lemma lstrip_rstrip s : PyStr.lstrip (PyStr.rstrip s) = PyStr.rstrip (PyStr.lstrip s).
Proof.
  induction s as [|c s IH]; [done|].
  destruct (PyStr.isspace c) eqn:Hc.
  - cbn [PyStr.lstrip]. rewrite Hc, <- IH. cbn [PyStr.rstrip].
    destruct (PyStr.rstrip s) as [|a r] eqn:Hr.
    + by rewrite Hc.
    + cbn [PyStr.lstrip]. by rewrite Hc.
  - rewrite (lstrip_fixed c s Hc), (rstrip_nonspace c s Hc).
    by rewrite (lstrip_fixed c _ Hc).
Qed.

Lemma strip_rstrip s : PyStr.strip (PyStr.rstrip s) = PyStr.strip s.
Proof. unfold PyStr.strip. by rewrite lstrip_rstrip, rstrip_idempotent. Qed.

Lemma strip_space c s : PyStr.isspace c = true → PyStr.strip (String c s) = PyStr.strip s.
Proof. intros Hc. unfold PyStr.strip. cbn [PyStr.lstrip]. by rewrite Hc. Qed.

(** A line without boundaries, ended by a line feed, is read as one line. *)
Lemma splitlines_from_line cur l rest :
  Forall (λ c, PyLines.is_cr c = false ∧ PyLines.is_break c = false)
    (String.list_ascii_of_string l) →
  PyLines.splitlines_from cur (l +:+ PyStr.nl +:+ rest)
  = (cur +:+ l) :: PyLines.splitlines_from "" rest.
Proof.
  revert cur. induction l as [|c l IH]; intros cur Hl.
  - by rewrite append_nil_r.
  - cbn [String.list_ascii_of_string] in Hl. apply Forall_cons in Hl as [[Hcr Hbr] Hl].
    rewrite ReplaceFacts.app_cons. cbn [PyLines.splitlines_from].
    rewrite Hcr, Hbr, IH; [|done].
    by rewrite append_assoc.
Qed.

End LineFacts.

(** ** Finding a separator *)

Module SplitFacts.
Import ReplaceFacts.

Lemma prefix_app_same w b : String.prefix w (w +:+ b) = true.
Proof.
  induction w as [|c w IH]; [apply prefix_empty|].
  rewrite app_cons, prefix_cons. by destruct (Ascii.ascii_dec c c).
Qed.

Lemma contains_prefix w s : String.prefix w s = true → PyStr.contains w s = true.
Proof. intros H. destruct s; cbn [PyStr.contains]; by rewrite H. Qed.

(** A word occurs in any text built around it. *)
Lemma contains_app w a b : PyStr.contains w (a +:+ w +:+ b) = true.
Proof.
  induction a as [|c a IH].
  - change ("" +:+ w +:+ b) with (w +:+ b). apply contains_prefix, prefix_app_same.
  - rewrite app_cons, contains_cons, IH. apply orb_true_r.
Qed.

Lemma split_once_cons sep c s :
  PyLines.split_once sep (String c s)
  = if String.prefix sep (String c s)
    then Some ("", PyLines.drop (String.length sep) (String c s))
    else match PyLines.split_once sep s with
         | Some (a, b) => Some (String c a, b)
         | None => None
         end.
Proof. reflexivity. Qed.

(** Splitting at a character cuts at its first occurrence. *)
Lemma split_once_char c a b :
  ¬ In c (String.list_ascii_of_string a) →
  PyLines.split_once (String c "") (a +:+ String c b) = Some (a, b).
Proof.
  induction a as [|x a IH]; intros Hnot.
  - change ("" +:+ String c b) with (String c b).
    rewrite split_once_cons, prefix_cons, prefix_empty.
    by destruct (Ascii.ascii_dec c c).
  - rewrite app_cons, split_once_cons, prefix_cons.
    destruct (Ascii.ascii_dec c x) as [->|_]; [exfalso; apply Hnot; by left|].
    rewrite IH; [done|]. intros Hin. apply Hnot. by right.
Qed.

End SplitFacts.

(** ** Occurrences in concatenations *)

Module ContainsFacts.
Import ReplaceFacts AppendFacts SplitFacts.

Lemma prefix_append w s b : String.prefix w s = true → String.prefix w (s +:+ b) = true.
Proof.
  revert s. induction w as [|a w IH]; intros s; [intros _; apply prefix_empty|].
  destruct s as [|c s]; [done|].
  rewrite app_cons, !prefix_cons. destruct (Ascii.ascii_dec a c); [apply IH|done].
Qed.

Lemma contains_append_l w a b :
  PyStr.contains w a = true → PyStr.contains w (a +:+ b) = true.
Proof.
  induction a as [|c a IH].
  - destruct w; [intros _; apply contains_empty|done].
  - rewrite app_cons, !contains_cons. intros [H|H]%orb_true_iff.
    + by rewrite <- app_cons, (prefix_append _ _ _ H).
    + rewrite (IH H). apply orb_true_r.
Qed.

Lemma contains_append_r w a b :
  PyStr.contains w b = true → PyStr.contains w (a +:+ b) = true.
Proof.
  intros H. induction a as [|c a IH]; [done|].
  rewrite app_cons, contains_cons, IH. apply orb_true_r.
Qed.

(** What occurs in a part occurs in the concatenation. *)
Lemma contains_concat w parts x :
  x ∈ parts → PyStr.contains w x = true → PyStr.contains w (PyStr.concat parts) = true.
Proof.
  intros Hin Hx. induction parts as [|p parts IH]; [by apply elem_of_nil in Hin|].
  change (PyStr.concat (p :: parts)) with (p +:+ PyStr.concat parts).
  apply elem_of_cons in Hin as [<-|Hin].
  - by apply contains_append_l.
  - by apply contains_append_r, IH.
Qed.

End ContainsFacts.

(** ** More on the SSH deployer *)

Module DeployerMore.
Import Eff EffFacts EffLaws Deployer DeployerCases Words ReplaceFacts DeployerWords
  DeployerWorlds.

(** *** The printed command *)

Lemma truthy_not_empty s : PyStr.truthy s = true ↔ s ≠ "".
Proof. by destruct s. Qed.

Lemma stars_apart m : PyStr.contains "*" m = false → apart "***" m.
Proof.
  intros Hm c Hc. apply contains_char_In in Hm.
  cbn in Hc. destruct Hc as [<-|[<-|[<-|[]]]]; done.
Qed.

Lemma masked_keeps_absent m mask cur :
  PyStr.contains "*" m = false →
  PyStr.contains m cur = false →
  PyStr.contains m
    (fold_left (λ display_cmd m', if PyStr.truthy m'
                                  then PyStr.replace display_cmd m' "***"
                                  else display_cmd) mask cur) = false.
Proof.
  intros Hstar. revert cur. induction mask as [|m' mask IH]; intros cur Hcur; [done|].
  cbn [fold_left]. apply IH.
  destruct (PyStr.truthy m') eqn:Hm'; [|done].
  apply truthy_not_empty in Hm'.
  destruct (PyStr.contains m (PyStr.replace cur m' "***")) eqn:Hc; [|done].
  apply contains_replace in Hc; [congruence|done|done|by apply stars_apart].
Qed.

(** X1: the command as [run] prints it holds none of the secrets listed in
    [mask], as long as the secret is not empty and has no asterisk in it. *)
Theorem masked_hides_secrets final mask m :
  m ∈ default [] mask →
  m ≠ "" →
  PyStr.contains "*" m = false →
  PyStr.contains m (masked final mask) = false.
Proof.
  unfold masked. generalize (default [] mask). clear mask.
  intros mask Hin Hm Hstar. revert final.
  induction mask as [|m' mask IH]; intros final; [by apply elem_of_nil in Hin|].
  cbn [fold_left]. apply elem_of_cons in Hin as [<-|Hin]; [|by apply IH].
  apply masked_keeps_absent; [done|].
  rewrite (proj2 (truthy_not_empty m) Hm).
  apply no_old_in_replace; [done|done|by apply stars_apart].
Qed.

Lemma masked_hides_secrets_witness :
  PyStr.contains "ghp_s3cr3t"
    (masked clone_with_token (Some ["ghp_s3cr3t"])) = false.
Proof.
  apply masked_hides_secrets; [apply list_elem_of_here|done|by vm_compute].
Defined.

(** *** Connecting *)

Lemma failed_attempts_S ip k :
  failed_attempts ip (S k) = [Connect ip false; Sleep 5] ++ failed_attempts ip k.
Proof. reflexivity. Qed.

Lemma connect_attempts_trace W d n hist r ev :
  connect_attempts W d n hist = (r, ev) →
  ∃ k, (r = Ok tt ∧ k < n ∧ ev = failed_attempts (ip d) k ++ [Connect (ip d) true])
       ∨ (r = Raise (ConnectionError ("Could not connect to " +:+ ip d))
          ∧ k = n ∧ ev = failed_attempts (ip d) n).
Proof.
  revert hist r ev. induction n as [|n IH]; intros hist r ev.
  - intros [= <- <-]. exists 0. by right.
  - cbn [connect_attempts]. rewrite bind_unfold. unfold try_connect at 1.
    destruct (connect_ok W hist (ip d)) eqn:Hok.
    + intros [= <- <-]. exists 0. left. split_and!; [done|lia|done].
    + rewrite bind_emit.
      destruct (connect_attempts W d n _) as [r' ev'] eqn:Hrest.
      cbn [fst snd]. intros [= <- <-].
      destruct (IH _ _ _ Hrest) as [k [(-> & Hk & ->)|(-> & -> & ->)]].
      * exists (S k). left. split_and!; [done|lia|by rewrite failed_attempts_S].
      * exists (S n). right. by rewrite failed_attempts_S.
Qed.

(** X2: [connect] tries at most ten times, pausing five seconds after each
    failure. It returns at the first attempt that succeeds; when all ten
    fail it raises ConnectionError naming the host. *)
Theorem connect_gives_up_after_ten W d hist r ev :
  connect W d hist = (r, ev) →
  (∃ k, k < 10 ∧ r = Ok tt
        ∧ ev = failed_attempts (ip d) k ++ [Connect (ip d) true])
  ∨ (r = Raise (ConnectionError ("Could not connect to " +:+ ip d))
     ∧ ev = failed_attempts (ip d) 10).
Proof.
  intros [k [(-> & Hk & ->)|(-> & -> & ->)]]%connect_attempts_trace.
  - left. by exists k.
  - by right.
Qed.

Lemma connect_gives_up_after_ten_witness :
  (∃ k, k < 10 ∧ Ok tt = Ok tt
        ∧ [Connect "10.0.0.5" false; Sleep 5; Connect "10.0.0.5" false; Sleep 5;
           Connect "10.0.0.5" true]
          = failed_attempts "10.0.0.5" k ++ [Connect "10.0.0.5" true])
  ∨ (@Ok unit tt = Raise (ConnectionError "Could not connect to 10.0.0.5")
     ∧ [Connect "10.0.0.5" false; Sleep 5; Connect "10.0.0.5" false; Sleep 5;
        Connect "10.0.0.5" true]
       = failed_attempts "10.0.0.5" 10).
Proof.
  apply (connect_gives_up_after_ten (waking_host 2 (λ _, (0%Z, "", ""))) box []).
  by vm_compute.
Defined.

Example connect_never_accepted :
  connect (waking_host 11 (λ _, (0%Z, "", ""))) box []
  = (Raise (ConnectionError "Could not connect to 10.0.0.5"),
     failed_attempts "10.0.0.5" 10).
Proof. by vm_compute. Qed.

(** *** [run] on a dead transport *)

Lemma exec_events W d cmd hist :
  exec W d cmd hist
  = (match exec_command W hist (ip d) cmd with inl e => Raise e | inr r => Ok r end,
     [Exec (ip d) cmd (exec_command W hist (ip d) cmd)]).
Proof. reflexivity. Qed.

(** X3: with a dead transport [run] first reconnects. If that fails, the
    connection error is the outcome and the command is neither printed nor
    sent; if it succeeds, the command is printed and sent once. *)
Theorem run_reconnects W d cmd cwd mask hist :
  transport_active W hist (ip d) = false →
  (∀ e ev, connect W d hist = (Raise e, ev) →
           run W d cmd cwd mask hist = (Raise e, ev))
  ∧ (∀ ev, connect W d hist = (Ok tt, ev) →
           ∃ outcome,
             (run W d cmd cwd mask hist).2 = ev ++ command_events d cmd cwd mask outcome
             ∧ outcome
               = exec_command W
                   (hist ++ ev ++ [Log ("[" +:+ ip d +:+ "] Running: "
                                        +:+ masked (final_cmd cmd cwd) mask)])
                   (ip d) (final_cmd cmd cwd)).
Proof.
  intros Hdead.
  assert (ensure_transport W d hist = connect W d hist) as Hens.
  { unfold ensure_transport. by rewrite Hdead. }
  split.
  - intros e ev Hc. unfold run. apply bind_Raise. by rewrite Hens.
  - intros ev Hc. eexists. split; [|reflexivity].
    unfold run. rewrite (bind_Ok _ _ _ tt ev); [|by rewrite Hens].
    cbn [snd]. f_equal. fold (final_cmd cmd cwd).
    rewrite bind_emit. cbn [snd]. unfold command_events. f_equal.
    rewrite bind_unfold, exec_events, <- app_assoc.
    destruct (exec_command W _ (ip d) _) as [e|[[code out] err]]; [done|].
    cbn [fst snd]. by destruct (negb (code =? 0)%Z).
Qed.

Lemma run_reconnects_witness :
  run (waking_host 11 (λ _, (0%Z, "", ""))) box "uptime" None None []
  = (Raise (ConnectionError "Could not connect to 10.0.0.5"),
     failed_attempts "10.0.0.5" 10).
Proof.
  apply (run_reconnects (waking_host 11 (λ _, (0%Z, "", ""))) box "uptime" None None []
           eq_refl).
  by vm_compute.
Defined.

Example run_after_one_refusal :
  run (waking_host 1 (λ _, (0%Z, " up 3 days ", ""))) box "uptime" None None []
  = (Ok "up 3 days",
     [ Connect "10.0.0.5" false; Sleep 5; Connect "10.0.0.5" true;
       Log "[10.0.0.5] Running: uptime";
       Exec "10.0.0.5" "uptime" (inr (0%Z, " up 3 days ", "")) ]).
Proof. by vm_compute. Qed.

(** *** The git-sync step, when nothing fails and when the checkout is missing *)

(** X4: when the checkout exists and the fetch-and-reset succeeds, [deploy]
    goes straight on to build and start the service: the app directory is
    not removed and nothing is cloned. *)
Theorem deploy_keeps_checkout_on_fetch_success
    W d app configure_nginx hist ev0 out ev1 out' ev2 :
  system_deps W d app hist = (Ok tt, ev0) →
  run W d ("test -d " +:+ app_dir_of app) None None (hist ++ ev0) = (Ok out, ev1) →
  run W d (fetch_cmd W app) (Some (app_dir_of app)) (token_mask W) (hist ++ ev0 ++ ev1)
  = (Ok out', ev2) →
  deploy W d app configure_nginx hist
  = ((after_sync W d app configure_nginx (hist ++ ev0 ++ ev1 ++ ev2)).1,
     ev0 ++ ev1 ++ ev2
     ++ (after_sync W d app configure_nginx (hist ++ ev0 ++ ev1 ++ ev2)).2).
Proof.
  intros Hdeps Htest Hfetch.
  assert (fetch_existing W d app (hist ++ ev0) = (Ok tt, ev1 ++ ev2)) as Hbody.
  { unfold fetch_existing, run_.
    rewrite bind_assoc, (bind_Ok _ _ _ out ev1 Htest), bind_ret.
    rewrite <- (app_assoc hist ev0 ev1).
    rewrite (bind_Ok _ _ _ out' ev2 Hfetch). cbn [fst snd]. by rewrite app_nil_r. }
  pose proof (try_except_Ok _ (reclone W d app) _ _ _ Hbody) as Hsync.
  fold (git_sync W d app) in Hsync.
  unfold deploy. rewrite bind_unfold, Hdeps, bind_unfold, Hsync.
  fold (after_sync W d app configure_nginx).
  replace ((hist ++ ev0) ++ ev1 ++ ev2) with (hist ++ ev0 ++ ev1 ++ ev2)
    by (by rewrite <- !app_assoc).
  destruct (after_sync W d app configure_nginx _) as [r ev3].
  cbn [fst snd]. by rewrite <- !app_assoc.
Qed.

Lemma deploy_keeps_checkout_on_fetch_success_witness :
  Forall (λ e, match e with
               | Exec _ cmd _ => PyStr.contains "rm -rf" cmd = false
                                 ∧ PyStr.contains "git clone" cmd = false
               | _ => True
               end)
    (deploy (host (λ _, (0%Z, "", "")) no_env) box (workload "web" [8000%Z]) false []).2.
Proof.
  erewrite (deploy_keeps_checkout_on_fetch_success _ _ _ _ []);
    [|vm_compute; reflexivity..].
  vm_compute. repeat constructor.
Defined.

(** X5: when the checkout is missing ([test -d] fails), no fetch is
    attempted: [deploy] removes whatever is at the app directory, clones
    the repository, and goes on. *)
Theorem deploy_clones_when_checkout_missing
    W d app configure_nginx hist ev0 e ev1 :
  system_deps W d app hist = (Ok tt, ev0) →
  run W d ("test -d " +:+ app_dir_of app) None None (hist ++ ev0) = (Raise e, ev1) →
  deploy W d app configure_nginx hist
  = ((after_failed_fetch W d app configure_nginx (hist ++ ev0 ++ ev1)).1,
     ev0 ++ ev1
     ++ (after_failed_fetch W d app configure_nginx (hist ++ ev0 ++ ev1)).2).
Proof.
  intros Hdeps Htest.
  assert (fetch_existing W d app (hist ++ ev0) = (Raise e, ev1)) as Hbody.
  { unfold fetch_existing, run_.
    by rewrite bind_assoc, (bind_Raise _ _ _ e ev1 Htest). }
  pose proof (try_except_Raise _ (reclone W d app) _ e _ Hbody) as Hsync.
  fold (git_sync W d app) in Hsync.
  pose proof (DeployerFacts.reclone_then W d app _ configure_nginx (hist ++ ev0 ++ ev1)
                eq_refl) as Hrest.
  rewrite bind_unfold in Hrest.
  replace ((hist ++ ev0) ++ ev1) with (hist ++ ev0 ++ ev1) in Hsync
    by (by rewrite <- !app_assoc).
  unfold deploy. rewrite bind_unfold, Hdeps, bind_unfold, Hsync.
  destruct (reclone W d app (hist ++ ev0 ++ ev1)) as [[[]|e'] ev3];
    cbn [fst snd]; rewrite <- Hrest.
  - replace ((hist ++ ev0) ++ ev1 ++ ev3) with ((hist ++ ev0 ++ ev1) ++ ev3)
      by (by rewrite <- !app_assoc).
    destruct ((build W d app ;; services W d app configure_nginx) _) as [r ev4].
    cbn [fst snd]. by rewrite <- !app_assoc.
  - cbn [fst snd]. by rewrite <- ?app_assoc.
Qed.

Lemma deploy_clones_when_checkout_missing_witness :
  ∃ ev0 e ev1,
    system_deps fresh_host box (workload "web" [8000%Z]) [] = (Ok tt, ev0)
    ∧ run fresh_host box "test -d /opt/apps/web" None None ([] ++ ev0) = (Raise e, ev1)
    ∧ deploy fresh_host box (workload "web" [8000%Z]) false []
      = ((after_failed_fetch fresh_host box (workload "web" [8000%Z]) false
            ([] ++ ev0 ++ ev1)).1,
         ev0 ++ ev1
         ++ (after_failed_fetch fresh_host box (workload "web" [8000%Z]) false
               ([] ++ ev0 ++ ev1)).2).
Proof.
  eexists _, _, _. split; [by vm_compute|]. split; [by vm_compute|].
  eapply (deploy_clones_when_checkout_missing fresh_host box (workload "web" [8000%Z])
            false []); by vm_compute.
Defined.

(** *** Server names *)

Lemma normalize_step_NoDup l acc :
  NoDup acc →
  NoDup (fold_left (λ names name,
                      let cleaned := PyStr.strip name in
                      if PyStr.truthy cleaned && negb (bool_decide (cleaned ∈ names))
                      then names ++ [cleaned] else names) l acc).
Proof.
  revert acc. induction l as [|n l IH]; intros acc Hacc; [done|].
  cbn [fold_left]. apply IH. cbn zeta.
  destruct (PyStr.truthy _); [|done]. cbn [andb].
  case_bool_decide as Hin; [done|]. cbn [negb].
  apply NoDup_app. repeat split; [done| |apply NoDup_singleton].
  intros x Hx ->%list_elem_of_singleton. done.
Qed.

Lemma normalize_step_elem l acc x :
  x ∈ fold_left (λ names name,
                   let cleaned := PyStr.strip name in
                   if PyStr.truthy cleaned && negb (bool_decide (cleaned ∈ names))
                   then names ++ [cleaned] else names) l acc
  ↔ x ∈ acc ∨ (x ≠ "" ∧ ∃ n, n ∈ l ∧ x = PyStr.strip n).
Proof.
  revert acc. induction l as [|n l IH]; intros acc.
  - cbn [fold_left]. split; [by left|].
    intros [H|(_ & n & Hn & _)]; [done|]. by apply elem_of_nil in Hn.
  - cbn [fold_left]. rewrite IH. cbn zeta.
    destruct (PyStr.truthy (PyStr.strip n)) eqn:Ht; cbn [andb].
    + apply truthy_not_empty in Ht. case_bool_decide as Hin; cbn [negb].
      * split.
        -- intros [H|(Hx & m & Hm & ->)]; [by left|].
           right. split; [done|]. exists m. split; [by right|done].
        -- intros [H|(Hx & m & Hm & ->)]; [by left|].
           apply elem_of_cons in Hm as [->|Hm]; [by left|].
           right. split; [done|]. by exists m.
      * rewrite elem_of_app, list_elem_of_singleton. split.
        -- intros [[H| ->]|(Hx & m & Hm & ->)].
           ++ by left.
           ++ right. split; [done|]. exists n. split; [by left|done].
           ++ right. split; [done|]. exists m. split; [by right|done].
        -- intros [H|(Hx & m & Hm & ->)]; [by left; left|].
           apply elem_of_cons in Hm as [->|Hm]; [by left; right|].
           right. split; [done|]. by exists m.
    + split.
      * intros [H|(Hx & m & Hm & ->)]; [by left|].
        right. split; [done|]. exists m. split; [by right|done].
      * intros [H|(Hx & m & Hm & ->)]; [by left|].
        apply elem_of_cons in Hm as [->|Hm].
        -- destruct (PyStr.strip n); done.
        -- right. split; [done|]. by exists m.
Qed.

Lemma normalize_names_NoDup server_names : NoDup (_normalize_server_names server_names).
Proof. apply normalize_step_NoDup, NoDup_nil_2. Qed.

Lemma normalize_names_elem server_names x :
  x ∈ _normalize_server_names server_names
  ↔ x ≠ "" ∧ ∃ n, n ∈ server_names ∧ x = PyStr.strip n.
Proof.
  unfold _normalize_server_names. rewrite normalize_step_elem.
  split; [|by right]. intros [H|H]; [by apply elem_of_nil in H|done].
Qed.

(** X6: the normalised server names are exactly the non-empty stripped
    inputs, each of them once. *)
Theorem normalize_server_names_spec server_names :
  NoDup (_normalize_server_names server_names)
  ∧ ∀ x, x ∈ _normalize_server_names server_names
         ↔ x ≠ "" ∧ ∃ n, n ∈ server_names ∧ x = PyStr.strip n.
Proof.
  split; [apply normalize_names_NoDup|apply normalize_names_elem].
Qed.

Lemma normalize_step_fixed r acc :
  NoDup (acc ++ r) →
  Forall (λ x, x ≠ "" ∧ PyStr.strip x = x) r →
  fold_left (λ names name,
               let cleaned := PyStr.strip name in
               if PyStr.truthy cleaned && negb (bool_decide (cleaned ∈ names))
               then names ++ [cleaned] else names) r acc
  = acc ++ r.
Proof.
  revert acc. induction r as [|x r IH]; intros acc Hnd Hall.
  - by rewrite app_nil_r.
  - apply Forall_cons in Hall as [[Hx Hfix] Hall].
    cbn [fold_left]. cbn zeta. rewrite Hfix.
    rewrite (proj2 (truthy_not_empty x) Hx). cbn [andb].
    apply NoDup_app in Hnd as Hnd'. destruct Hnd' as (_ & Hdisj & _).
    rewrite bool_decide_eq_false_2; [|intros Hin; apply (Hdisj x Hin); by left].
    cbn [negb]. rewrite IH; [by rewrite <- app_assoc| |done].
    by rewrite <- app_assoc.
Qed.

(** X7: normalising server names a second time changes nothing. *)
Theorem normalize_server_names_idempotent server_names :
  _normalize_server_names (_normalize_server_names server_names)
  = _normalize_server_names server_names.
Proof.
  pose proof (normalize_names_NoDup server_names) as Hnd.
  pose proof (normalize_names_elem server_names) as Hmem.
  unfold _normalize_server_names at 1.
  rewrite normalize_step_fixed; [done|done|].
  apply list.Forall_forall. intros x Hx. apply Hmem in Hx as (Hne & n & _ & ->).
  split; [done|apply StripFacts.strip_idempotent].
Qed.

(** X8: when HTTPS is requested and every server name is blank, no command
    is run on the server: the only effect is one printed line. *)
Theorem enable_https_without_names W d server_names hist :
  Forall (λ n, PyStr.strip n = "") server_names →
  _enable_https W d server_names hist
  = (Ok tt, [Log ("[" +:+ ip d +:+ "] HTTPS requested but no server_names configured; "
                  +:+ "skipping certificate setup.")]).
Proof.
  intros Hblank. unfold _enable_https.
  destruct (_normalize_server_names server_names) as [|x names] eqn:Hn; [done|].
  assert (x ∈ _normalize_server_names server_names) as Hx by (rewrite Hn; by left).
  apply normalize_names_elem in Hx as (Hne & n & Hin & ->).
  rewrite list.Forall_forall in Hblank. by specialize (Hblank n Hin).
Qed.

Lemma enable_https_without_names_witness :
  _enable_https (host (λ _, (0%Z, "", "")) no_env) box ["  "; ""] []
  = (Ok tt, [Log "[10.0.0.5] HTTPS requested but no server_names configured; skipping certificate setup."]).
Proof.
  apply (enable_https_without_names (host (λ _, (0%Z, "", "")) no_env) box ["  "; ""] []).
  repeat constructor.
Defined.

(** *** Environment files *)

Lemma startswith_char a c rest :
  PyStr.startswith (String c rest) (String a "") = true → c = a.
Proof.
  unfold PyStr.startswith. cbn [String.prefix].
  by destruct (Ascii.ascii_dec a c) as [->|].
Qed.

(** X9: an environment-file path resolves to nothing exactly when it is
    blank; otherwise the result, after its optional leading dash, is the
    path itself when it is absolute and a path under the app directory
    when it is not. *)
Theorem resolve_env_file_spec raw_path app_dir :
  (PyStr.strip raw_path = "" ∧ _resolve_env_file raw_path app_dir = None)
  ∨ (PyStr.strip raw_path ≠ ""
     ∧ ∃ dash path,
         PyStr.strip raw_path = dash +:+ path
         ∧ (dash = "" ∨ dash = "-")
         ∧ (dash = "" → PyStr.startswith path "-" = false)
         ∧ _resolve_env_file raw_path app_dir
           = Some (dash +:+ (if PyStr.startswith path "/" then path
                             else app_dir +:+ "/" +:+ path))).
Proof.
  unfold _resolve_env_file, _parse_env_file_path. cbn zeta.
  destruct (PyStr.strip raw_path) as [|c rest] eqn:Hs; [by left|].
  right. split; [done|]. cbn [PyStr.truthy negb].
  destruct (PyStr.startswith (String c rest) "-") eqn:Hdash.
  - exists "-", rest. apply startswith_char in Hdash as ->.
    repeat split; [by right|done].
  - exists "", (String c rest). rewrite Hdash. repeat split; by left.
Qed.

(** X10: when the local file named by [environment_file_upload] does not
    exist, setting up the service fails with [FileNotFoundError] before
    anything is run on or sent to the server. *)
Theorem configure_systemd_missing_upload W d app app_dir hist :
  let upload := ServiceSpec.environment_file_upload (ApplicationSpec.service_config app) in
  PyStr.truthy_opt upload = true →
  read_text W (_resolve_local_path W d (default "" upload)) = None →
  _configure_systemd W d app app_dir hist
  = (Raise (FileNotFoundError
              ("Environment file not found at "
               +:+ _resolve_local_path W d (default "" upload))), []).
Proof.
  intros upload Hup Hmissing. subst upload.
  unfold _configure_systemd, _env_file_directives. cbn zeta.
  by rewrite Hup, Hmissing.
Qed.

Lemma configure_systemd_missing_upload_witness :
  _configure_systemd (host_with_file "/home/ops/prod.env" "A=1") box
    (env_workload (Some "staging.env") None []) "/opt/apps/web" []
  = (Raise (FileNotFoundError "Environment file not found at /home/ops/staging.env"), []).
Proof.
  apply (configure_systemd_missing_upload (host_with_file "/home/ops/prod.env" "A=1") box
           (env_workload (Some "staging.env") None []) "/opt/apps/web" []);
    by vm_compute.
Defined.

(** X11: with an uploaded environment file the service gets exactly one
    [EnvironmentFile=] line: the inline variables are appended to the
    uploaded content, after a line feed if the file does not end in one,
    and no second file is written for them. *)
Theorem env_upload_single_file W d app app_dir hist content target_path optional :
  let sc := ApplicationSpec.service_config app in
  PyStr.truthy_opt (ServiceSpec.environment_file_upload sc) = true →
  read_text W (_resolve_local_path W d (default "" (ServiceSpec.environment_file_upload sc)))
  = Some content →
  _parse_env_file_path
    (PyStr.or_else (ServiceSpec.environment_file sc)
       ("/etc/cloudhand/env/" +:+ ApplicationSpec.name app +:+ ".env")) app_dir
  = Some (target_path, optional) →
  _env_file_directives W d app app_dir hist
  = (_upload_env_content W d
       ((if PyStr.endswith content PyStr.nl then content else content +:+ PyStr.nl)
        +:+ PyStr.text (_env_lines_from_map (ServiceSpec.environment sc)))
       target_path ;;
     ret ("EnvironmentFile=" +:+ (if optional then "-" +:+ target_path else target_path)))
      hist.
Proof.
  intros sc Hup Hread Hparse. subst sc.
  unfold _env_file_directives. cbn zeta. rewrite Hup, Hread, Hparse.
  destruct (ServiceSpec.environment (ApplicationSpec.service_config app))
    as [|kv env] eqn:Henv.
  - cbn [_env_lines_from_map PyDict.items map PyStr.text PyStr.concat fold_right].
    rewrite AppendFacts.append_nil_r.
    rewrite !bind_assoc. destruct (PyStr.endswith content PyStr.nl); cbn [negb].
    all: rewrite !bind_unfold;
      destruct (_upload_env_content W d _ target_path hist) as [[[]|e] ev]; [|done];
      repeat (rewrite bind_ret; cbn beta iota delta [fst snd]); done.
  - unfold _env_lines_from_map at 1 2 3. cbn [PyDict.items map].
    rewrite AppendFacts.join_text.
    rewrite !bind_assoc. destruct (PyStr.endswith content PyStr.nl); cbn [negb].
    all: rewrite !bind_unfold;
      destruct (_upload_env_content W d _ target_path hist) as [[[]|e] ev]; [|done];
      repeat (rewrite bind_ret; cbn beta iota delta [fst snd]); done.
Qed.

Lemma env_upload_single_file_witness :
  _env_file_directives (host_with_file "/home/ops/prod.env" "A=1") box
    (env_workload (Some "prod.env") (Some "-shared/.env") [("B", " 2 ")])
    "/opt/apps/web" []
  = (Ok "EnvironmentFile=-/opt/apps/web/shared/.env",
     [ Log "[10.0.0.5] Running: mkdir -p /opt/apps/web/shared";
       Exec "10.0.0.5" "mkdir -p /opt/apps/web/shared" (inr (0%Z, "", ""));
       Upload "10.0.0.5" "/opt/apps/web/shared/.env" (PyStr.text ["A=1"; "B=2"]) None;
       Log "[10.0.0.5] Running: chmod 600 /opt/apps/web/shared/.env";
       Exec "10.0.0.5" "chmod 600 /opt/apps/web/shared/.env" (inr (0%Z, "", "")) ]).
Proof.
  etransitivity.
  - eapply (env_upload_single_file (host_with_file "/home/ops/prod.env" "A=1") box
              (env_workload (Some "prod.env") (Some "-shared/.env") [("B", " 2 ")])
              "/opt/apps/web" []); by vm_compute.
  - by vm_compute.
Defined.
End DeployerMore.

(** ** More about [graph_to_spec] *)

Module SpecMore.
Import Spec SpecCases SpecWords SpecFacts.

(** X12: the spec has one instance per ComputeInstance node, in node order:
    named after the node (its id when it has no name), sized by its
    [server_type] ([cx21] when missing), with the node's region and labels
    and no workload. *)
Theorem graph_to_spec_instances_in_order set_iter g provider :
  map (λ i, (InstanceSpec.name i, InstanceSpec.size i, InstanceSpec.region i,
             InstanceSpec.labels i, InstanceSpec.workloads i,
             InstanceSpec.maintenance i))
    (DesiredStateSpec.instances (graph_to_spec set_iter g provider))
  = map (λ node, (PyStr.or_else (Node.name node) (Node.id node),
                  PyStr.or_else (PyDict.get "server_type" (Node.attrs node)) "cx21",
                  Node.region node, Node.labels node, [], None))
      (filter is_instance (CloudGraph.nodes g)).
Proof.
  rewrite graph_instances, map_map. by apply map_ext.
Qed.

(** *** The networks of the spec *)

Lemma fold_left_filter {A B} (f : A → B → A) (P : B → Prop) `{∀ x, Decision (P x)} l a :
  (∀ a x, ¬ P x → f a x = a) →
  fold_left f (filter P l) a = fold_left f l a.
Proof.
  intros Hskip. revert a. induction l as [|x l IH]; intros a; [done|].
  rewrite filter_cons. destruct (decide (P x)) as [Hx|Hx]; cbn [fold_left].
  - apply IH.
  - rewrite (Hskip a x Hx). apply IH.
Qed.

Lemma add_network_skip d node : ¬ is_network node → add_network d node = d.
Proof.
  intros Hn. unfold add_network.
  destruct (decide _) as [Hv|]; [|done]. by apply node_value_network in Hv.
Qed.

Lemma add_network_take d node :
  is_network node → add_network d node = PyDict.set (Node.id node) (network_of node) d.
Proof.
  intros Hn. unfold add_network.
  destruct (decide _) as [|Hv]; [done|]. by apply node_value_network in Hn.
Qed.

Lemma add_instance_skip sn st node : ¬ is_instance node → add_instance sn st node = st.
Proof.
  intros Hn. unfold add_instance.
  destruct (decide _) as [Hv|]; [|done]. by apply node_value_instance in Hv.
Qed.

Lemma add_edge_skip networks sn e : ¬ is_in_network e → add_edge networks sn e = sn.
Proof.
  intros Hn. unfold add_edge.
  destruct (decide _) as [Hv|]; [|done]. by apply edge_value_in_network in Hv.
Qed.

(** X13: the compiler looks at Network and ComputeInstance nodes and at
    [in_network] edges only: dropping every other node and edge from the
    graph leaves the spec unchanged. *)
Theorem graph_to_spec_ignores_rest set_iter g provider :
  graph_to_spec set_iter (compiled_part g) provider = graph_to_spec set_iter g provider.
Proof.
  unfold graph_to_spec, build_networks, build_server_network, compiled_part.
  cbn [CloudGraph.nodes CloudGraph.edges].
  rewrite (fold_left_filter add_network compiled);
    [|intros a x Hx; apply add_network_skip; intros ?; apply Hx; by left].
  rewrite (fold_left_filter (add_edge _) is_in_network);
    [|intros a x Hx; by apply add_edge_skip].
  rewrite (fold_left_filter (add_instance _) compiled);
    [|intros a x Hx; apply add_instance_skip; intros ?; apply Hx; by right].
  done.
Qed.

Example mixed_graph_compiled :
  graph_to_spec (λ s, s) mixed_graph "hetzner"
  = DesiredStateSpec.mk "hetzner" (Some "nbg1")
      [NetworkSpec.mk "net-a" "10.0.0.0/24"]
      [InstanceSpec.mk "web" "cx31" "net-a" (Some "nbg1") [] [] None] [] [] [] [].
Proof. by vm_compute. Qed.

Lemma get_set_other_fold nodes d k :
  Forall (λ m, is_network m → Node.id m ≠ k) nodes →
  PyDict.get k (fold_left add_network nodes d) = PyDict.get k d.
Proof.
  revert d. induction nodes as [|m nodes IH]; intros d Hall; [done|].
  apply Forall_cons in Hall as [Hm Hall]. cbn [fold_left]. rewrite IH; [|done].
  destruct (decide (is_network m)) as [Hn|Hn].
  - rewrite add_network_take; [|done]. apply get_set_ne. intros ->. by apply Hm.
  - by rewrite add_network_skip.
Qed.

(** X14: looking up a node id among the scanned networks gives the
    [NetworkSpec] of the last Network node with that id (named after the
    node, or after its id; with its [ip_range], or 10.0.0.0/24), and
    nothing when no Network node has that id. *)
Theorem build_networks_lookup g k :
  (∀ pre node post,
     CloudGraph.nodes g = pre ++ node :: post →
     is_network node → Node.id node = k →
     Forall (λ m, is_network m → Node.id m ≠ k) post →
     PyDict.get k (build_networks g) = Some (network_of node))
  ∧ (Forall (λ m, is_network m → Node.id m ≠ k) (CloudGraph.nodes g) →
     PyDict.get k (build_networks g) = None).
Proof.
  unfold build_networks. split.
  - intros pre node post -> Hn <- Hpost.
    rewrite fold_left_app. cbn [fold_left].
    rewrite get_set_other_fold; [|done].
    rewrite add_network_take; [|done]. apply get_set_eq.
  - intros Hall. by rewrite get_set_other_fold.
Qed.

Example network_rescanned :
  PyDict.get "hetzner:network:1"
    (build_networks
       (CloudGraph.mk
          [ network_node "hetzner:network:1" (Some "old");
            network_node "hetzner:network:2" None;
            Node.mk "hetzner:network:1" NodeType.NETWORK None None None None None []
              [("ip_range", "10.1.0.0/16")] ] []))
  = Some (NetworkSpec.mk "hetzner:network:1" "10.1.0.0/16").
Proof. by vm_compute. Qed.

Lemma names_app d1 d2 : names (d1 ++ d2) = names d1 ++ names d2.
Proof. unfold names, PyDict.values. by rewrite !map_app. Qed.

Lemma add_instance_grown networks0 sn st node :
  (∀ k n, sn !! k = Some n → n ∈ names networks0) →
  grown networks0 st → grown networks0 (add_instance sn st node).
Proof.
  intros Hsn Hst. unfold add_instance.
  destruct (decide _) as [_|]; [|done]. cbn zeta.
  unfold grown. cbn [networks].
  destruct (decide (_ ∈ _)) as [|Hnot]; [done|].
  destruct (sn !! Node.id node) as [n|] eqn:Hlook; cbn [default] in *.
  { exfalso. apply Hnot. apply Hsn in Hlook.
    destruct Hst as [->| ->]; [done|].
    fold (names (networks0 ++ [synthetic_default])).
    rewrite names_app. apply elem_of_app. by left. }
  destruct Hst as [Hst|Hst].
  - unfold PyDict.setdefault. destruct (PyDict.contains _ _); [by left|].
    right. by rewrite Hst.
  - exfalso. apply Hnot. rewrite Hst.
    fold (names (networks0 ++ [synthetic_default])).
    rewrite names_app. apply elem_of_app. right. by left.
Qed.

Lemma fold_add_instance_grown networks0 sn nodes st :
  (∀ k n, sn !! k = Some n → n ∈ names networks0) →
  grown networks0 st → grown networks0 (fold_left (add_instance sn) nodes st).
Proof.
  intros Hsn. revert st. induction nodes as [|node nodes IH]; intros st Hst; [done|].
  cbn [fold_left]. by apply IH, add_instance_grown.
Qed.

(** X15: the networks of the spec are the scanned networks, in the order
    their ids first appear, followed by at most one synthesized network,
    which is [default] with CIDR 10.0.0.0/24; nothing is synthesized for a
    graph without ComputeInstance nodes. *)
Theorem graph_to_spec_networks_kept set_iter g provider :
  ∃ extra,
    DesiredStateSpec.networks (graph_to_spec set_iter g provider)
    = PyDict.values (build_networks g) ++ extra
    ∧ (extra = [] ∨ extra = [NetworkSpec.mk "default" "10.0.0.0/24"])
    ∧ (filter is_instance (CloudGraph.nodes g) = [] → extra = []).
Proof.
  unfold graph_to_spec. cbn [DesiredStateSpec.networks].
  set (networks0 := build_networks g).
  set (sn := build_server_network networks0 g).
  assert (∀ k n, sn !! k = Some n → n ∈ names networks0) as Hsn.
  { apply server_network_values. intros k n Hk. by rewrite lookup_empty in Hk. }
  destruct (decide (filter is_instance (CloudGraph.nodes g) = [])) as [Hnone|Hsome].
  - exists []. rewrite app_nil_r. split; [|by split; [left|]].
    rewrite <- (fold_left_filter (add_instance sn) is_instance);
      [|intros a x Hx; by apply add_instance_skip].
    by rewrite Hnone.
  - destruct (fold_add_instance_grown networks0 sn (CloudGraph.nodes g)
                (mk_acc networks0 [] []) Hsn (or_introl eq_refl)) as [->| ->].
    + exists []. rewrite app_nil_r. by split; [|split; [left|]].
    + exists [NetworkSpec.mk "default" "10.0.0.0/24"].
      unfold PyDict.values. rewrite map_app. by split; [|split; [right|]].
Qed.
End SpecMore.

(** ** More about [apply_plan] *)

Module ApplyMore.
Import Eff EffFacts EffLaws EffOnly Apply ApplyCases ApplyWords ApplyFacts.

(** X16: the validated spec is persisted before its provider is looked up:
    a plan for a provider without a generator fails with [ValueError], and
    by then [spec.json] has been overwritten with the new spec; nothing
    else has been done. *)
Theorem apply_plan_unknown_provider W root plan_path auto_approve terraform_bin
    project_id workspace_id hist text fields j new_spec :
  plan_text W plan_path = Some text →
  json_loads W text = Some (Json.Obj fields) →
  PyDict.get "new_spec" fields = Some j →
  Json.truthy j = true →
  model_validate W j = Some new_spec →
  DesiredStateSpec.provider new_spec ≠ "hetzner" →
  apply_plan W root plan_path auto_approve terraform_bin project_id workspace_id hist
  = (Raise (ValueError ("Unknown provider: " +:+ DesiredStateSpec.provider new_spec)),
     [ Mkdir (cloudhand_dir root);
       WriteText (TerraformGen.path_join (cloudhand_dir root) "spec.json")
         (model_dump_json W new_spec) ]).
Proof.
  intros Htext Hjson Hspec Htruthy Hvalid Hprovider.
  unfold apply_plan. rewrite Htext, Hjson. unfold json_get. rewrite bind_ret, Hspec.
  cbn [default from_option id]. rewrite Htruthy, Hvalid. cbn [negb].
  rewrite bind_emit. unfold TerraformGen.write_text. rewrite bind_emit.
  unfold TerraformGen.get_generator, TerraformGen.GENERATOR_BY_PROVIDER.
  cbn [PyDict.get TerraformGen.id TerraformGen.HetznerTerraformGenerator].
  destruct (decide _) as [|_]; [done|]. by rewrite bind_raise.
Qed.

Lemma apply_plan_unknown_provider_witness :
  run_apply (site (web_spec "aws") (Some "/usr/bin/terraform") web_outputs)
  = (Raise (ValueError "Unknown provider: aws"),
     [ Mkdir "/p/cloudhand"; WriteText "/p/cloudhand/spec.json" "{spec}" ]).
Proof.
  apply (apply_plan_unknown_provider
           (site (web_spec "aws") (Some "/usr/bin/terraform") web_outputs)
           "/p" "/p/cloudhand/plan-1.json" true "terraform" "default" "default" []
           "plan" [("new_spec", Json.Obj [("provider", Json.Str "any")])]
           (Json.Obj [("provider", Json.Str "any")]) (web_spec "aws"));
    by vm_compute.
Defined.

(** *** Preparation, provisioning, deployment *)

Lemma generate_preparing g spec out_dir project_id workspace_id provider hist ev :
  TerraformGen.get_generator provider hist = (Ok g, ev) →
  only preparing (TerraformGen.generate g spec out_dir project_id workspace_id).
Proof.
  unfold TerraformGen.get_generator, TerraformGen.GENERATOR_BY_PROVIDER. simpl.
  destruct (decide (provider = "hetzner")); [|done]. intros [= <- <-].
  cbn [TerraformGen.generate TerraformGen.HetznerTerraformGenerator].
  unfold TerraformGen.Hetzner.generate, TerraformGen.write_text.
  repeat (apply only_bind; [by apply only_emit|intros _]). by apply only_emit.
Qed.

(** A finished run of [apply_plan] is a preparation that failed, or a
    preparation followed by a run of [provision_and_deploy]. *)
Lemma apply_plan_stages W root plan_path auto_approve terraform_bin
    project_id workspace_id hist res trace :
  apply_plan W root plan_path auto_approve terraform_bin project_id workspace_id hist
  = (res, trace) →
  ∃ pre, Forall preparing pre
    ∧ (((∃ e, res = Raise e) ∧ trace = pre)
       ∨ ∃ new_spec priv_key pub_key hist' rest,
           trace = pre ++ rest
           ∧ provision_and_deploy W root auto_approve terraform_bin new_spec
               priv_key pub_key hist' = (res, rest)).
Proof.
  unfold apply_plan. intros H.
  assert (∀ (e : exn) pre, Forall preparing pre →
            ∃ pre0, Forall preparing pre0
              ∧ (((∃ e0, Raise e = @Raise Z e0) ∧ pre = pre0)
                 ∨ ∃ new_spec priv_key pub_key hist' rest,
                     pre = pre0 ++ rest
                     ∧ provision_and_deploy W root auto_approve terraform_bin new_spec
                         priv_key pub_key hist' = (Raise e, rest))) as Hfail.
  { intros e pre Hpre. exists pre. split; [done|]. left. by split; [exists e|]. }
  destruct (plan_text W plan_path) as [text|]; [|fin H; by apply Hfail].
  destruct (json_loads W text) as [plan_data|]; [|fin H; by apply Hfail].
  binv H Hm; apply json_get_inv in Hm as ->; [by apply Hfail|].
  rewrite app_nil_l.
  destruct (negb (Json.truthy _)); [fin H; by apply Hfail|].
  destruct (model_validate W _) as [new_spec|]; [|fin H; by apply Hfail].
  binv H Hm; apply emit_inv in Hm as [Hr ->]; [done|clear Hr].
  binv H Hm; apply write_text_inv in Hm as [Hr ->]; [done|clear Hr].
  binv H Hm.
  { destruct (TerraformGen.get_generator _ _) as [[g|e'] evg] eqn:Hg; [done|].
    unfold TerraformGen.get_generator in Hg.
    destruct (PyDict.get _ _); [done|]. injection Hg as <- <-. injection Hm as <- <-.
    apply Hfail. by repeat constructor. }
  pose proof (generate_preparing _ new_spec (terraform_dir root) project_id workspace_id
                _ _ _ Hm) as Hgen.
  apply generate_quiet with (spec := new_spec) (out_dir := terraform_dir root)
    (project_id := project_id) (workspace_id := workspace_id) in Hm as [-> _].
  rewrite app_nil_l. binv H Hm.
  { apply Hfail. repeat (constructor; [done|]). by eapply Hgen. }
  pose proof (Hgen _ _ _ Hm) as Hgen_ev. clear Hm.
  binv H Hm; apply emit_inv in Hm as [Hr ->]; [done|clear Hr].
  binv H Hm; apply ssh_key_inv in Hm as ->.
  { apply Hfail. repeat (constructor; [done|]).
    apply Forall_app. split; [done|]. by repeat constructor. }
  eexists ([Mkdir _; WriteText _ _] ++ _ ++ [Print _; SshKey _]).
  split.
  { repeat (constructor; [done|]). apply Forall_app. split; [exact Hgen_ev|].
    by repeat constructor. }
  right. eexists new_spec, _, _, _, _. split; [|exact H].
  cbn [app]. by rewrite <- !app_assoc.
Qed.

(** X17: when the provisioning tool is not on the PATH the run fails, and
    it has neither started a process nor touched a server: all it did was
    the local preparation. *)
Theorem apply_plan_missing_terraform W root plan_path auto_approve terraform_bin
    project_id workspace_id hist res trace :
  which W terraform_bin = None →
  apply_plan W root plan_path auto_approve terraform_bin project_id workspace_id hist
  = (res, trace) →
  (∃ e, res = Raise e) ∧ Forall preparing trace.
Proof.
  intros Hwhich Hrun.
  apply apply_plan_stages in Hrun
    as (pre & Hpre & [[He ->]|(new_spec & priv & pub & hist' & rest & -> & Hrest)]);
    [done|].
  unfold provision_and_deploy in Hrest. rewrite Hwhich in Hrest.
  apply raise_inv in Hrest as [-> ->]. rewrite app_nil_r. split; [by eexists|done].
Qed.

Lemma apply_plan_missing_terraform_witness :
  run_apply (site (web_spec "hetzner") None web_outputs)
  = (Raise (FileNotFoundError "Terraform binary 'terraform' not found in PATH"),
     (run_apply (site (web_spec "hetzner") None web_outputs)).2)
  ∧ Forall preparing (run_apply (site (web_spec "hetzner") None web_outputs)).2.
Proof.
  split; [by vm_compute|].
  apply (apply_plan_missing_terraform (site (web_spec "hetzner") None web_outputs)
           "/p" "/p/cloudhand/plan-1.json" true "terraform" "default" "default" []
           (run_apply (site (web_spec "hetzner") None web_outputs)).1);
    [reflexivity|apply surjective_pairing].
Defined.

Ltac no_server_event :=
  left; repeat (apply Forall_cons; split; [by intros []|]); by apply Forall_nil.

Lemma provision_stages W root auto_approve terraform_bin new_spec
    priv_key pub_key hist res trace :
  provision_and_deploy W root auto_approve terraform_bin new_spec priv_key pub_key hist
  = (res, trace) →
  Forall (λ e, ¬ remote e) trace
  ∨ ∃ tf_bin env out0 out1 out2 post,
      trace = provisioned root auto_approve tf_bin env out0 out1 out2 ++ post
      ∧ Forall deploying post.
Proof.
  unfold provision_and_deploy. intros H.
  destruct (which W terraform_bin) as [tf_bin|]; [|fin H; no_server_event].
  cbn zeta in H. set (env := tool_env W pub_key) in H.
  binv H Hm; apply subprocess_checked_inv in Hm as (o & -> & Ho).
  { no_server_event. }
  destruct o as [e'|[code0 out0]]; [done|].
  destruct Ho as [[-> [= ->]]|[_ [=]]].
  binv H Hm; apply subprocess_run_inv in Hm as (o & -> & Ho).
  { no_server_event. }
  destruct o as [e'|[code1 out1]]; [done|]. injection Ho as ->. cbn [fst snd] in H.
  destruct (code1 =? 0)%Z eqn:Hcode; cbn [negb] in H.
  2:{ fin H. no_server_event. }
  apply Z.eqb_eq in Hcode as ->.
  binv H Hm; apply subprocess_checked_inv in Hm as (o & -> & Ho).
  { no_server_event. }
  destruct o as [e'|[code2 out2]]; [done|].
  destruct Ho as [[-> [= ->]]|[_ [=]]].
  destruct (json_loads W _) as [outputs|].
  2:{ fin H. no_server_event. }
  right. exists tf_bin, env, out0, out1, out2. binv H Hm.
  - eexists. split; [done|]. by eapply deploy_workloads_deploying.
  - fin H. eexists. split; [by rewrite app_nil_r|]. by eapply deploy_workloads_deploying.
Qed.

Lemma preparing_not_remote pre : Forall preparing pre → Forall (λ e, ¬ remote e) pre.
Proof. intros Hpre. eapply Forall_impl; [exact Hpre|]. intros []; cbn; tauto. Qed.

(** X18: nothing is done on any server unless the provisioning tool has
    run [init], [apply] and [output -json] in the Terraform directory,
    each with exit code 0: a run with a server event is a local
    preparation, those three runs, and then the deployment. *)
Theorem apply_plan_deploys_after_provisioning W root plan_path auto_approve terraform_bin
    project_id workspace_id hist res trace s :
  apply_plan W root plan_path auto_approve terraform_bin project_id workspace_id hist
  = (res, trace) →
  Deploy s ∈ trace →
  ∃ pre tf_bin env out0 out1 out2 post,
    trace = pre ++ provisioned root auto_approve tf_bin env out0 out1 out2 ++ post
    ∧ Forall preparing pre ∧ Forall deploying post.
Proof.
  intros Hrun Hin.
  apply apply_plan_stages in Hrun
    as (pre & Hpre & [[He ->]|(new_spec & priv & pub & hist' & rest & -> & Hrest)]).
  { apply preparing_not_remote in Hpre. rewrite list.Forall_forall in Hpre.
    by destruct (Hpre _ Hin). }
  apply provision_stages in Hrest
    as [Hnone|(tf_bin & env & out0 & out1 & out2 & post & -> & Hpost)].
  - apply elem_of_app in Hin as [Hin|Hin].
    + apply preparing_not_remote in Hpre. rewrite list.Forall_forall in Hpre.
      by destruct (Hpre _ Hin).
    + rewrite list.Forall_forall in Hnone. by destruct (Hnone _ Hin).
  - by exists pre, tf_bin, env, out0, out1, out2, post.
Qed.

Lemma apply_plan_deploys_after_provisioning_witness :
  ∃ pre tf_bin env out0 out1 out2 post,
    (run_apply (site (web_spec "hetzner") (Some "/usr/bin/terraform") web_outputs)).2
    = pre ++ provisioned "/p" true tf_bin env out0 out1 out2 ++ post
    ∧ Forall preparing pre ∧ Forall deploying post.
Proof.
  apply (apply_plan_deploys_after_provisioning
           (site (web_spec "hetzner") (Some "/usr/bin/terraform") web_outputs)
           "/p" "/p/cloudhand/plan-1.json" true "terraform" "default" "default" []
           (run_apply (site (web_spec "hetzner") (Some "/usr/bin/terraform") web_outputs)).1
           _ (Log "[10.0.0.5] Running: test -d /opt/apps/web"));
    [apply surjective_pairing|].
  vm_compute. repeat (apply elem_of_cons; first [by left | right]).
Defined.

(** X19: an instance is skipped without a trace, and without any
    connection attempt, when the tool's outputs hold no address for it
    (none, or an empty one) or when it has no workload. *)
Theorem deploy_instance_skips W nginx_mode priv_key root ips inst hist :
  PyDict.get (InstanceSpec.name inst) ips = None
  ∨ PyDict.get (InstanceSpec.name inst) ips = Some Json.Null
  ∨ PyDict.get (InstanceSpec.name inst) ips = Some (Json.Str "")
  ∨ InstanceSpec.workloads inst = [] →
  deploy_instance W nginx_mode priv_key root (Json.Obj ips) inst hist = (Ok tt, []).
Proof.
  intros Hskip. unfold deploy_instance, json_get. rewrite bind_ret.
  destruct Hskip as [->|[->|[->|Hnone]]]; [done|by destruct (InstanceSpec.workloads inst)
                                           |by destruct (InstanceSpec.workloads inst)|].
  rewrite Hnone. by destruct (PyDict.get _ ips) as [[]|].
Qed.

Lemma deploy_instance_skips_witness :
  deploy_instance (site (web_spec "hetzner") None web_outputs) "per-app" "PRIVATE" "/p"
    (Json.Obj [("db-1", Json.Str "10.0.0.6")])
    (InstanceSpec.mk "web-1" "cx21" "app-net" None []
       [DeployerCases.workload "web" [8000%Z]] None) []
  = (Ok tt, []).
Proof.
  apply (deploy_instance_skips (site (web_spec "hetzner") None web_outputs)).
  left. reflexivity.
Defined.
End ApplyMore.

(** ** Scan, sync and generation *)

Module CoreFacts.
Import Eff EffFacts EffLaws EffOnly Core CoreWords ApplyFacts.

Lemma get_adapter_inv provider hist r ev :
  get_adapter provider hist = (r, ev) →
  ev = [] ∧ ((provider = "hetzner" ∧ r = Ok HetznerAdapter)
             ∨ (provider ≠ "hetzner" ∧ ∃ e, r = Raise e)).
Proof.
  unfold get_adapter, ADAPTERS. cbn [PyDict.get id HetznerAdapter].
  destruct (decide (provider = "hetzner")) as [Hp|Hp]; intros [= <- <-].
  - split; [done|]. by left.
  - split; [done|]. right. split; [done|]. by eexists.
Qed.

Lemma adapter_scan_inv W adapter provider_config hist r ev :
  adapter_scan W adapter provider_config hist = (r, ev) →
  ev = [] ∧ r = match scan W hist provider_config with
                | inl e => Raise e
                | inr graph => Ok graph
                end.
Proof. unfold adapter_scan. by intros [= <- <-]. Qed.

(** X20: a scan writes [scan.json] only when it has a graph to write: with
    an unknown provider or a failing scan it raises after its first printed
    line and touches no file; otherwise the provider is the known one and
    the file holds the dump of the very graph it returns. *)
Theorem run_scan_outcome W root provider provider_config hist r ev :
  run_scan W root provider provider_config hist = (r, ev) →
  (∃ e, r = Raise e ∧ ev = [scanning provider])
  ∨ (∃ graph, r = Ok graph
       ∧ provider = "hetzner"
       ∧ scan W (hist ++ [scanning provider]) provider_config = inr graph
       ∧ ev = scanning provider :: scanned W root graph).
Proof.
  unfold run_scan. intros H.
  binv H Hm; apply emit_inv in Hm as [Hr ->]; [done|clear Hr].
  fold (scanning provider) in H |- *.
  binv H Hm; apply get_adapter_inv in Hm as [-> Hm].
  { left. by eexists. }
  destruct Hm as [[Hp [= ->]]|[_ [? [=]]]].
  rewrite app_nil_l, app_nil_r in *.
  binv H Hm; apply adapter_scan_inv in Hm as [-> Hm].
  { left. by eexists. }
  rewrite app_nil_l, app_nil_r in *.
  destruct (scan W (hist ++ [scanning provider]) provider_config) as [e|graph];
    [done|]. injection Hm as ->.
  binv H Hm; apply emit_inv in Hm as [Hr ->]; [done|clear Hr].
  binv H Hm; apply emit_inv in Hm as [Hr ->]; [done|clear Hr].
  binv H Hm; apply write_text_inv in Hm as [Hr ->]; [done|clear Hr].
  binv H Hm; apply emit_inv in Hm as [Hr ->]; [done|clear Hr].
  fin H. right. by exists graph.
Qed.

(** X21: [sync_spec] is all or nothing: a missing, unreadable, unparsable
    or invalid [scan.json] raises with no directory made and no file
    written; otherwise the result is the compiled graph of the file, and
    exactly that spec is written to [spec.json]. *)
Theorem sync_spec_all_or_nothing W root provider hist r ev :
  sync_spec W root provider hist = (r, ev) →
  (∃ e, r = Raise e ∧ ev = [])
  ∨ (∃ text data graph,
       read_text W hist (scan_path root) = inr text
       ∧ json_loads W text = Some data
       ∧ GraphCodec.model_validate data = Some graph
       ∧ r = Ok (Spec.graph_to_spec (set_iter W) graph provider)
       ∧ ev = synced W root (Spec.graph_to_spec (set_iter W) graph provider)).
Proof.
  unfold sync_spec. fold (scan_path root).
  destruct (exists_ W hist (scan_path root)); cbn [negb].
  2:{ intros [= <- <-]. left. eexists. split; reflexivity. }
  rewrite bind_unfold. unfold load_json at 1. cbn beta.
  destruct (read_text W hist (scan_path root)) as [e|text] eqn:Hread.
  { intros [= <- <-]. left. eexists. split; reflexivity. }
  destruct (json_loads W text) as [data|] eqn:Hjson.
  2:{ intros [= <- <-]. left. eexists. split; reflexivity. }
  destruct (GraphCodec.model_validate data) as [graph|] eqn:Hvalid.
  2:{ intros [= <- <-]. left. eexists. split; reflexivity. }
  rewrite bind_emit. unfold TerraformGen.write_text. rewrite bind_emit.
  cbn [fst snd ret app]. intros [= <- <-]. right. by exists text, data, graph.
Qed.

Lemma bind_then {E A B} (m : M E A) (k : A → M E B) hist a ev1 r ev2 :
  m hist = (Ok a, ev1) → k a (hist ++ ev1) = (r, ev2) →
  (m ≫= k) hist = (r, ev1 ++ ev2).
Proof. intros Hm Hk. by rewrite bind_unfold, Hm, Hk. Qed.

Lemma run_scan_found W root provider_config hist graph :
  scan W (hist ++ [scanning "hetzner"]) provider_config = inr graph →
  run_scan W root "hetzner" provider_config hist
  = (Ok graph, scanning "hetzner" :: scanned W root graph).
Proof.
  intros Hscan. unfold run_scan.
  eapply (bind_then _ _ _ tt [scanning "hetzner"]); [done|].
  eapply (bind_then _ _ _ HetznerAdapter []); [done|]. rewrite app_nil_r.
  eapply (bind_then _ _ _ graph []); [unfold adapter_scan; by rewrite Hscan|].
  repeat (eapply bind_then; [done|]). done.
Qed.

Lemma sync_spec_found W root provider hist text data graph :
  exists_ W hist (scan_path root) = true →
  read_text W hist (scan_path root) = inr text →
  json_loads W text = Some data →
  GraphCodec.model_validate data = Some graph →
  sync_spec W root provider hist
  = (Ok (Spec.graph_to_spec (set_iter W) graph provider),
     synced W root (Spec.graph_to_spec (set_iter W) graph provider)).
Proof.
  intros Hexists Hread Hjson Hvalid. unfold sync_spec. fold (scan_path root).
  rewrite Hexists. cbn [negb].
  eapply (bind_then _ _ _ data []); [unfold load_json; by rewrite Hread, Hjson|].
  rewrite Hvalid. repeat (eapply bind_then; [done|]). done.
Qed.

(** X22: a sync that follows a scan compiles the scanned graph: when the
    file system gives back the [scan.json] just written and the JSON
    library reads back the document it printed, the spec returned, and
    written to [spec.json], is [graph_to_spec] of the graph the scan
    found. *)
Theorem scan_then_sync W root provider_config hist graph :
  let after := hist ++ scanning "hetzner" :: scanned W root graph in
  scan W (hist ++ [scanning "hetzner"]) provider_config = inr graph →
  exists_ W after (scan_path root) = true →
  read_text W after (scan_path root) = inr (graph_dump_json W graph) →
  json_loads W (graph_dump_json W graph) = Some (GraphCodec.model_dump graph) →
  (run_scan W root "hetzner" provider_config ;; sync_spec W root "hetzner") hist
  = (Ok (Spec.graph_to_spec (set_iter W) graph "hetzner"),
     (scanning "hetzner" :: scanned W root graph)
     ++ synced W root (Spec.graph_to_spec (set_iter W) graph "hetzner")).
Proof.
  intros after Hscan Hexists Hread Hjson. subst after.
  eapply bind_then; [by apply run_scan_found|].
  eapply sync_spec_found; [done|done|done|].
  apply GraphCodecFacts.model_validate_dump.
Qed.

Lemma scan_then_sync_witness :
  (run_scan (disk (inr SpecCases.two_networks) (GraphCodec.model_dump SpecCases.two_networks))
     "/p" "hetzner" [("token", Json.Str "t0ken")] ;;
   sync_spec (disk (inr SpecCases.two_networks) (GraphCodec.model_dump SpecCases.two_networks))
     "/p" "hetzner") []
  = (Ok (DesiredStateSpec.mk "hetzner" (Some "nbg1")
           [NetworkSpec.mk "net-a" "10.0.0.0/24"; NetworkSpec.mk "net-b" "10.0.0.0/24"]
           [InstanceSpec.mk "web" "cx31" "net-b" (Some "nbg1") [] [] None] [] [] [] []),
     [ Print "Scanning infrastructure for provider: hetzner...";
       Print "Scan complete. Found 3 resources.";
       Mkdir "/p/cloudhand";
       WriteText "/p/cloudhand/scan.json" "<doc>";
       Print "Written scan results to /p/cloudhand/scan.json";
       Mkdir "/p/cloudhand";
       WriteText "/p/cloudhand/spec.json" "<spec>" ]).
Proof.
  etransitivity.
  - apply (scan_then_sync
             (disk (inr SpecCases.two_networks) (GraphCodec.model_dump SpecCases.two_networks))
             "/p" [("token", Json.Str "t0ken")] [] SpecCases.two_networks);
      by vm_compute.
  - by vm_compute.
Defined.

Lemma run_scan_outcome_witness :
  (∃ e, @Raise CloudGraph.t (ValueError "Unknown provider: aws") = Raise e
        ∧ [scanning "aws"] = [scanning "aws"])
  ∨ (∃ graph, Raise (ValueError "Unknown provider: aws") = Ok graph
       ∧ "aws" = "hetzner"
       ∧ scan (disk (inr SpecCases.two_networks) Json.Null) ([] ++ [scanning "aws"]) []
         = inr graph
       ∧ [scanning "aws"]
         = scanning "aws" :: scanned (disk (inr SpecCases.two_networks) Json.Null) "/p" graph).
Proof.
  apply (run_scan_outcome (disk (inr SpecCases.two_networks) Json.Null) "/p" "aws" [] []).
  by vm_compute.
Defined.

Lemma sync_spec_all_or_nothing_witness :
  (∃ e, @Raise DesiredStateSpec.t
          (FileNotFoundError "scan.json not found at /p/cloudhand/scan.json. Run 'ch scan' first.")
        = Raise e ∧ @nil event = [])
  ∨ (∃ text data graph,
       read_text (disk (inr SpecCases.two_networks) Json.Null) [] (scan_path "/p") = inr text
       ∧ json_loads (disk (inr SpecCases.two_networks) Json.Null) text = Some data
       ∧ GraphCodec.model_validate data = Some graph
       ∧ Raise (FileNotFoundError
                  "scan.json not found at /p/cloudhand/scan.json. Run 'ch scan' first.")
         = Ok (Spec.graph_to_spec (set_iter (disk (inr SpecCases.two_networks) Json.Null))
                 graph "hetzner")
       ∧ [] = synced (disk (inr SpecCases.two_networks) Json.Null) "/p"
                (Spec.graph_to_spec (set_iter (disk (inr SpecCases.two_networks) Json.Null))
                   graph "hetzner")).
Proof.
  apply (sync_spec_all_or_nothing (disk (inr SpecCases.two_networks) Json.Null)
           "/p" "hetzner" []).
  by vm_compute.
Defined.

(** X23: generating Terraform writes the six files of the Hetzner layout
    into [cloudhand/terraform] under the root, in a fixed order, whatever
    the spec holds; for any other provider it raises [ValueError] and
    writes nothing. *)
Theorem generate_terraform_files root spec project_id workspace_id hist :
  let tf_dir := Apply.terraform_dir root in
  (DesiredStateSpec.provider spec = "hetzner"
   ∧ (generate_terraform root spec project_id workspace_id hist).1 = Ok tf_dir
   ∧ written (generate_terraform root spec project_id workspace_id hist).2
     = map (TerraformGen.path_join tf_dir)
         ["backend.tf"; "providers.tf"; "variables.tf"; "network.tf"; "servers.tf";
          "outputs.tf"])
  ∨ (DesiredStateSpec.provider spec ≠ "hetzner"
     ∧ generate_terraform root spec project_id workspace_id hist
       = (Raise (ValueError ("Unknown provider: " +:+ DesiredStateSpec.provider spec)), [])).
Proof.
  intros tf_dir.
  destruct (decide (DesiredStateSpec.provider spec = "hetzner")) as [Hp|Hp].
  - left. split; [done|].
    assert (∃ contents,
              generate_terraform root spec project_id workspace_id hist
              = (Ok tf_dir,
                 Mkdir tf_dir
                 :: map (λ nc, WriteText (TerraformGen.path_join tf_dir nc.1) nc.2)
                      (zip ["backend.tf"; "providers.tf"; "variables.tf"; "network.tf";
                            "servers.tf"; "outputs.tf"] contents))
              ∧ length contents = 6) as (contents & -> & Hlen).
    { unfold generate_terraform. rewrite Hp.
      eexists [_; _; _; _; _; _]. split; [|done].
      eapply (bind_then _ _ _ TerraformGen.HetznerTerraformGenerator []); [done|].
      cbn [TerraformGen.generate TerraformGen.HetznerTerraformGenerator].
      unfold TerraformGen.Hetzner.generate, TerraformGen.write_text.
      rewrite !bind_assoc.
      repeat (eapply bind_then; [done|]). done. }
    split; [done|].
    destruct contents as [|c1 [|c2 [|c3 [|c4 [|c5 [|c6 [|]]]]]]]; try done.
  - right. split; [done|]. unfold generate_terraform.
    unfold TerraformGen.get_generator, TerraformGen.GENERATOR_BY_PROVIDER.
    cbn [PyDict.get TerraformGen.id TerraformGen.HetznerTerraformGenerator].
    destruct (decide _) as [|_]; [done|]. by rewrite bind_raise.
Qed.
End CoreFacts.

(** ** Project layout and configuration *)

Module ConfigFacts.
Import Eff EffFacts EffLaws EffOnly Core CoreWords ConfigWords ApplyFacts.
Import StripFacts AppendFacts LineFacts.

Lemma write_if_missing_inv W dir name content hist r ev :
  write_if_missing W dir name content hist = (r, ev) →
  r = Ok tt
  ∧ ((exists_ W hist (TerraformGen.path_join dir name) = true ∧ ev = [])
     ∨ (exists_ W hist (TerraformGen.path_join dir name) = false
        ∧ ev = [WriteText (TerraformGen.path_join dir name) content])).
Proof.
  unfold write_if_missing.
  destruct (exists_ W hist _); cbn [negb]; intros [= <- <-]; split; auto.
Qed.

(** X24: [init_project] always succeeds, makes its three directories, and
    never overwrites: the only files it may write are [.gitignore] and
    [ch.yaml] (the latter with the given provider and project), and it
    writes one only if it did not exist just before. *)
Theorem init_project_never_overwrites W provider project root hist r ev :
  init_project W provider project root hist = (r, ev) →
  r = Ok tt
  ∧ (∃ files, ev = layout (project_root W root) ++ files
       ∧ ∀ path content, WriteText path content ∈ ev →
           ((path, content) = (TerraformGen.path_join (project_root W root) ".gitignore",
                               GITIGNORE)
            ∨ (path, content) = (TerraformGen.path_join (project_root W root) "ch.yaml",
                                 ch_yaml provider project))
           ∧ ∃ pre post, ev = pre ++ WriteText path content :: post
                         ∧ exists_ W (hist ++ pre) path = false).
Proof.
  unfold init_project. cbn zeta. set (base := project_root W root).
  cbn [for_each]. intros H. rewrite !bind_assoc in H.
  binv H Hm; apply emit_inv in Hm as [Hr ->]; [done|clear Hr].
  rewrite bind_assoc in H.
  binv H Hm; apply emit_inv in Hm as [Hr ->]; [done|clear Hr].
  rewrite bind_assoc in H.
  binv H Hm; apply emit_inv in Hm as [Hr ->]; [done|clear Hr].
  rewrite bind_ret in H.
  binv H Hm; apply write_if_missing_inv in Hm as [Hr Hgi]; [done|clear Hr].
  apply write_if_missing_inv in H as [-> Hcy]. split; [done|].
  rewrite <- !app_assoc in *. cbn [app] in *.
  fold (layout base).
  change ([Mkdir (Apply.terraform_dir base);
           Mkdir (TerraformGen.path_join (diagrams_dir base) "history");
           Mkdir (Apply.cloudhand_dir base)]) with (layout base) in *.
  destruct Hgi as [[Hgi ->]|[Hgi ->]], Hcy as [[Hcy ->]|[Hcy ->]].
  - exists []. split; [done|]. intros path content Hin. rewrite app_nil_r in Hin.
    repeat (apply elem_of_cons in Hin as [[=]|Hin]). by apply elem_of_nil in Hin.
  - eexists. split; [done|]. intros path content Hin.
    repeat (apply elem_of_cons in Hin as [Hin|Hin]; [simplify_eq|]);
      [|by apply elem_of_nil in Hin].
    split; [by right|]. exists (layout base), []. split; [done|]. exact Hcy.
  - eexists. split; [done|]. intros path content Hin.
    repeat (apply elem_of_cons in Hin as [Hin|Hin]; [simplify_eq|]);
      [|by apply elem_of_nil in Hin].
    split; [by left|]. exists (layout base), []. split; [done|]. done.
  - eexists. split; [done|]. intros path content Hin.
    repeat (apply elem_of_cons in Hin as [Hin|Hin]; [simplify_eq|]);
      [| |by apply elem_of_nil in Hin].
    + split; [by left|].
      by exists (layout base),
           [WriteText (TerraformGen.path_join base "ch.yaml") (ch_yaml provider project)].
    + split; [by right|].
      exists (layout base ++ [WriteText (TerraformGen.path_join base ".gitignore") GITIGNORE]),
        [].
      split; [done|]. exact Hcy.
Qed.

Lemma init_project_never_overwrites_witness :
  init_project (desk [("/p/ch.yaml", "provider: aws")]) "hetzner" "shop" None []
  = (Ok tt, layout "/p" ++ [WriteText "/p/.gitignore" GITIGNORE])
  ∧ ∃ files,
      layout "/p" ++ [WriteText "/p/.gitignore" GITIGNORE] = layout "/p" ++ files
      ∧ ∀ path content,
          WriteText path content ∈ layout "/p" ++ [WriteText "/p/.gitignore" GITIGNORE] →
          ((path, content) = ("/p/.gitignore", GITIGNORE)
           ∨ (path, content) = ("/p/ch.yaml", ch_yaml "hetzner" "shop"))
          ∧ ∃ pre post,
              layout "/p" ++ [WriteText "/p/.gitignore" GITIGNORE]
              = pre ++ WriteText path content :: post
              ∧ exists_ (desk [("/p/ch.yaml", "provider: aws")]) ([] ++ pre) path = false.
Proof.
  split; [by vm_compute|].
  apply (init_project_never_overwrites (desk [("/p/ch.yaml", "provider: aws")])
           "hetzner" "shop" None [] (Ok tt)).
  by vm_compute.
Defined.

(** *** Reading [ch.yaml] back *)

Lemma provider_line provider cfg :
  config_line cfg ("provider: " +:+ provider)
  = Ok (PyDict.set "provider" (PyStr.strip provider) cfg).
Proof.
  unfold config_line. cbn zeta.
  assert (PyStr.strip ("provider: " +:+ provider)
          = "provider" +:+ ":" +:+ PyStr.rstrip (String " " provider)) as ->.
  { unfold PyStr.strip. repeat rewrite ReplaceFacts.app_cons.
    change ("" +:+ provider) with provider.
    rewrite lstrip_fixed; [|done].
    by repeat (rewrite rstrip_nonspace; [|reflexivity]). }
  remember (PyStr.rstrip (String " " provider)) as t eqn:Ht.
  replace (PyStr.truthy _) with true by reflexivity.
  replace (PyStr.startswith _ "#") with false by reflexivity.
  rewrite SplitFacts.contains_app. cbn [negb orb].
  change (":" +:+ t) with (String ":" t).
  rewrite SplitFacts.split_once_char; [|cbn; intros H; by repeat destruct H as [[=]|H]].
  replace (PyStr.strip "provider") with "provider" by reflexivity.
  subst t. rewrite strip_rstrip, strip_space; [|done]. done.
Qed.

Lemma project_line project cfg :
  config_line cfg ("project: " +:+ project)
  = Ok (PyDict.set "project" (PyStr.strip project) cfg).
Proof.
  unfold config_line. cbn zeta.
  assert (PyStr.strip ("project: " +:+ project)
          = "project" +:+ ":" +:+ PyStr.rstrip (String " " project)) as ->.
  { unfold PyStr.strip. repeat rewrite ReplaceFacts.app_cons.
    change ("" +:+ project) with project.
    rewrite lstrip_fixed; [|done].
    by repeat (rewrite rstrip_nonspace; [|reflexivity]). }
  remember (PyStr.rstrip (String " " project)) as t eqn:Ht.
  replace (PyStr.truthy _) with true by reflexivity.
  replace (PyStr.startswith _ "#") with false by reflexivity.
  rewrite SplitFacts.contains_app. cbn [negb orb].
  change (":" +:+ t) with (String ":" t).
  rewrite SplitFacts.split_once_char; [|cbn; intros H; by repeat destruct H as [[=]|H]].
  replace (PyStr.strip "project") with "project" by reflexivity.
  subst t. rewrite strip_rstrip, strip_space; [|done]. done.
Qed.

Lemma one_line_app a b : one_line a → one_line b → one_line (a +:+ b).
Proof. unfold one_line. rewrite chars_app. intros Ha Hb. by apply Forall_app. Qed.

Lemma ch_yaml_lines provider project :
  one_line provider → one_line project →
  PyLines.splitlines (ch_yaml provider project)
  = ["provider: " +:+ provider; "project: " +:+ project].
Proof.
  intros Hp Hq. unfold PyLines.splitlines, ch_yaml.
  replace (project +:+ PyStr.nl) with (project +:+ PyStr.nl +:+ "")
    by (by rewrite append_nil_r).
  rewrite <- (append_assoc "provider: " provider).
  rewrite <- (append_assoc "project: " project).
  rewrite splitlines_from_line; [|apply one_line_app; [by repeat constructor|done]].
  rewrite splitlines_from_line; [|apply one_line_app; [by repeat constructor|done]].
  done.
Qed.

(** X25: [load_config] reads back the [ch.yaml] that [init_project]
    writes: for a provider and a project name on one line each, it returns
    exactly the two of them, without their outer blanks. *)
Theorem load_config_reads_ch_yaml W path hist provider project :
  one_line provider → one_line project →
  exists_ W hist path = true →
  read_text W hist path = inr (ch_yaml provider project) →
  load_config W path hist
  = (Ok [("provider", PyStr.strip provider); ("project", PyStr.strip project)], []).
Proof.
  intros Hp Hq Hexists Hread. unfold load_config.
  rewrite Hexists, Hread. cbn [negb].
  rewrite ch_yaml_lines; [|done|done].
  cbn [config_lines]. by rewrite provider_line, project_line.
Qed.

Lemma load_config_reads_ch_yaml_witness :
  load_config (desk [("/p/ch.yaml", ch_yaml " hetzner" "my shop ")]) "/p/ch.yaml" []
  = (Ok [("provider", "hetzner"); ("project", "my shop")], []).
Proof.
  apply (load_config_reads_ch_yaml (desk [("/p/ch.yaml", ch_yaml " hetzner" "my shop ")])
           "/p/ch.yaml" [] " hetzner" "my shop ");
    [by repeat constructor|by repeat constructor|by vm_compute|by vm_compute].
Defined.

Example init_then_load_config :
  (init_project (desk []) "hetzner" "shop" None ;; load_config (desk []) "/p/ch.yaml") []
  = (Ok [("provider", "hetzner"); ("project", "shop")],
     layout "/p" ++ [WriteText "/p/.gitignore" GITIGNORE;
                     WriteText "/p/ch.yaml" (ch_yaml "hetzner" "shop")]).
Proof. by vm_compute. Qed.

Example config_comments_and_colons :
  config_lines []
    (PyLines.splitlines
       (PyStr.text ["# cloudhand"; ""; "provider : hetzner"; "endpoint: https://api:8443";
                    "no separator"; "provider: aws"]))
  = Ok [("provider", "aws"); ("endpoint", "https://api:8443")].
Proof. by vm_compute. Qed.

Lemma split_once_contains sep s :
  PyStr.contains sep s = true → is_Some (PyLines.split_once sep s).
Proof.
  induction s as [|c s IH].
  - cbn [PyStr.contains PyLines.split_once]. destruct (String.prefix sep ""); by eauto.
  - rewrite ReplaceFacts.contains_cons, SplitFacts.split_once_cons.
    destruct (String.prefix sep (String c s)); [by eauto|]. cbn [orb].
    intros [[a b] ->]%IH. by eauto.
Qed.

Lemma config_lines_total lines cfg : ∃ cfg', config_lines cfg lines = Ok cfg'.
Proof.
  revert cfg. induction lines as [|line lines IH]; intros cfg; [by eexists|].
  cbn [config_lines]. unfold config_line. cbn zeta.
  destruct (negb (PyStr.truthy _) || PyStr.startswith _ "#"); cbn [orb]; [apply IH|].
  destruct (PyStr.contains ":" (PyStr.strip line)) eqn:Hc; cbn [negb]; [|apply IH].
  apply split_once_contains in Hc as [[key value] ->]. apply IH.
Qed.

(** X26: a configuration file never fails to parse: [load_config] writes
    nothing, and the only error it can raise is the one of reading the
    file; a line without a colon is skipped, so that splitting a line in
    two cannot fail. A missing file gives the empty configuration. *)
Theorem load_config_total W path hist :
  (load_config W path hist).2 = []
  ∧ (exists_ W hist path = false → (load_config W path hist).1 = Ok [])
  ∧ ((∃ cfg, (load_config W path hist).1 = Ok cfg)
     ∨ (∃ e, read_text W hist path = inl e ∧ (load_config W path hist).1 = Raise e)).
Proof.
  unfold load_config. destruct (exists_ W hist path); cbn [negb].
  2:{ split; [done|]. split; [done|]. left. by eexists. }
  destruct (read_text W hist path) as [e|content].
  - split; [done|]. split; [done|]. right. by exists e.
  - split; [done|]. split; [done|]. left. apply config_lines_total.
Qed.

(** *** Provider credentials *)

Lemma secrets_token_quiet W provider secrets_path hist r ev :
  secrets_token W provider secrets_path hist = (r, ev) →
  ev = [] ∧ ∀ t, r = Ok (Some t) → Json.truthy t = true.
Proof.
  unfold secrets_token. intros H.
  binv H Hm.
  { unfold load_json in Hm. destruct (read_text _ _ _); [by simplify_eq|].
    destruct (json_loads _ _); by simplify_eq. }
  assert (ev0 = []) as ->.
  { unfold load_json in Hm. destruct (read_text _ _ _); [by simplify_eq|].
    destruct (json_loads _ _); by simplify_eq. }
  clear Hm. binv H Hm; apply json_get_inv in Hm as ->; [done|].
  binv H Hm; apply json_get_inv in Hm as ->; [done|].
  binv H Hm; apply json_get_inv in Hm as ->; [done|].
  fin H. split; [done|]. intros t [= Ht].
  destruct a2 as [t'|]; [|done]. destruct (Json.truthy t') eqn:Htruthy; by simplify_eq.
Qed.

(** X27: loading the provider configuration never fails and writes
    nothing, whatever the secrets file holds: an unreadable, malformed or
    oddly shaped [secrets.json] is the same as none. The configuration is
    empty or holds exactly one truthy [token]. *)
Theorem load_provider_config_never_fails W provider root hist :
  ∃ cfg, load_provider_config W provider root hist = (Ok cfg, [])
         ∧ (cfg = [] ∨ ∃ token, cfg = [("token", token)] ∧ Json.truthy token = true).
Proof.
  unfold load_provider_config. cbn zeta.
  set (secrets_path := TerraformGen.path_join _ "secrets.json").
  assert (∃ found,
            (λ hist, if exists_ W hist secrets_path
                     then try_except (secrets_token W provider secrets_path) (ret None) hist
                     else ret None hist) hist = (Ok found, [])
            ∧ ∀ t, found = Some t → Json.truthy t = true) as (found & Hfound & Htruthy).
  { cbn beta. destruct (exists_ W hist secrets_path); [|by exists None].
    unfold try_except.
    destruct (secrets_token W provider secrets_path hist) as [[o|e] ev] eqn:Hs;
      apply secrets_token_quiet in Hs as [-> Ht].
    - exists o. split; [done|]. intros t ->. by apply Ht.
    - by exists None. }
  rewrite (bind_pure _ _ _ found Hfound).
  destruct found as [token|].
  - eexists. split; [done|]. right. exists token. split; [done|]. by apply Htruthy.
  - destruct (decide (provider = "hetzner")); [|by exists []; split; [|left]].
    destruct (getenv W "HCLOUD_TOKEN") as [token|]; [|by exists []; split; [|left]].
    destruct (PyStr.truthy token) eqn:Ht; [|by exists []; split; [|left]].
    eexists. split; [done|]. right. by eexists.
Qed.

(** X28: a truthy token for the provider in [secrets.json] wins over the
    environment: it is returned as it is, and [HCLOUD_TOKEN] is not looked
    at. *)
Theorem load_provider_config_prefers_secrets W provider root hist text fields
    providers provider_cfg token :
  let secrets_path :=
    TerraformGen.path_join (Apply.cloudhand_dir (project_root W root)) "secrets.json" in
  exists_ W hist secrets_path = true →
  read_text W hist secrets_path = inr text →
  json_loads W text = Some (Json.Obj fields) →
  PyDict.get "providers" fields = Some (Json.Obj providers) →
  PyDict.get provider providers = Some (Json.Obj provider_cfg) →
  PyDict.get "token" provider_cfg = Some token →
  Json.truthy token = true →
  load_provider_config W provider root hist = (Ok [("token", token)], []).
Proof.
  intros secrets_path Hexists Hread Hjson Hproviders Hprovider Htoken Htruthy.
  unfold load_provider_config. cbn zeta. fold secrets_path.
  eapply (CoreFacts.bind_then _ _ _ (Some token) []); [|done].
  cbn beta. rewrite Hexists. apply try_except_Ok. unfold secrets_token.
  eapply (CoreFacts.bind_then _ _ _ (Json.Obj fields) []);
    [unfold load_json; by rewrite Hread, Hjson|].
  unfold Apply.json_get. rewrite bind_ret, Hproviders.
  assert (providers ≠ []) as Hne1 by (intros ->; done).
  assert (provider_cfg ≠ []) as Hne2 by (intros ->; done).
  unfold or_empty. cbn [Json.truthy].
  destruct providers as [|p ps]; [done|]. rewrite bind_ret, Hprovider.
  cbn [Json.truthy]. destruct provider_cfg as [|q qs]; [done|].
  rewrite bind_ret, Htoken, Htruthy. done.
Qed.

Lemma load_provider_config_prefers_secrets_witness :
  load_provider_config (vault "env-token" (Some (hetzner_secret (Json.Str "file-token"))))
    "hetzner" None []
  = (Ok [("token", Json.Str "file-token")], []).
Proof.
  apply (load_provider_config_prefers_secrets
           (vault "env-token" (Some (hetzner_secret (Json.Str "file-token"))))
           "hetzner" None [] "<secrets>"
           [("providers", Json.Obj [("hetzner", Json.Obj [("token", Json.Str "file-token")])])]
           [("hetzner", Json.Obj [("token", Json.Str "file-token")])]
           [("token", Json.Str "file-token")]);
    by vm_compute.
Defined.

Example broken_secrets_fall_back :
  load_provider_config (vault "env-token" None) "hetzner" None []
  = (Ok [("token", Json.Str "env-token")], [])
  ∧ load_provider_config (vault "env-token" (Some (Json.Arr []))) "hetzner" None []
    = (Ok [("token", Json.Str "env-token")], [])
  ∧ load_provider_config (vault "env-token" (Some (hetzner_secret (Json.Str "")))) "hetzner"
      None []
    = (Ok [("token", Json.Str "env-token")], [])
  ∧ load_provider_config (vault "env-token" None) "aws" None [] = (Ok [], []).
Proof. split_and!; by vm_compute. Qed.
End ConfigFacts.

(** ** More about the Hetzner generator *)

Module TerraformMore.
Import Eff TerraformGen TerraformGen.Hetzner TerraformWords.
Import Spec SpecCases SpecFacts.
Import ReplaceFacts AppendFacts SplitFacts ContainsFacts.

(** X29: without a maintenance policy the cloud-init text depends on the
    instance only through its labels: an instance marked stateful (label
    [stateful=true], or role [db] or [postgres]) is never rebooted
    automatically, any other one is, at 04:00; and no placeholder of the
    template is left in the text. *)
Theorem user_data_default_policy inst :
  InstanceSpec.maintenance inst = None →
  PyStr.contains (reboot_line (negb (stateful inst))) (_user_data_for_instance inst) = true
  ∧ PyStr.contains (reboot_line (stateful inst)) (_user_data_for_instance inst) = false
  ∧ PyStr.contains (reboot_time_line "04:00") (_user_data_for_instance inst) = true
  ∧ PyStr.contains "__CH_" (_user_data_for_instance inst) = false.
Proof.
  intros Hnone. unfold _user_data_for_instance. cbn zeta. rewrite Hnone.
  cbn [fmap option_fmap option_map].
  fold (stateful inst). destruct (stateful inst); vm_compute; by repeat split.
Qed.

Lemma user_data_default_policy_witness :
  PyStr.contains (reboot_line false)
    (_user_data_for_instance
       (InstanceSpec.mk "pg-1" "cx31" "app-net" None [("role", "Postgres")] [] None))
  = true.
Proof.
  apply (user_data_default_policy
           (InstanceSpec.mk "pg-1" "cx31" "app-net" None [("role", "Postgres")] [] None)
           eq_refl).
Defined.

(** *** References between the generated files *)

Lemma server_block_reference inst spec user_data :
  PyStr.contains (network_reference (PyStr.replace (InstanceSpec.network inst) "-" "_"))
    (_server_block inst spec user_data) = true.
Proof.
  unfold _server_block. cbn zeta.
  set (r := PyStr.replace (InstanceSpec.network inst) "-" "_").
  eapply (contains_concat _ _
            ("    network_id = data.hcloud_network." +:+ r +:+ ".id" +:+ PyStr.nl)).
  - rewrite !elem_of_app. right. right. right. right. left.
  - unfold network_reference.
    change ("    network_id = data.hcloud_network." +:+ r +:+ ".id" +:+ PyStr.nl)
      with ("    " +:+ ("network_id = data.hcloud_network." +:+ (r +:+ (".id" +:+ PyStr.nl)))).
    replace ("network_id = data.hcloud_network." +:+ (r +:+ (".id" +:+ PyStr.nl)))
      with (("network_id = data.hcloud_network." +:+ r +:+ ".id") +:+ PyStr.nl)
      by (by rewrite !append_assoc).
    apply contains_app.
Qed.

Lemma network_blocks_declaration spec net :
  net ∈ DesiredStateSpec.networks spec →
  PyStr.contains (network_declaration (PyStr.replace (NetworkSpec.name net) "-" "_"))
    (PyStr.concat (network_blocks spec)) = true.
Proof.
  intros Hnet. unfold network_blocks.
  eapply contains_concat; [apply list_elem_of_fmap; by exists net|].
  cbn zeta. set (r := PyStr.replace (NetworkSpec.name net) "-" "_").
  unfold network_declaration.
  set (rest := PyStr.nl +:+ "  name = " +:+ PyStr.dq +:+ NetworkSpec.name net +:+ PyStr.dq
               +:+ PyStr.nl +:+ "}" +:+ PyStr.nl +:+ PyStr.nl).
  match goal with
  | |- PyStr.contains ?w ?x = true =>
      replace x with (w +:+ rest) by (by rewrite !append_assoc)
  end.
  apply contains_prefix, prefix_app_same.
Qed.

Lemma graph_instances_declared set_iter g provider inst :
  (∀ node, node ∈ CloudGraph.nodes g → Node.type node = NodeType.NETWORK →
           Node.id node ≠ "synthetic:default") →
  inst ∈ DesiredStateSpec.instances (graph_to_spec set_iter g provider) →
  ∃ net, net ∈ DesiredStateSpec.networks (graph_to_spec set_iter g provider)
         ∧ NetworkSpec.name net = InstanceSpec.network inst.
Proof.
  intros Hfree Hinst. unfold graph_to_spec in *. simpl in *.
  set (networks0 := build_networks g) in *.
  set (sn := build_server_network networks0 g) in *.
  destruct (fold_add_instance_networked sn (CloudGraph.nodes g)
              (mk_acc networks0 [] [])) as ([Hnamed _] & _ & _).
  { intros k n Hk. simpl. eapply server_network_values; [|exact Hk].
    intros k' n' Hempty. by rewrite lookup_empty in Hempty. }
  { split; simpl.
    - intros i Hi. by apply elem_of_nil in Hi.
    - left. destruct (PyDict.get "synthetic:default" networks0) as [v|] eqn:Hget; [|done].
      apply get_Some_elem_of, build_networks_keys in Hget as (node & Hin & Hty & Hid).
      by destruct (Hfree node Hin Hty). }
  apply Hnamed, names_elem_of in Hinst as (k & net & Hk & Hname).
  exists net. split; [|done]. apply list_elem_of_fmap. by exists (k, net).
Qed.

(** X30: the Terraform generated from a compiled graph is closed: every
    server block refers to its network through a data source that
    [network.tf] declares, under the same sanitized name (provided no
    Network node has the reserved id [synthetic:default]). *)
Theorem compiled_servers_reference_declared_networks set_iter g provider :
  (∀ node, node ∈ CloudGraph.nodes g → Node.type node = NodeType.NETWORK →
           Node.id node ≠ "synthetic:default") →
  let spec := graph_to_spec set_iter g provider in
  ∀ inst, inst ∈ DesiredStateSpec.instances spec →
    ∃ r, PyStr.contains (network_reference r)
           (_server_block inst spec (_user_data_for_instance inst)) = true
         ∧ PyStr.contains (network_declaration r) (PyStr.concat (network_blocks spec)) = true
         ∧ PyStr.contains "-" r = false.
Proof.
  intros Hfree spec inst Hinst.
  destruct (graph_instances_declared set_iter g provider inst Hfree Hinst)
    as (net & Hnet & Hname).
  exists (PyStr.replace (InstanceSpec.network inst) "-" "_"). split_and!.
  - apply server_block_reference.
  - rewrite <- Hname. by apply network_blocks_declaration.
  - apply no_old_in_replace; [done|done|].
    intros c [<-|[]] [Heq|[]]. discriminate Heq.
Qed.

Lemma compiled_servers_reference_declared_networks_witness :
  ∃ r, PyStr.contains (network_reference r)
         (_server_block (InstanceSpec.mk "web" "cx31" "net-b" (Some "nbg1") [] [] None)
            (graph_to_spec (λ s, s) two_networks "hetzner")
            (_user_data_for_instance
               (InstanceSpec.mk "web" "cx31" "net-b" (Some "nbg1") [] [] None))) = true
       ∧ PyStr.contains (network_declaration r)
           (PyStr.concat (network_blocks (graph_to_spec (λ s, s) two_networks "hetzner")))
         = true
       ∧ PyStr.contains "-" r = false.
Proof.
  apply (compiled_servers_reference_declared_networks (λ s, s) two_networks "hetzner").
  - intros node Hin _.
    repeat (apply elem_of_cons in Hin as [->|Hin]; [done|]). by apply elem_of_nil in Hin.
  - vm_compute. by left.
Defined.

Example two_networks_terraform :
  PyStr.concat (network_blocks (graph_to_spec (λ s, s) two_networks "hetzner"))
  = PyStr.text
      [ "data " +:+ PyStr.dq +:+ "hcloud_network" +:+ PyStr.dq +:+ " " +:+ PyStr.dq
        +:+ "net_a" +:+ PyStr.dq +:+ " {";
        "  name = " +:+ PyStr.dq +:+ "net-a" +:+ PyStr.dq;
        "}"; "";
        "data " +:+ PyStr.dq +:+ "hcloud_network" +:+ PyStr.dq +:+ " " +:+ PyStr.dq
        +:+ "net_b" +:+ PyStr.dq +:+ " {";
        "  name = " +:+ PyStr.dq +:+ "net-b" +:+ PyStr.dq;
        "}"; "" ].
Proof. by vm_compute. Qed.
End TerraformMore.
